(** * rule_convergence: ZDD text/CSV exporters and evaluation bookkeeping

    A shallow embedding of the Python sources

    - [zdd_binary_to_text.py]   (text exporter, command line driver),
    - [summarize_agreement.py]  ([parse_assignment], the two clause texts),
    - [tools/zdd_to_csv_correct.py] (loader, the three CSV reports, the
      printed summary),
    - [analyze_evaluations.py]  (loading, [compute_cohens_kappa],
      [compute_model_quality], [analyze_disagreements]),
    - [batch_evaluation_manager.py] ([__init__], [get_batch_info],
      [save_batch], [get_next_batch]),

    together with the properties stated about them.  Python [str] values are
    byte strings ([string]), Python [int] values are [Z], a [dict] whose
    iteration order is observable is an insertion-ordered association list,
    a [dict] that is only looked up is a [gmap], a [set] is a [gset]. *)

From Stdlib Require Import ZArith Ascii String Strings.Byte DecimalZ DecimalString.
From stdpp Require Import gmap strings list sorting.

Local Open Scope string_scope.
Local Open Scope Z_scope.
Local Open Scope list_scope.

(** ** Python built-ins on strings and integers *)

Module Py.

(** Outcome of a Python call: a value, or a raised exception. *)
Inductive exn :=
| FileNotFoundError (msg : string)
| ValueError (msg : string)
| OtherError (msg : string)
| SystemExit (code : Z).

Inductive result (A : Type) :=
| Ok (a : A)
| Raise (e : exn).
Arguments Ok {A} a.
Arguments Raise {A} e.

Definition is_ok {A} (r : result A) : bool :=
  match r with Ok _ => true | Raise _ => false end.

(** The digits of a decimal numeral, most significant first. *)
Fixpoint uint_digits (d : Decimal.uint) : string :=
  match d with
  | Decimal.Nil => ""
  | Decimal.D0 d => String "0" (uint_digits d)
  | Decimal.D1 d => String "1" (uint_digits d)
  | Decimal.D2 d => String "2" (uint_digits d)
  | Decimal.D3 d => String "3" (uint_digits d)
  | Decimal.D4 d => String "4" (uint_digits d)
  | Decimal.D5 d => String "5" (uint_digits d)
  | Decimal.D6 d => String "6" (uint_digits d)
  | Decimal.D7 d => String "7" (uint_digits d)
  | Decimal.D8 d => String "8" (uint_digits d)
  | Decimal.D9 d => String "9" (uint_digits d)
  end.

(** [str(n)] for an [int]: canonical decimal, [-] for negatives.  The
    interpreter's configurable limit on the number of digits is not modelled. *)
Definition str (z : Z) : string :=
  match Z.to_int z with
  | Decimal.Pos d => uint_digits d
  | Decimal.Neg d => String "-" (uint_digits d)
  end.

(** [str(e)] of an exception is its message. *)
Definition exn_msg (e : exn) : string :=
  match e with
  | FileNotFoundError m | ValueError m | OtherError m => m
  | SystemExit c => str c
  end.

(** The value of a decimal digit character (codes 48 to 57). *)
Definition digit_value (c : ascii) : option Z :=
  let code := Z.of_N (N_of_ascii c) in
  if (48 <=? code) && (code <=? 57) then Some (code - 48) else None.

(** The digit part of an [int(...)] literal: at least one digit, single
    underscores allowed between digits.  [need] says that the next character
    has to be a digit (at the start and after an underscore). *)
Fixpoint int_digits (s : string) (acc : Z) (need : bool) : option Z :=
  match s with
  | "" => if need then None else Some acc
  | String c r =>
      match digit_value c with
      | Some v => int_digits r (10 * acc + v) false
      | None =>
          if Ascii.eqb c "_" && negb need then int_digits r acc true else None
      end
  end.

(** Characters removed by [str.strip()] without argument: tab to carriage
    return (codes 9 to 13), the separators 28 to 31, and the space. *)
Definition is_whitespace (c : ascii) : bool :=
  let code := Z.of_N (N_of_ascii c) in
  (9 <=? code) && (code <=? 13) || (28 <=? code) && (code <=? 32).

Fixpoint lstrip_by (p : ascii -> bool) (s : string) : string :=
  match s with
  | "" => ""
  | String c r => if p c then lstrip_by p r else s
  end.

Fixpoint rstrip_by (p : ascii -> bool) (s : string) : string :=
  match s with
  | "" => ""
  | String c r =>
      match rstrip_by p r with
      | "" => if p c then "" else String c ""
      | r' => String c r'
      end
  end.

Definition strip_by (p : ascii -> bool) (s : string) : string :=
  rstrip_by p (lstrip_by p s).

Fixpoint mem_char (c : ascii) (chars : string) : bool :=
  match chars with
  | "" => false
  | String d r => Ascii.eqb c d || mem_char c r
  end.

(** [s.strip(chars)]: drop leading and trailing characters in [chars]. *)
Definition strip_chars (chars s : string) : string :=
  strip_by (fun c => mem_char c chars) s.

(** [s.strip()]. *)
Definition strip (s : string) : string := strip_by is_whitespace s.

(** Characters that [int(...)] skips around the literal of a [str] of ASCII
    characters: codes 9 to 13 and the space, not the separators 28 to 31. *)
Definition is_int_space (c : ascii) : bool :=
  let code := Z.of_N (N_of_ascii c) in
  (9 <=? code) && (code <=? 13) || (code =? 32).

(** [int(s)] in base 10 on a [str] of ASCII characters; [None] stands for
    [ValueError]. *)
Definition int (s : string) : option Z :=
  match strip_by is_int_space s with
  | String "-" r => Z.opp <$> int_digits r 0 true
  | String "+" r => int_digits r 0 true
  | r => int_digits r 0 true
  end.

(** [s.split(sep)] for a one-character separator. *)
Fixpoint split (sep : ascii) (s : string) : list string :=
  match s with
  | "" => [""]
  | String c r =>
      if Ascii.eqb c sep then "" :: split sep r
      else match split sep r with
           | h :: t => String c h :: t
           | [] => [String c ""]
           end
  end.

(** [sep.join(parts)]. *)
Fixpoint join (sep : string) (parts : list string) : string :=
  match parts with
  | [] => ""
  | [p] => p
  | p :: ps => p +:+ sep +:+ join sep ps
  end.

(** [min(l)] and [max(l)]; [None] stands for the [ValueError] on an empty
    sequence. *)
Definition min (l : list Z) : option Z :=
  match l with
  | [] => None
  | x :: r => Some (fold_left Z.min r x)
  end.

Definition max (l : list Z) : option Z :=
  match l with
  | [] => None
  | x :: r => Some (fold_left Z.max r x)
  end.

(** [sorted(l)] on integers and on strings. *)
Definition sorted (l : list Z) : list Z := merge_sort Z.le l.
Definition sorted_str (l : list string) : list string := merge_sort String.le l.

(** [len(set(l))]. *)
Definition count_distinct (l : list Z) : Z :=
  Z.of_nat (size (list_to_set l : gset Z)).

End Py.

(** ** Decoded structures and their textual encoding *)

(** [ZDDStructure]: what [ZDDParser.load()] returns; the exporters read its
    [magic_number] and [arrays] attributes only. *)
Record ZDDStructure := {
  magic_number : Z;
  arrays : list (list Z)
}.

Definition LF : string := String "010" "".

(** [f"[{','.join(map(str, array))}]"] *)
Definition array_text (array : list Z) : string :=
  "[" +:+ Py.join "," (Py.str <$> array) +:+ "]".

(** [summarize_agreement.parse_assignment]; [None] is the [ValueError] of a
    failing [int(...)]. *)
Definition parse_assignment (array_sig : string) : option (list Z) :=
  let clean := Py.strip_chars "[]" array_sig in
  if decide (clean = "") then Some []
  else mapM (fun x => Py.int (Py.strip x)) (Py.split "," clean).

(** The lines of a text: every line is ended by a line feed, which is not
    part of the line; a last line without line feed counts when non-empty. *)
Fixpoint text_lines (s : string) : list string :=
  match s with
  | "" => []
  | String c r =>
      if Ascii.eqb c "010" then "" :: text_lines r
      else match text_lines r with
           | [] => [String c ""]
           | h :: t => String c h :: t
           end
  end.

(** ** The world of the scripts: files, log records, standard output *)

Inductive level := INFO | WARNING.

(** [files] are the regular files with their content, [dirs] the directories.
    [os_error p] is the exception with which the operating system refuses to
    create or truncate [p] (missing parent directory, permissions, ...), if
    it does. *)
Record world := {
  files : gmap string string;
  dirs : gset string;
  os_error : string -> option Py.exn;
  log : list (level * string);
  stdout : list string
}.

Definition set_files (f : gmap string string -> gmap string string) (w : world) : world :=
  {| files := f (files w); dirs := dirs w; os_error := os_error w;
     log := log w; stdout := stdout w |}.

Definition set_dirs (f : gset string -> gset string) (w : world) : world :=
  {| files := files w; dirs := f (dirs w); os_error := os_error w;
     log := log w; stdout := stdout w |}.

Definition add_log (l : level) (msg : string) (w : world) : world :=
  {| files := files w; dirs := dirs w; os_error := os_error w;
     log := log w ++ [(l, msg)]; stdout := stdout w |}.

Definition add_stdout (msg : string) (w : world) : world :=
  {| files := files w; dirs := dirs w; os_error := os_error w;
     log := log w; stdout := stdout w ++ [msg] |}.

(** Computations that read and change a state [S] and may raise. *)
Definition St (S A : Type) : Type := S -> Py.result A * S.

Definition ret {S A} (a : A) : St S A := fun s => (Py.Ok a, s).

Definition bind {S A B} (m : St S A) (k : A -> St S B) : St S B :=
  fun s =>
    match m s with
    | (Py.Ok a, s') => k a s'
    | (Py.Raise e, s') => (Py.Raise e, s')
    end.

Definition raise {S A} (e : Py.exn) : St S A := fun s => (Py.Raise e, s).

(** [try: body  except Exception as e: handler(e)]; [SystemExit] is not an
    [Exception] and passes through. *)
Definition try_except_Exception {S A} (body : St S A) (handler : Py.exn -> St S A)
  : St S A :=
  fun s =>
    match body s with
    | (Py.Raise (Py.SystemExit c), s') => (Py.Raise (Py.SystemExit c), s')
    | (Py.Raise e, s') => handler e s'
    | r => r
    end.

Declare Scope py_scope.
Delimit Scope py_scope with py.
Notation "x <- m ;; k" := (bind m (fun x => k))
  (at level 100, m at next level, right associativity) : py_scope.
Notation "m ;; k" := (bind m (fun _ => k))
  (at level 100, right associativity) : py_scope.
Local Open Scope py_scope.

(** [for x in l: body(x)] *)
Fixpoint for_each {S A} (l : list A) (body : A -> St S unit) : St S unit :=
  match l with
  | [] => ret tt
  | x :: r => body x ;; for_each r body
  end.

(** [enumerate(l)] *)
Definition enumerate {A} (l : list A) : list (Z * A) :=
  imap (fun i x => (Z.of_nat i, x)) l.

(** [len(l)] *)
Definition len {A} (l : list A) : Z := Z.of_nat (length l).

Definition path_exists (p : string) : St world bool :=
  fun w => (Py.Ok (bool_decide (is_Some (files w !! p) \/ p ∈ dirs w)), w).

Definition path_is_file (p : string) : St world bool :=
  fun w => (Py.Ok (bool_decide (is_Some (files w !! p))), w).

Definition path_is_dir (p : string) : St world bool :=
  fun w => (Py.Ok (bool_decide (p ∈ dirs w)), w).

(** [open(p, 'w')]: creates or truncates the file. *)
Definition open_w (p : string) : St world unit :=
  fun w =>
    match os_error w p with
    | Some e => (Py.Raise e, w)
    | None =>
        if bool_decide (p ∈ dirs w)
        then (Py.Raise (Py.OtherError "IsADirectoryError"), w)
        else (Py.Ok tt, set_files (insert p "") w)
    end.

(** [f.write(s)] on the file opened at [p]. *)
Definition f_write (p s : string) : St world unit :=
  fun w => (Py.Ok tt, set_files (fun fs => <[p := default "" (fs !! p) +:+ s]> fs) w).

Definition logger_info (msg : string) : St world unit :=
  fun w => (Py.Ok tt, add_log INFO msg w).

Definition logger_warning (msg : string) : St world unit :=
  fun w => (Py.Ok tt, add_log WARNING msg w).

Definition print (msg : string) : St world unit :=
  fun w => (Py.Ok tt, add_stdout msg w).

Definition sys_exit {A} (code : Z) : St world A := raise (Py.SystemExit code).

(** Exit status of the process whose main program ended with [r]. *)
Definition exit_status {A} (r : Py.result A) : Z :=
  match r with
  | Py.Ok _ => 0
  | Py.Raise (Py.SystemExit c) => c
  | Py.Raise _ => 1
  end.

(** ** [zdd_binary_to_text.py] *)

Section Converter.

(** [zdd_parser.ZDDParser] is imported, not defined, by the scripts: [decode]
    is what [load()] makes of a file's bytes. *)
Variable decode : string -> Py.result ZDDStructure.

(** [pathlib]: [p.name], [p.with_suffix('.txt')], [p.parent], [p / q] and
    [p.glob('zdd*.bin')]. *)
Variable path_name : string -> string.
Variable with_suffix_txt : string -> string.
Variable path_parent : string -> string.
Variable joinpath : string -> string -> string.
Variable glob_zdd_bin : world -> string -> list string.

(** [witness_export_converter.convert_witness_export_directory], imported. *)
Variable convert_witness_export_directory : string -> St world string.

(** [Path(text)]: the path that [pathlib] makes of a text, as its text. *)
Variable Path : string -> string.

(** [ZDDParser(p).load()] *)
Definition parser_load (p : string) : St world ZDDStructure :=
  fun w =>
    match files w !! p with
    | Some bytes => (decode bytes, w)
    | None => (Py.Raise (Py.FileNotFoundError p), w)
    end.

Definition _write_arrays_to_text (arrays : list (list Z)) (output_file : string)
  : St world unit :=
  open_w output_file ;;
  for_each arrays (fun array =>
    let array_text := array_text array in
    f_write output_file (array_text +:+ LF)) ;;
  logger_info ("Wrote " +:+ Py.str (len arrays) +:+ " arrays to " +:+ output_file).

Definition convert_binary_to_text (binary_file : string) (output_file : option string)
  : St world string :=
  ex <- path_exists binary_file ;;
  if negb ex then
    raise (Py.FileNotFoundError ("Binary ZDD file not found: " +:+ binary_file))
  else
    logger_info ("Converting " +:+ path_name binary_file +:+ " to text format") ;;
    structure <- parser_load binary_file ;;
    let output_file :=
      match output_file with
      | None => with_suffix_txt binary_file
      | Some o => o
      end in
    _write_arrays_to_text (arrays structure) output_file ;;
    logger_info ("Converted to: " +:+ output_file) ;;
    ret output_file.

(** The body of the loop over [enumerate(binary_files)]. *)
Definition convert_one_of_many (output_file : string) (item : Z * string)
  : St world unit :=
  let '(i, binary_file) := item in
  ex <- path_exists binary_file ;;
  if negb ex then
    logger_warning ("File not found: " +:+ binary_file)
  else
    structure <- parser_load binary_file ;;
    f_write output_file
      ("# ZDD " +:+ Py.str (i + 1) +:+ ": " +:+ path_name binary_file +:+ LF) ;;
    f_write output_file ("# Magic: " +:+ Py.str (magic_number structure) +:+ LF) ;;
    f_write output_file ("# Arrays: " +:+ Py.str (len (arrays structure)) +:+ LF) ;;
    f_write output_file ("#" +:+ LF) ;;
    for_each (arrays structure) (fun array =>
      let array_text := array_text array in
      f_write output_file (array_text +:+ LF)) ;;
    f_write output_file ("#" +:+ LF) ;;
    f_write output_file ("# End of ZDD " +:+ Py.str (i + 1) +:+ LF) ;;
    f_write output_file ("#" +:+ LF) ;;
    logger_info ("Added " +:+ Py.str (len (arrays structure)) +:+ " arrays from "
                 +:+ path_name binary_file).

Definition convert_multiple_binary_files (binary_files : list string)
    (output_file : option string) : St world string :=
  match binary_files with
  | [] => raise (Py.ValueError "No binary ZDD files provided")
  | first :: _ =>
      logger_info ("Converting " +:+ Py.str (len binary_files) +:+ " binary ZDD files") ;;
      let output_file :=
        match output_file with
        | None => joinpath (path_parent first) "zdd_vectors.txt"
        | Some o => o
        end in
      open_w output_file ;;
      for_each (enumerate binary_files) (convert_one_of_many output_file) ;;
      logger_info ("Converted " +:+ Py.str (len binary_files) +:+ " files to: "
                   +:+ output_file) ;;
      ret output_file
  end.

Definition convert_zdd_binary_file (binary_file : string) (output_file : option string)
  : St world string :=
  convert_binary_to_text binary_file output_file.

Definition convert_zdd_binary_directory (directory : string)
    (output_file : option string) : St world string :=
  fun w =>
    let binary_files := glob_zdd_bin w directory in
    match binary_files with
    | [] => raise (Py.FileNotFoundError ("No zdd*.bin files found in " +:+ directory)) w
    | _ => convert_multiple_binary_files binary_files output_file w
    end.

Definition convert_job_directory (job_dir : string) : St world (string * string) :=
  let witness_output_dir := joinpath job_dir "witness_output" in
  ex <- path_exists witness_output_dir ;;
  if negb ex then
    raise (Py.FileNotFoundError
             ("Witness output directory not found: " +:+ witness_output_dir))
  else
    kelsen_data_file <- convert_witness_export_directory witness_output_dir ;;
    zdd_text_file <- convert_zdd_binary_directory witness_output_dir None ;;
    ret (kelsen_data_file, zdd_text_file).

(** The parsed command line: [args.input], [args.output] ([None] without
    [-o]) and [args.job]. *)
Record cli_args := {
  arg_input : string;
  arg_output : option string;
  arg_job : bool
}.

(** [Path(args.output) if args.output else None]: an empty text counts as no
    output. *)
Definition output_path_of (args : cli_args) : option string :=
  match arg_output args with
  | None => None
  | Some o => if decide (o = "") then None else Some (Path o)
  end.

(** The [__main__] block after argument parsing. *)
Definition main (args : cli_args) : St world unit :=
  let input_path := Path (arg_input args) in
  let output_path := output_path_of args in
  try_except_Exception
    (if arg_job args then
       r <- convert_job_directory input_path ;;
       print "✅ Converted job directory:" ;;
       print ("  kelsen_data.json: " +:+ r.1) ;;
       print ("  zdd_vectors.txt: " +:+ r.2)
     else
       is_file <- path_is_file input_path ;;
       if is_file then
         result <- convert_zdd_binary_file input_path output_path ;;
         print ("✅ Converted: " +:+ result)
       else
         is_dir <- path_is_dir input_path ;;
         if is_dir then
           result <- convert_zdd_binary_directory input_path output_path ;;
           print ("✅ Converted directory: " +:+ result)
         else
           print ("❌ Error: " +:+ input_path +:+ " is not a file or directory") ;;
           sys_exit 1)
    (fun e =>
       print ("❌ Error: " +:+ Py.exn_msg e) ;;
       sys_exit 1).

End Converter.

(** ** Insertion-ordered dictionaries *)

Module PyDict.
Section dict.
Context {K V : Type} `{EqDecision K}.

(** [d[k]] ([None]: [KeyError]) *)
Fixpoint get (d : list (K * V)) (k : K) : option V :=
  match d with
  | [] => None
  | (k', v) :: r => if decide (k' = k) then Some v else get r k
  end.

(** [d[k] = v]: an existing key keeps its position, a new key goes last. *)
Fixpoint set (d : list (K * V)) (k : K) (v : V) : list (K * V) :=
  match d with
  | [] => [(k, v)]
  | (k', v') :: r =>
      if decide (k' = k) then (k, v) :: r else (k', v') :: set r k v
  end.

(** [d.keys()], in insertion order *)
Definition keys (d : list (K * V)) : list K := d.*1.

(** The dictionary built by a sequence of assignments [d[k] = v]. *)
Definition of_assignments (l : list (K * V)) : list (K * V) :=
  fold_left (fun d kv => set d kv.1 kv.2) l [].
End dict.
End PyDict.

(** ** [tools/zdd_to_csv_correct.py] *)

Inductive cell :=
| CInt (z : Z)
| CStr (s : string).

(** A CSV file as [csv.writer] receives it: the rows given to [writerow]. *)
Definition csv := list (list cell).

Definition thesis_mapping : gmap Z string :=
  list_to_map
    [(1, "2020418"); (2, "2021246"); (3, "2021398"); (4, "2021537");
     (5, "2023487"); (6, "2025237"); (7, "2025433"); (8, "2029251");
     (9, "2030499"); (10, "2030500"); (11, "2030717")].

(** [self.thesis_mapping.get(zdd_id, f"unknown_{zdd_id}")] *)
Definition thesis_number_of (zdd_id : Z) : string :=
  default ("unknown_" +:+ Py.str zdd_id) (thesis_mapping !! zdd_id).

Definition complete_header : list cell :=
  CStr <$> ["zdd_id"; "thesis_number"; "magic_number"; "array_index";
            "array_length"; "array_elements"; "array_signature_sorted";
            "element_position"; "element_value"].

Definition summary_header : list cell :=
  CStr <$> ["zdd_id"; "thesis_number"; "magic_number"; "array_index";
            "array_length"; "array_elements"; "array_signature_sorted";
            "unique_elements"; "min_element"; "max_element"].

Definition pattern_header : list cell :=
  CStr <$> ["array_signature"; "frequency_across_zdds"; "zdd_occurrences";
            "first_seen_zdd"; "array_length"; "unique_elements"].

(** State of [generate_complete_csv]: rows written so far and the counters. *)
Record complete_state := {
  cs_rows : csv;
  total_arrays : Z;
  total_elements : Z
}.

(** The loop over [enumerate(array)]: one [writerow] per element. *)
Definition complete_element_step (zdd_id : Z) (structure : ZDDStructure)
    (array_idx : Z) (array : list Z) (st : complete_state) (e : Z * Z)
  : complete_state :=
  let '(element_pos, element_value) := e in
  let thesis_number := thesis_number_of zdd_id in
  let array_length := len array in
  let array_elements := array_text array in
  let array_signature_sorted := array_text (Py.sorted array) in
  {| cs_rows := cs_rows st ++
       [[CInt zdd_id; CStr thesis_number; CInt (magic_number structure);
         CInt array_idx; CInt array_length; CStr array_elements;
         CStr array_signature_sorted; CInt element_pos; CInt element_value]];
     total_arrays := total_arrays st;
     total_elements := total_elements st + 1 |}.

(** The loop over [enumerate(structure.arrays)]. *)
Definition complete_array_step (zdd_id : Z) (structure : ZDDStructure)
    (st : complete_state) (a : Z * list Z) : complete_state :=
  let '(array_idx, array) := a in
  let st' := fold_left (complete_element_step zdd_id structure array_idx array)
                       (enumerate array) st in
  {| cs_rows := cs_rows st';
     total_arrays := total_arrays st' + 1;
     total_elements := total_elements st' |}.

(** The loop over [sorted(self.zdds.keys())]; [None] is a [KeyError]. *)
Definition complete_zdd_step (zdds : list (Z * ZDDStructure))
    (st : option complete_state) (zdd_id : Z) : option complete_state :=
  st ← st;
  structure ← PyDict.get zdds zdd_id;
  Some (fold_left (complete_array_step zdd_id structure)
                  (enumerate (arrays structure)) st).

Definition generate_complete_csv (zdds : list (Z * ZDDStructure))
  : option complete_state :=
  fold_left (complete_zdd_step zdds) (Py.sorted (PyDict.keys zdds))
    (Some {| cs_rows := [complete_header]; total_arrays := 0; total_elements := 0 |}).

(** One array of [generate_array_summary_csv]; [None] is an exception raised by
    [min] or [max]. *)
Definition summary_row (zdd_id : Z) (structure : ZDDStructure)
    (array_idx : Z) (array : list Z) : option (list cell) :=
  let thesis_number := thesis_number_of zdd_id in
  let array_length := len array in
  let array_elements := array_text array in
  let array_signature_sorted := array_text (Py.sorted array) in
  let unique_elements := Py.count_distinct array in
  min_element ← (if decide (array = []) then Some 0 else Py.min array);
  max_element ← (if decide (array = []) then Some 0 else Py.max array);
  Some [CInt zdd_id; CStr thesis_number; CInt (magic_number structure);
        CInt array_idx; CInt array_length; CStr array_elements;
        CStr array_signature_sorted; CInt unique_elements;
        CInt min_element; CInt max_element].

Definition summary_array_step (zdd_id : Z) (structure : ZDDStructure)
    (rows : option csv) (a : Z * list Z) : option csv :=
  rows ← rows;
  row ← summary_row zdd_id structure a.1 a.2;
  Some (rows ++ [row]).

Definition summary_zdd_step (zdds : list (Z * ZDDStructure))
    (rows : option csv) (zdd_id : Z) : option csv :=
  rows ← rows;
  structure ← PyDict.get zdds zdd_id;
  fold_left (summary_array_step zdd_id structure)
            (enumerate (arrays structure)) (Some rows).

Definition generate_array_summary_csv (zdds : list (Z * ZDDStructure))
  : option csv :=
  fold_left (summary_zdd_step zdds) (Py.sorted (PyDict.keys zdds))
    (Some [summary_header]).

(** [pattern_occurrences[pattern].append((zdd_id, array_idx))] on a
    [defaultdict(list)]. *)
Definition occurrences_append (d : list (list Z * list (Z * Z)))
    (pattern : list Z) (occ : Z * Z) : list (list Z * list (Z * Z)) :=
  PyDict.set d pattern (default [] (PyDict.get d pattern) ++ [occ]).

Definition pattern_array_step (zdd_id : Z) (d : list (list Z * list (Z * Z)))
    (a : Z * list Z) : list (list Z * list (Z * Z)) :=
  let '(array_idx, array) := a in
  let pattern := Py.sorted array in
  occurrences_append d pattern (zdd_id, array_idx).

(** The first loop of [generate_pattern_analysis_csv], over [self.zdds.items()]. *)
Definition collect_patterns (zdds : list (Z * ZDDStructure))
  : list (list Z * list (Z * Z)) :=
  fold_left (fun d item =>
               fold_left (pattern_array_step item.1) (enumerate (arrays item.2)) d)
            zdds [].

(** [sorted(items, key=lambda x: len(x[1]), reverse=True)]: stable, larger
    keys first, equal keys in their original order. *)
Fixpoint insert_by_frequency {A B} (x : A * list B) (l : list (A * list B))
  : list (A * list B) :=
  match l with
  | [] => [x]
  | y :: r =>
      if (length y.2 <=? length x.2)%nat then x :: l
      else y :: insert_by_frequency x r
  end.

Definition sorted_by_frequency {A B} (l : list (A * list B)) : list (A * list B) :=
  foldr insert_by_frequency [] l.

(** One row of the pattern table; [None] is the [ValueError] of [min]. *)
Definition pattern_row (item : list Z * list (Z * Z)) : option (list cell) :=
  let '(pattern, occurrences) := item in
  let zdd_ids := occurrences.*1 in
  let unique_zdds := Py.sorted (elements (list_to_set zdd_ids : gset Z)) in
  let array_signature := array_text pattern in
  let frequency := len occurrences in
  let zdd_occurrences := Py.join "," (Py.str <$> unique_zdds) in
  first_seen ← Py.min unique_zdds;
  let array_length := len pattern in
  let unique_elements := Py.count_distinct pattern in
  Some [CStr array_signature; CInt frequency; CStr zdd_occurrences;
        CInt first_seen; CInt array_length; CInt unique_elements].

Definition pattern_row_step (rows : option csv) (item : list Z * list (Z * Z))
  : option csv :=
  rows ← rows;
  row ← pattern_row item;
  Some (rows ++ [row]).

Definition generate_pattern_analysis_csv (zdds : list (Z * ZDDStructure))
  : option csv :=
  let pattern_occurrences := collect_patterns zdds in
  fold_left pattern_row_step (sorted_by_frequency pattern_occurrences)
    (Some [pattern_header]).

(** The frequency column of a row of the pattern table. *)
Definition frequency_of (row : list cell) : Z :=
  match row !! 1%nat with
  | Some (CInt z) => z
  | _ => 0
  end.


(** ** [analyze_evaluations.py] *)

(** The entry that [load_batch_evaluations] stores for a clause. *)
Record clause_evaluation := {
  rating : string;
  justification : string;
  thesis_id : Z;
  thesis_title : string
}.

Section Kappa.

(** [sklearn.metrics.cohen_kappa_score]; [kappa] is the type of its value. *)
Context {kappa : Type}.
Variable cohen_kappa_score : list string -> list string -> kappa.

(** Truth value of a rating: a string is true when it is not empty. *)
Definition rated (r : string) : bool := bool_decide (r <> "").

(** The loop over [sorted(common_clauses)]; [None] is a [KeyError]. *)
Definition kappa_step (eval1 eval2 : gmap string clause_evaluation)
    (acc : option (list string * list string)) (clause_id : string)
  : option (list string * list string) :=
  acc ← acc;
  e1 ← eval1 !! clause_id;
  e2 ← eval2 !! clause_id;
  let r1 := rating e1 in
  let r2 := rating e2 in
  if rated r1 && rated r2
  then Some (acc.1 ++ [r1], acc.2 ++ [r2])
  else Some acc.

Definition compute_cohens_kappa (eval1 eval2 : gmap string clause_evaluation)
  : option (option kappa * list string * list string) :=
  let common_clauses : gset string := dom eval1 ∩ dom eval2 in
  if decide (common_clauses = ∅) then Some (None, [], [])
  else
    acc ← fold_left (kappa_step eval1 eval2)
                    (Py.sorted_str (elements common_clauses)) (Some ([], []));
    let ratings1 := acc.1 in
    let ratings2 := acc.2 in
    if decide (ratings1 = []) then Some (None, [], [])
    else Some (Some (cohen_kappa_score ratings1 ratings2), ratings1, ratings2).

End Kappa.

(** ** [batch_evaluation_manager.py] *)

(** An entry of [index['batches']] and the index document. *)
Record batch_entry := {
  batch_number : Z;
  thesis_ids : list Z;
  status : gmap string string
}.

Record batch_index := {
  batches : list batch_entry;
  total_batches : Z;
  total_theses : Z
}.

(** The attributes of a [BatchEvaluationManager]. *)
Record manager := {
  eval_dir : string;
  index_file : string;
  index : batch_index
}.

Definition set_index (f : batch_index -> batch_index) (self : manager) : manager :=
  {| eval_dir := eval_dir self; index_file := index_file self;
     index := f (index self) |}.

(** [batch['status'][evaluator_name] = 'completed'] *)
Definition set_completed (evaluator_name : string) (batch : batch_entry) : batch_entry :=
  {| batch_number := batch_number batch;
     thesis_ids := thesis_ids batch;
     status := <[evaluator_name := "completed"]> (status batch) |}.

(** The loop of [save_batch] over [self.index['batches']], left by [break] at
    the first entry with the batch number. *)
Fixpoint mark_completed (batches : list batch_entry) (batch_num : Z)
    (evaluator_name : string) : list batch_entry :=
  match batches with
  | [] => []
  | batch :: rest =>
      if decide (batch_number batch = batch_num)
      then set_completed evaluator_name batch :: rest
      else batch :: mark_completed rest batch_num evaluator_name
  end.

(** [p.mkdir(exist_ok=True)] *)
Definition mkdir_exist_ok (p : string) : St world unit :=
  fun w =>
    if bool_decide (p ∈ dirs w) then (Py.Ok tt, w)
    else if bool_decide (is_Some (files w !! p))
    then (Py.Raise (Py.OtherError "FileExistsError"), w)
    else match os_error w p with
         | Some e => (Py.Raise e, w)
         | None => (Py.Ok tt, set_dirs (union {[p]}) w)
         end.

(** A computation on the world, run by a method of the manager. *)
Definition lift_world {A} (m : St world A) : St (manager * world) A :=
  fun s => let '(r, w') := m s.2 in (r, (s.1, w')).

Definition get_self : St (manager * world) manager :=
  fun s => (Py.Ok s.1, s).

Definition update_index (f : batch_index -> batch_index) : St (manager * world) unit :=
  fun s => (Py.Ok tt, (set_index f s.1, s.2)).

Section BatchManager.

(** The batch document handed to [save_batch], its ['batch_number'] and the
    two uses of [json.dump]. *)
Context {batch_document : Type}.
Variable batch_number_of : batch_document -> Z.
Variable dumps_batch : batch_document -> string.
Variable dumps_index : batch_index -> string.
Variable joinpath : string -> string -> string.

Definition save_index : St (manager * world) unit :=
  self <- get_self ;;
  lift_world (open_w (index_file self) ;;
              f_write (index_file self) (dumps_index (index self))).

Definition save_batch (batch_data : batch_document) (evaluator_name : string)
  : St (manager * world) string :=
  self <- get_self ;;
  let batch_num := batch_number_of batch_data in
  let evaluator_dir := joinpath (eval_dir self) evaluator_name in
  lift_world (mkdir_exist_ok evaluator_dir) ;;
  let output_file :=
    joinpath evaluator_dir ("batch_" +:+ Py.str batch_num +:+ ".json") in
  lift_world (open_w output_file ;;
              f_write output_file (dumps_batch batch_data)) ;;
  update_index (fun idx =>
    {| batches := mark_completed (batches idx) batch_num evaluator_name;
       total_batches := total_batches idx;
       total_theses := total_theses idx |}) ;;
  save_index ;;
  lift_world (print ("✅ Saved " +:+ evaluator_name +:+ "/batch_"
                     +:+ Py.str batch_num +:+ ".json")) ;;
  ret output_file.

End BatchManager.

(** ** The binary reader *)

Module ZDDFormat.

Section Layout.

(** The source of the reader, [zdd_parser.py], is not among the sources; this
    module follows the description of the format.  The byte layout of a field
    is fixed by the format and not described: [read_size] decodes a count or
    length field, [read_value] an integer field, each giving the decoded field
    and the remaining bytes, or [None] when the bytes left do not hold the
    field. *)
Variable read_size : list byte -> option (N * list byte).
Variable read_value : list byte -> option (Z * list byte).

(** Modelled from the spec: the elements of an array, [n] integer fields in a
    row (the reader's source is missing). *)
Fixpoint read_values (n : nat) (bytes : list byte) : option (list Z * list byte) :=
  match n with
  | O => Some ([], bytes)
  | S n =>
      v ← read_value bytes;
      r ← read_values n v.2;
      Some (v.1 :: r.1, r.2)
  end.

(** Modelled from the spec: one variable-length array, its declared length and
    then that many elements; fails when the declared length exceeds the bytes
    left (the reader's source is missing). *)
Definition read_array (bytes : list byte) : option (list Z * list byte) :=
  n ← read_size bytes;
  read_values (N.to_nat n.1) n.2.

(** Modelled from the spec: the sequence of [n] arrays that follows the header
    (the reader's source is missing). *)
Fixpoint read_arrays (n : nat) (bytes : list byte)
  : option (list (list Z) * list byte) :=
  match n with
  | O => Some ([], bytes)
  | S n =>
      a ← read_array bytes;
      r ← read_arrays n a.2;
      Some (a.1 :: r.1, r.2)
  end.

(** Modelled from the spec: the count field read from the header, after the
    magic number (the reader's source is missing). *)
Definition header_count (bytes : list byte) : option N :=
  m ← read_value bytes;
  c ← read_size m.2;
  Some c.1.

(** Modelled from the spec: [ZDDParser.load], whose source file
    [zdd_parser.py] is not part of the sources.  It reads a magic number, a
    count, and that many variable-length integer arrays from the bytes, and
    fails ([None], a decoding error) when the bytes are truncated, the magic
    number is absent, or a declared array length exceeds the bytes left. *)
Definition load (bytes : list byte) : option ZDDStructure :=
  m ← read_value bytes;
  c ← read_size m.2;
  a ← read_arrays (N.to_nat c.1) c.2;
  Some {| magic_number := m.1; arrays := a.1 |}.

End Layout.

(** Modelled from the spec: the layout is not described there; this instance,
    used to run the reader on examples, takes little-endian 32-bit fields,
    unsigned for counts and lengths, two's complement for values. *)
Definition le32 (b0 b1 b2 b3 : byte) : N :=
  (Byte.to_N b0 + 256 * (Byte.to_N b1 + 256 * (Byte.to_N b2 + 256 * Byte.to_N b3)))%N.

Definition read_u32 (bytes : list byte) : option (N * list byte) :=
  match bytes with
  | b0 :: b1 :: b2 :: b3 :: rest => Some (le32 b0 b1 b2 b3, rest)
  | _ => None
  end.

Definition read_i32 (bytes : list byte) : option (Z * list byte) :=
  match bytes with
  | b0 :: b1 :: b2 :: b3 :: rest =>
      let u := Z.of_N (le32 b0 b1 b2 b3) in
      Some (if u <? 2 ^ 31 then u else u - 2 ^ 32, rest)
  | _ => None
  end.

Definition load32 : list byte -> option ZDDStructure := load read_u32 read_i32.

End ZDDFormat.

(** ** Concrete instances for running the model *)

Module Posix.

(** The [pathlib] operations (Python 3.11) on the texts of POSIX paths. *)

(** [str(Path(text))]: empty components and [.] components are dropped, and
    with them repeated and trailing slashes; exactly two leading slashes are
    kept as they are; the empty path is [.]. *)
Definition Path (text : string) : string :=
  let parts :=
    filter (fun part => part <> "" /\ part <> ".") (Py.split "/" text) in
  let root :=
    if String.prefix "//" text && negb (String.prefix "///" text) then "//"
    else if String.prefix "/" text then "/" else "" in
  if decide (root = "" /\ parts = []) then "." else root +:+ Py.join "/" parts.

(** The text after the last slash of [p]. *)
Fixpoint after_slash (p : string) : string :=
  match p with
  | "" => ""
  | String c r => if Py.mem_char "/" r then after_slash r
                  else if Ascii.eqb c "/" then r else p
  end.

(** [p.name]: the last component; [.] has none. *)
Definition name (p : string) : string :=
  if decide (p = ".") then "" else after_slash p.

(** The text before the last slash of [p] ([.] when [p] has no slash). *)
Fixpoint before_slash (p : string) : string :=
  match p with
  | "" => "."
  | String c r => if Py.mem_char "/" r then String c (before_slash r)
                  else if Ascii.eqb c "/" then "" else "."
  end.

(** [p.parent]; the parent of a component of the root is the root. *)
Definition parent (p : string) : string :=
  if decide (before_slash p = "") then "/"
  else if decide (before_slash p = "/") then String.substring 0 2 p
  else before_slash p.

(** [p / q]: an absolute [q] replaces [p]. *)
Definition joinpath (p q : string) : string :=
  if String.prefix "/" q then Path q
  else if decide (p = "/" \/ p = "//") then Path (p +:+ q)
  else Path (p +:+ "/" +:+ q).

(** The text [r] cut before its last dot, when something follows that dot. *)
Fixpoint cut_last_dot (r : string) : option string :=
  match r with
  | "" => None
  | String c r' =>
      if Py.mem_char "." r' then String c <$> cut_last_dot r'
      else if Ascii.eqb c "." && negb (String.eqb r' "") then Some "" else None
  end.

(** [p.stem] of a name: the name without its suffix; a suffix starts at the
    last dot of the name, which is neither its first nor its last character. *)
Definition stem (n : string) : string :=
  match n with
  | "" => ""
  | String c r =>
      match cut_last_dot r with
      | Some s => String c s
      | None => n
      end
  end.

(** [p.with_suffix('.txt')]: the suffix of the last component is replaced,
    or [.txt] is added when it has none.  The [ValueError] for a path without
    a name is not modelled. *)
Definition with_suffix_txt (p : string) : string :=
  String.substring 0 (String.length p - String.length (name p)) p
  +:+ stem (name p) +:+ ".txt".

Definition is_zdd_bin (n : string) : bool :=
  String.prefix "zdd" n
  && bool_decide (String.substring (String.length n - 4) 4 n = ".bin").

(** [directory.glob('zdd*.bin')].  The order in which a directory lists its
    entries is up to the file system and is not sorted; here it is the order
    in which the map of the files enumerates them. *)
Definition glob_zdd_bin (w : world) (directory : string) : list string :=
  filter (fun p => parent p = directory /\ is_zdd_bin (name p) = true)
         (elements (dom (files w))).

(** [load()] on a file's bytes with the 32-bit layout. *)
Definition decode (content : string) : Py.result ZDDStructure :=
  match ZDDFormat.load32 (list_byte_of_string content) with
  | Some s => Py.Ok s
  | None => Py.Raise (Py.OtherError "decoding error")
  end.

Definition no_witness_export (d : string) : St world string :=
  raise (Py.OtherError "witness_export_converter is not available").

Definition empty_world : world :=
  {| files := ∅; dirs := {["."]}; os_error := fun _ => None;
     log := []; stdout := [] |}.

End Posix.

(** ** Notions used in the statements *)

(** Every character of [s] satisfies [q]. *)
Fixpoint all_chars (q : ascii -> bool) (s : string) : bool :=
  match s with
  | "" => true
  | String c r => q c && all_chars q r
  end.

(** The characters of a decimal integer, and of an encoded array. *)
Definition is_int_char (c : ascii) : bool :=
  match Py.digit_value c with
  | Some _ => true
  | None => Ascii.eqb c "-"
  end.

Definition is_list_char (c : ascii) : bool := is_int_char c || Ascii.eqb c ",".

(** The text made of the given lines, each ended by a line feed. *)
Fixpoint unlines (ls : list string) : string :=
  match ls with
  | [] => ""
  | l :: r => l +:+ LF +:+ unlines r
  end.

(** [p] is neither a file nor a directory of [w]. *)
Definition missing (w : world) (p : string) : Prop :=
  files w !! p = None /\ p ∉ dirs w.

(** [open(p, 'w')] succeeds in [w]. *)
Definition creatable (w : world) (p : string) : Prop :=
  os_error w p = None /\ p ∉ dirs w.

(** The converter and the command line on POSIX paths with the 32-bit layout. *)
Module Run.

Definition convert_binary_to_text :=
  convert_binary_to_text Posix.decode Posix.name Posix.with_suffix_txt.

Definition convert_one_of_many := convert_one_of_many Posix.decode Posix.name.

Definition convert_multiple_binary_files :=
  convert_multiple_binary_files Posix.decode Posix.name Posix.parent Posix.joinpath.

Definition main :=
  main Posix.decode Posix.name Posix.with_suffix_txt Posix.parent Posix.joinpath
       Posix.glob_zdd_bin Posix.no_witness_export Posix.Path.

(** A file with magic number 7 and the two arrays [[1,-1]] and [[]]. *)
Definition zdd_1_bytes : string :=
  string_of_list_byte
    [x07; x00; x00; x00;  x02; x00; x00; x00;
     x02; x00; x00; x00;  x01; x00; x00; x00;  xff; xff; xff; xff;
     x00; x00; x00; x00]%byte.

Definition zdd_1 : ZDDStructure :=
  {| magic_number := 7; arrays := [[1; -1]; []] |}.

Definition sample_world : world :=
  set_dirs (union {["d"]})
    (set_files (insert "d/zdd_1.bin" zdd_1_bytes) Posix.empty_world).

End Run.


(** The number of arrays and the number of array elements of the loaded
    structures, as [print_summary] counts them. *)
Definition count_arrays (zdds : list (Z * ZDDStructure)) : nat :=
  sum_list_with (fun item => length (arrays item.2)) zdds.

Definition count_elements (zdds : list (Z * ZDDStructure)) : nat :=
  sum_list_with (fun item => sum_list_with length (arrays item.2)) zdds.

(** The row of the per-element report for one element. *)
Definition complete_row (zdd_id : Z) (structure : ZDDStructure)
    (array_idx : Z) (array : list Z) (e : Z * Z) : list cell :=
  [CInt zdd_id; CStr (thesis_number_of zdd_id); CInt (magic_number structure);
   CInt array_idx; CInt (len array); CStr (array_text array);
   CStr (array_text (Py.sorted array)); CInt e.1; CInt e.2].

Definition complete_rows_of_array (zdd_id : Z) (structure : ZDDStructure)
    (a : Z * list Z) : csv :=
  complete_row zdd_id structure a.1 a.2 <$> enumerate a.2.

Definition complete_rows_of (zdds : list (Z * ZDDStructure)) (zdd_id : Z) : csv :=
  match PyDict.get zdds zdd_id with
  | Some s => mjoin (complete_rows_of_array zdd_id s <$> enumerate (arrays s))
  | None => []
  end.

(** The row of the per-array report for one array. *)
Definition summary_cells (zdd_id : Z) (structure : ZDDStructure)
    (a : Z * list Z) : list cell :=
  [CInt zdd_id; CStr (thesis_number_of zdd_id); CInt (magic_number structure);
   CInt a.1; CInt (len a.2); CStr (array_text a.2);
   CStr (array_text (Py.sorted a.2)); CInt (Py.count_distinct a.2);
   CInt (match a.2 with [] => 0 | x :: r => fold_left Z.min r x end);
   CInt (match a.2 with [] => 0 | x :: r => fold_left Z.max r x end)].

Definition summary_rows_of (zdds : list (Z * ZDDStructure)) (zdd_id : Z) : csv :=
  match PyDict.get zdds zdd_id with
  | Some s => summary_cells zdd_id s <$> enumerate (arrays s)
  | None => []
  end.

(** The arrays and the elements that a key of the dictionary stands for. *)
Definition arrays_at (zdds : list (Z * ZDDStructure)) (zdd_id : Z) : nat :=
  from_option (fun s => length (arrays s)) 0%nat (PyDict.get zdds zdd_id).

Definition elements_at (zdds : list (Z * ZDDStructure)) (zdd_id : Z) : nat :=
  from_option (fun s => sum_list_with length (arrays s)) 0%nat (PyDict.get zdds zdd_id).

(** Sum of a column of integers. *)
Definition sum_Z (l : list Z) : Z := foldr Z.add 0 l.

(** All arrays of the loaded structures in the order of the first loop of
    [generate_pattern_analysis_csv], each with its [(zdd_id, array_idx)]. *)
Definition occurrence_list (zdds : list (Z * ZDDStructure))
  : list ((Z * Z) * list Z) :=
  mjoin ((fun item : Z * ZDDStructure =>
            (fun a : Z * list Z => ((item.1, a.1), a.2)) <$> enumerate (arrays item.2))
         <$> zdds).

(** Recording one array in the dictionary of patterns. *)
Definition pattern_step (d : list (list Z * list (Z * Z))) (x : (Z * Z) * list Z)
  : list (list Z * list (Z * Z)) :=
  occurrences_append d (Py.sorted x.2) x.1.


(** The row of the pattern table for one pattern. *)
Definition pattern_cells (item : list Z * list (Z * Z)) : list cell :=
  let unique_zdds := Py.sorted (elements (list_to_set item.2.*1 : gset Z)) in
  [CStr (array_text item.1); CInt (len item.2);
   CStr (Py.join "," (Py.str <$> unique_zdds));
   CInt (default 0 (Py.min unique_zdds));
   CInt (len item.1); CInt (Py.count_distinct item.1)].


(** Loaded structures for running the reports. *)
Module Sample.

Definition zdds : list (Z * ZDDStructure) :=
  PyDict.of_assignments [(1, Run.zdd_1)].

Definition only_empty : ZDDStructure :=
  {| magic_number := 7; arrays := [[]] |}.

Definition zdds_only_empty : list (Z * ZDDStructure) :=
  PyDict.of_assignments [(1, only_empty)].

End Sample.


(** ** Notions for the agreement statistics and the batch index *)

(** The ratings that the two evaluators gave to a clause ([""] when absent). *)
Definition rating_in (evaluation : gmap string clause_evaluation) (clause_id : string)
  : string :=
  from_option rating "" (evaluation !! clause_id).

(** Both evaluators have an entry for the clause, each with a non-empty rating. *)
Definition commonly_rated (eval1 eval2 : gmap string clause_evaluation)
    (clause_id : string) : Prop :=
  exists e1 e2, eval1 !! clause_id = Some e1 /\ eval2 !! clause_id = Some e2
                /\ rating e1 <> "" /\ rating e2 <> "".

(** [b'] is [b] with the status of [evaluator_name] set to ['completed']. *)
Definition completed_from (evaluator_name : string) (b b' : batch_entry) : Prop :=
  batch_number b' = batch_number b
  /\ thesis_ids b' = thesis_ids b
  /\ status b' !! evaluator_name = Some "completed"
  /\ forall other, other <> evaluator_name -> status b' !! other = status b !! other.

(** [i] is the position of the first entry with the batch number. *)
Definition first_with_number (batches : list batch_entry) (batch_num : Z) (i : nat)
  : Prop :=
  (exists b, batches !! i = Some b /\ batch_number b = batch_num)
  /\ forall j b, (j < i)%nat -> batches !! j = Some b -> batch_number b <> batch_num.


(** Evaluations and an index for running the evaluation scripts. *)
Module SampleEval.

Definition entry (r : string) : clause_evaluation :=
  {| rating := r; justification := "j"; thesis_id := 2020418; thesis_title := "t" |}.

Definition eval1 : gmap string clause_evaluation :=
  list_to_map [("tesis1_b", entry "reject"); ("tesis1_a", entry "accept");
               ("tesis1_c", entry ""); ("tesis1_e", entry "accept")].

Definition eval2 : gmap string clause_evaluation :=
  list_to_map [("tesis1_a", entry "accept"); ("tesis1_b", entry "revise");
               ("tesis1_c", entry "revise"); ("tesis1_d", entry "accept")].

(** A stand-in for the score: the number of clauses with equal ratings. *)
Definition agreements (r1 r2 : list string) : nat :=
  length (filter (fun p : string * string => p.1 = p.2) (zip r1 r2)).

Definition pending : gmap string string :=
  list_to_map [("evaluator_1", "pending"); ("evaluator_2", "pending")].

Definition self : manager :=
  {| eval_dir := "evaluations";
     index_file := "evaluations/batch_index.json";
     index := {| batches := [ {| batch_number := 1; thesis_ids := [2020418];
                                 status := pending |};
                              {| batch_number := 2; thesis_ids := [2021246];
                                 status := pending |} ];
                 total_batches := 2; total_theses := 2 |} |}.

Definition world0 : world :=
  {| files := ∅; dirs := {["evaluations"]}; os_error := fun _ => None;
     log := []; stdout := [] |}.

Definition save_batch :=
  save_batch (fun n : Z => n) (fun _ : Z => "{}") (fun _ => "{}") Posix.joinpath.

End SampleEval.


(** ** Notions for the multi-file text output *)

(** The lines that [convert_multiple_binary_files] writes for the file at
    position [i] of its list, decoded to [structure]. *)
Definition zdd_block (path_name : string -> string) (i : Z) (binary_file : string)
    (structure : ZDDStructure) : list string :=
  ["# ZDD " +:+ Py.str (i + 1) +:+ ": " +:+ path_name binary_file;
   "# Magic: " +:+ Py.str (magic_number structure);
   "# Arrays: " +:+ Py.str (len (arrays structure));
   "#"]
  ++ (array_text <$> arrays structure)
  ++ ["#"; "# End of ZDD " +:+ Py.str (i + 1); "#"].

(** What a listed file is to the conversion in [w]: a structure, when it is a
    file that decodes; nothing, when it is neither a file nor a directory. *)
Definition decoded_in (decode : string -> Py.result ZDDStructure) (w : world)
    (binary_file : string) : option ZDDStructure :=
  match files w !! binary_file with
  | Some bytes => match decode bytes with Py.Ok s => Some s | Py.Raise _ => None end
  | None => None
  end.

Definition convertible (decode : string -> Py.result ZDDStructure) (w : world)
    (binary_file : string) : Prop :=
  missing w binary_file \/ is_Some (decoded_in decode w binary_file).

(** The blocks of the listed files that decode, in the order of the list. *)
Definition blocks_of (decode : string -> Py.result ZDDStructure)
    (path_name : string -> string) (w : world) (items : list (Z * string))
  : list string :=
  mjoin ((fun item : Z * string =>
            from_option (zdd_block path_name item.1 item.2) []
                        (decoded_in decode w item.2)) <$> items).





(** A second sample world: [d/zdd_2.bin] is too short to be decoded. *)
Module Run2.

Definition world : world :=
  set_files (insert "d/zdd_2.bin" "xx") Run.sample_world.

Definition convert_zdd_binary_directory :=
  convert_zdd_binary_directory Posix.decode Posix.name Posix.parent Posix.joinpath
    Posix.glob_zdd_bin.

End Run2.


(** ** Notions for the reports *)

(** The integer in column [i] of a row (0 when the cell is not an integer). *)
Definition int_at (i : nat) (row : list cell) : Z :=
  match row !! i with
  | Some (CInt z) => z
  | _ => 0
  end.

(** Pairs in lexicographic order. *)
Definition pair_lt (p q : Z * Z) : Prop :=
  p.1 < q.1 \/ (p.1 = q.1 /\ p.2 < q.2).


(** ** [summarize_agreement.py]: clauses *)

(** [assignment_to_clause]: one literal per variable of [all_variables], in
    increasing order, [=T] for the variables of the assignment. *)
Definition assignment_to_clause (assignment all_variables : list Z) : string :=
  let clause_parts :=
    fold_left (fun clause_parts var =>
                 if bool_decide (var ∈ assignment)
                 then clause_parts ++ [Py.str var +:+ "=T"]
                 else clause_parts ++ [Py.str var +:+ "=F"])
              (Py.sorted all_variables) [] in
  "(" +:+ Py.join " ∧ " clause_parts +:+ ")".

(** [assignment_to_positive_clause] *)
Definition assignment_to_positive_clause (assignment : list Z) : string :=
  if decide (assignment = []) then "(all_variables=F)"
  else
    let positive_vars :=
      Py.join " ∧ " ((fun var => Py.str var +:+ "=T") <$> Py.sorted assignment) in
    "(" +:+ positive_vars +:+ " ∧ others=F)".

(** A string of whitespace, and an integer written between two of them. *)
Definition is_blank (s : string) : Prop := all_chars Py.is_whitespace s = true.

Definition padded (item : string * Z * string) : string :=
  item.1.1 +:+ Py.str item.1.2 +:+ item.2.

(** The characters of a list written with blanks. *)
Definition is_padded_char (c : ascii) : bool := is_list_char c || Py.is_whitespace c.


(** The literal of a variable in a clause. *)
Definition literal (assignment : list Z) (var : Z) : string :=
  if bool_decide (var ∈ assignment) then Py.str var +:+ "=T" else Py.str var +:+ "=F".

Definition is_literal_char (c : ascii) : bool :=
  is_int_char c || Ascii.eqb c "=" || Ascii.eqb c "T" || Ascii.eqb c "F".

Definition no_space (s : string) : Prop :=
  all_chars (fun c => negb (Ascii.eqb c " ")) s = true.


(** ** [batch_evaluation_manager.py]: reading the index *)

(** [open(p, 'r')] and the content of the file.  Refusals other than a
    missing file or a directory in its place are not modelled. *)
Definition read_text (p : string) : St world string :=
  fun w =>
    if bool_decide (p ∈ dirs w)
    then (Py.Raise (Py.OtherError "IsADirectoryError"), w)
    else match files w !! p with
         | Some content => (Py.Ok content, w)
         | None => (Py.Raise (Py.FileNotFoundError p), w)
         end.

(** The outcome of a call that does not touch the state. *)
Definition lift_result {S A} (r : Py.result A) : St S A := fun s => (r, s).

Section BatchIndex.

(** [json.load] on the text of the index file, read as an index document. *)
Variable loads_index : string -> Py.result batch_index.
Variable joinpath : string -> string -> string.

(** [BatchEvaluationManager()]: [__init__], which ends with [load_index]. *)
Definition BatchEvaluationManager : St world manager :=
  let eval_dir := "evaluations" in
  let index_file := joinpath eval_dir "batch_index.json" in
  content <- read_text index_file ;;
  index <- lift_result (loads_index content) ;;
  ret {| eval_dir := eval_dir; index_file := index_file; index := index |}.

End BatchIndex.

(** The loop of [get_batch_info]. *)
Fixpoint find_batch (batches : list batch_entry) (number : Z) : option batch_entry :=
  match batches with
  | [] => None
  | batch :: rest =>
      if decide (batch_number batch = number) then Some batch
      else find_batch rest number
  end.

Definition get_batch_info (self : manager) (number : Z) : option batch_entry :=
  find_batch (batches (index self)) number.

(** The loop of [get_next_batch]; the outer [None] is the [KeyError] of an
    entry without a status for the evaluator. *)
Fixpoint next_pending (batches : list batch_entry) (evaluator_name : string)
  : option (option Z) :=
  match batches with
  | [] => Some None
  | batch :: rest =>
      st ← status batch !! evaluator_name;
      if decide (st = "pending") then Some (Some (batch_number batch))
      else next_pending rest evaluator_name
  end.

Definition get_next_batch (self : manager) (evaluator_name : string)
  : option (option Z) :=
  next_pending (batches (index self)) evaluator_name.

(** The entry is pending for the evaluator. *)
Definition pending_for (evaluator_name : string) (b : batch_entry) : Prop :=
  status b !! evaluator_name = Some "pending".

#[global] Instance pending_for_dec evaluator_name b :
  Decision (pending_for evaluator_name b) :=
  decide (status b !! evaluator_name = Some "pending").

(** The index with the first entry for [batch_num] completed. *)
Definition index_completed (batch_num : Z) (evaluator_name : string)
    (idx : batch_index) : batch_index :=
  {| batches := mark_completed (batches idx) batch_num evaluator_name;
     total_batches := total_batches idx;
     total_theses := total_theses idx |}.

Module SampleIndex.

(** A reader that accepts the one document [SampleEval] writes. *)
Definition loads_index (s : string)  : Py.result batch_index :=
  if decide (s = "{}")
  then Py.Ok (index_completed 2 "evaluator_1" (index SampleEval.self))
  else Py.Raise (Py.ValueError "JSONDecodeError").

Definition saved : Py.result string * (manager * world) :=
  SampleEval.save_batch 2 "evaluator_1" (SampleEval.self, SampleEval.world0).

Definition saved_first : Py.result string * (manager * world) :=
  SampleEval.save_batch 1 "evaluator_1" (SampleEval.self, SampleEval.world0).

End SampleIndex.

(** ** [analyze_evaluations.py]: disagreements, model quality, loading *)

(** An entry of the list that [analyze_disagreements] returns. *)
Record disagreement := {
  d_clause_id : string;
  d_thesis_id : Z;
  d_thesis_title : string;
  evaluator_1 : string;
  evaluator_2 : string;
  justification_1 : string;
  justification_2 : string
}.

Section Disagreements.

(** [s[:100]]: the first hundred characters of a [str]. *)
Variable first_100 : string -> string.

(** The loop over [sorted(common_clauses)]; [None] is a [KeyError]. *)
Definition disagreement_step (eval1 eval2 : gmap string clause_evaluation)
    (acc : option (list disagreement)) (clause_id : string)
  : option (list disagreement) :=
  disagreements ← acc;
  e1 ← eval1 !! clause_id;
  e2 ← eval2 !! clause_id;
  let r1 := rating e1 in
  let r2 := rating e2 in
  if rated r1 && rated r2 && bool_decide (r1 <> r2)
  then Some (disagreements ++
               [{| d_clause_id := clause_id;
                   d_thesis_id := thesis_id e1;
                   d_thesis_title := thesis_title e1;
                   evaluator_1 := r1;
                   evaluator_2 := r2;
                   justification_1 := first_100 (justification e1) +:+ "...";
                   justification_2 := first_100 (justification e2) +:+ "..." |}])
  else Some disagreements.

Definition analyze_disagreements (eval1 eval2 : gmap string clause_evaluation)
  : option (list disagreement) :=
  let common_clauses : gset string := dom eval1 ∩ dom eval2 in
  fold_left (disagreement_step eval1 eval2)
            (Py.sorted_str (elements common_clauses)) (Some []).

End Disagreements.

(** The dictionary that [compute_model_quality] returns when it is not empty;
    [float] is the type of the rates. *)
Record quality {float : Type} := {
  total_clauses : Z;
  accept_count : Z;
  revise_count : Z;
  reject_count : Z;
  accept_rate : float;
  revise_rate : float;
  reject_rate : float;
  error_rate : float
}.
Arguments quality : clear implicits.

(** [Counter(ratings)[key]] *)
Definition counter_get (ratings : list string) (key : string) : Z :=
  len (filter (fun r => r = key) ratings).

Section Quality.

(** [a / b] on two [int]s with [b] not zero, and [x * 100] on a [float]. *)
Context {float : Type}.
Variable truediv : Z -> Z -> float.
Variable times : float -> Z -> float.

(** [None] is the empty dictionary.  The ratings are taken in the order of
    the map, not of insertion; only their counts are used. *)
Definition compute_model_quality (evaluations : gmap string clause_evaluation)
  : option (quality float) :=
  let ratings :=
    filter (fun r => rated r = true) (rating <$> (map_to_list evaluations).*2) in
  let total := len ratings in
  if decide (total = 0) then None
  else
    let counter := counter_get ratings in
    Some {| total_clauses := total;
            accept_count := counter "accept";
            revise_count := counter "revise";
            reject_count := counter "reject";
            accept_rate := times (truediv (counter "accept") total) 100;
            revise_rate := times (truediv (counter "revise") total) 100;
            reject_rate := times (truediv (counter "reject") total) 100;
            error_rate :=
              times (truediv (counter "revise" + counter "reject") total) 100 |}.

End Quality.

(** A clause and a thesis of a batch document, as [load_batch_evaluations]
    reads them. *)
Record clause := {
  clause_id : string;
  clause_rating : string;
  clause_justification : string
}.

Record thesis_evaluation := {
  te_thesis_id : Z;
  te_thesis_title : string;
  clauses : list clause
}.

(** [evaluations[clause_id] = {...}] *)
Definition store_clause (thesis : thesis_evaluation)
    (evaluations : gmap string clause_evaluation) (clause : clause)
  : gmap string clause_evaluation :=
  <[clause_id clause :=
      {| rating := clause_rating clause;
         justification := clause_justification clause;
         thesis_id := te_thesis_id thesis;
         thesis_title := te_thesis_title thesis |}]> evaluations.

Definition store_thesis (evaluations : gmap string clause_evaluation)
    (thesis : thesis_evaluation) : gmap string clause_evaluation :=
  fold_left (store_clause thesis) (clauses thesis) evaluations.

Section LoadEvaluations.

(** [evaluator_dir.glob("batch_*.json")], and [json.load] on the text of a
    batch file, read as the list [data['thesis_evaluations']]. *)
Variable glob_batch_json : world -> string -> list string.
Variable loads_batch : string -> Py.result (list thesis_evaluation).

(** The loop over the sorted batch files. *)
Fixpoint load_batch_files (batch_files : list string)
    (evaluations : gmap string clause_evaluation)
  : St world (gmap string clause_evaluation) :=
  match batch_files with
  | [] => ret evaluations
  | batch_file :: rest =>
      content <- read_text batch_file ;;
      data <- lift_result (loads_batch content) ;;
      load_batch_files rest (fold_left store_thesis data evaluations)
  end.

(** [sorted] on the paths of one directory orders them as their texts. *)
Definition load_batch_evaluations (evaluator_dir : string)
  : St world (gmap string clause_evaluation) :=
  fun w =>
    load_batch_files (Py.sorted_str (glob_batch_json w evaluator_dir)) ∅ w.

End LoadEvaluations.

(** ** Notions for the disagreements and the loaded evaluations *)

(** The two evaluators rated the clause, and differently. *)
Definition rated_differently (eval1 eval2 : gmap string clause_evaluation)
    (clause_id : string) : Prop :=
  commonly_rated eval1 eval2 clause_id
  /\ rating_in eval1 clause_id <> rating_in eval2 clause_id.

(** The clauses of a list of batch documents, each with its thesis, in the
    order in which [load_batch_evaluations] meets them. *)
Definition clauses_of (documents : list (list thesis_evaluation))
  : list (thesis_evaluation * clause) :=
  mjoin ((fun thesis => (fun clause => (thesis, clause)) <$> clauses thesis)
           <$> mjoin documents).

Definition entry_of (item : thesis_evaluation * clause) : clause_evaluation :=
  {| rating := clause_rating item.2;
     justification := clause_justification item.2;
     thesis_id := te_thesis_id item.1;
     thesis_title := te_thesis_title item.1 |}.

(** The batch files of the directory can be read and hold the documents. *)
Definition holds_documents (loads_batch : string -> Py.result (list thesis_evaluation))
    (w : world) (batch_files : list string)
    (documents : list (list thesis_evaluation)) : Prop :=
  Forall2 (fun batch_file data =>
             (batch_file ∉ dirs w)
             /\ exists content, files w !! batch_file = Some content
                                /\ loads_batch content = Py.Ok data)
          batch_files documents.

Module SampleBatches.

Definition clause_a (r : string) : clause :=
  {| clause_id := "tesis1_a"; clause_rating := r; clause_justification := "j" |}.

Definition clause_b (r : string) : clause :=
  {| clause_id := "tesis1_b"; clause_rating := r; clause_justification := "j" |}.

Definition thesis (cs : list clause) : thesis_evaluation :=
  {| te_thesis_id := 2020418; te_thesis_title := "t"; clauses := cs |}.

Definition document_2 : list thesis_evaluation :=
  [thesis [clause_a "accept"; clause_b "revise"]].

Definition document_10 : list thesis_evaluation :=
  [thesis [clause_a "reject"]].

(** A reader for the two documents, which the files hold as tags. *)
Definition loads_batch (s : string) : Py.result (list thesis_evaluation) :=
  if decide (s = "two") then Py.Ok document_2
  else if decide (s = "ten") then Py.Ok document_10
  else Py.Raise (Py.ValueError "JSONDecodeError").

Definition is_batch_json (n : string) : bool :=
  String.prefix "batch_" n
  && bool_decide (String.substring (String.length n - 5) 5 n = ".json").

Definition glob_batch_json (w : world) (directory : string) : list string :=
  filter (fun p => Posix.parent p = directory /\ is_batch_json (Posix.name p) = true)
         (elements (dom (files w))).

Definition world : world :=
  {| files := list_to_map [("e/batch_2.json", "two"); ("e/batch_10.json", "ten");
                           ("e/notes.txt", "")];
     dirs := {["e"]}; os_error := fun _ => None; log := []; stdout := [] |}.

End SampleBatches.

(** ** [tools/zdd_to_csv_correct.py]: loading and the printed summary *)

(** [s * n] on a [str] *)
Fixpoint str_mul (s : string) (n : nat) : string :=
  match n with
  | O => ""
  | S n => s +:+ str_mul s n
  end.

(** A computation on the world, run by a method of an object with state [S]. *)
Definition lift_io {S A} (m : St world A) : St (S * world) A :=
  fun s => let '(r, w') := m s.2 in (r, (s.1, w')).

Section Analyzer.

(** [ZDDParser(p).load()] on a file's bytes; [p.name], [p.stem] and
    [directory.glob("zdd_*.bin")] of [pathlib]; [repr] of a [str]; and
    [f"{a / b:.1f}"] for [int]s [a] and [b] with [b] not zero. *)
Variable decode : string -> Py.result ZDDStructure.
Variable path_name : string -> string.
Variable path_stem : string -> string.
Variable glob_zdd_files : world -> string -> list string.
Variable repr : string -> string.
Variable format_1f : Z -> Z -> string.

(** The body of the loop of [load_zdd_files]; the state is [self.zdds]. *)
Definition load_zdd_file (zdd_file : string)
  : St (list (Z * ZDDStructure) * world) unit :=
  match Py.split "_" (path_stem zdd_file) !! 1%nat with
  | None => raise (Py.OtherError "list index out of range")
  | Some suffix =>
      match Py.int suffix with
      | None =>
          raise (Py.ValueError
                   ("invalid literal for int() with base 10: " +:+ repr suffix))
      | Some zdd_num =>
          structure <- lift_io (parser_load decode zdd_file) ;;
          (fun s => (Py.Ok tt, (PyDict.set s.1 zdd_num structure, s.2))) ;;
          lift_io (print ("✓ Loaded " +:+ path_name zdd_file
                          +:+ ": magic=" +:+ Py.str (magic_number structure)
                          +:+ ", arrays=" +:+ Py.str (len (arrays structure))))
      end
  end.

(** [sorted] on the paths of one directory orders them as their texts. *)
Definition load_zdd_files (directory : string)
  : St (list (Z * ZDDStructure) * world) unit :=
  fun s =>
    let zdd_files := Py.sorted_str (glob_zdd_files s.2 directory) in
    if decide (zdd_files = [])
    then raise (Py.FileNotFoundError
                  ("No ZDD binary files found in " +:+ directory)) s
    else (lift_io (print ("Loading " +:+ Py.str (len zdd_files)
                          +:+ " ZDD files with correct parser...")) ;;
          for_each zdd_files load_zdd_file) s.

(** [f"{a / b:.1f}"]: the division raises [ZeroDivisionError]. *)
Definition divide_1f (a b : Z) : St world string :=
  if decide (b = 0) then raise (Py.OtherError "division by zero")
  else ret (format_1f a b).

(** A line of the per-ZDD breakdown. *)
Definition breakdown_line (zdds : list (Z * ZDDStructure)) (zdd_id : Z)
  : St world unit :=
  match PyDict.get zdds zdd_id with
  | None => raise (Py.OtherError (Py.str zdd_id))
  | Some structure =>
      let thesis_number := thesis_number_of zdd_id in
      let arrays_count := len (arrays structure) in
      let elements_count := sum_Z (len <$> arrays structure) in
      print ("  ZDD " +:+ Py.str zdd_id +:+ " (Thesis " +:+ thesis_number
             +:+ "): " +:+ Py.str arrays_count +:+ " arrays, "
             +:+ Py.str elements_count +:+ " elements")
  end.

Definition print_summary (zdds : list (Z * ZDDStructure)) : St world unit :=
  print (LF +:+ str_mul "=" 60) ;;
  print "CORRECT ZDD ANALYSIS SUMMARY" ;;
  print (str_mul "=" 60) ;;
  let total_arrays :=
    sum_Z ((fun structure => len (arrays structure)) <$> zdds.*2) in
  let total_elements :=
    sum_Z ((fun structure => sum_Z (len <$> arrays structure)) <$> zdds.*2) in
  let all_variables : gset Z :=
    fold_left (fun all_variables structure =>
                 fold_left (fun all_variables array =>
                              all_variables ∪ list_to_set array)
                           (arrays structure) all_variables)
              zdds.*2 ∅ in
  let all_patterns : gset (list Z) :=
    fold_left (fun all_patterns structure =>
                 fold_left (fun all_patterns array =>
                              all_patterns ∪ {[Py.sorted array]})
                           (arrays structure) all_patterns)
              zdds.*2 ∅ in
  print ("Total ZDDs analyzed: " +:+ Py.str (len zdds)) ;;
  print ("Total arrays across all ZDDs: " +:+ Py.str total_arrays) ;;
  print ("Total elements across all arrays: " +:+ Py.str total_elements) ;;
  print ("Unique variables across all ZDDs: "
         +:+ Py.str (Z.of_nat (size all_variables))) ;;
  print ("Unique array patterns: " +:+ Py.str (Z.of_nat (size all_patterns))) ;;
  average <- divide_1f total_arrays (len zdds) ;;
  print ("Average arrays per ZDD: " +:+ average) ;;
  average <- divide_1f total_elements total_arrays ;;
  print ("Average elements per array: " +:+ average) ;;
  (if decide (all_variables = ∅) then ret tt
   else
     match Py.min (elements all_variables), Py.max (elements all_variables) with
     | Some lo, Some hi =>
         print ("Variable ID range: " +:+ Py.str lo +:+ " - " +:+ Py.str hi)
     | _, _ => raise (Py.ValueError "min() arg is an empty sequence")
     end) ;;
  print (LF +:+ "Per-ZDD Breakdown:") ;;
  for_each (Py.sorted (PyDict.keys zdds)) (breakdown_line zdds).

End Analyzer.

(** ** Notions for the loader and the printed summary *)

(** All arrays of the loaded structures, in the order of [self.zdds.values()]. *)
Definition all_arrays (zdds : list (Z * ZDDStructure)) : list (list Z) :=
  mjoin (arrays <$> zdds.*2).

(** The file is named so that it is loaded under [zdd_num], and decodes to
    [structure]. *)
Definition loads_as (decode : string -> Py.result ZDDStructure)
    (path_stem : string -> string) (w : world) (zdd_file : string)
    (load : Z * ZDDStructure) : Prop :=
  exists suffix bytes,
    Py.split "_" (path_stem zdd_file) !! 1%nat = Some suffix
    /\ Py.int suffix = Some load.1
    /\ files w !! zdd_file = Some bytes
    /\ decode bytes = Py.Ok load.2.

(** The line that [load_zdd_files] prints for a file. *)
Definition loaded_line (path_name : string -> string) (zdd_file : string)
    (structure : ZDDStructure) : string :=
  "✓ Loaded " +:+ path_name zdd_file
  +:+ ": magic=" +:+ Py.str (magic_number structure)
  +:+ ", arrays=" +:+ Py.str (len (arrays structure)).

Module RunCsv.

Definition path_stem (p : string) : string := Posix.stem (Posix.name p).

Definition is_zdd_file (n : string) : bool :=
  String.prefix "zdd_" n
  && bool_decide (String.substring (String.length n - 4) 4 n = ".bin").

Definition glob_zdd_files (w : world) (directory : string) : list string :=
  filter (fun p => Posix.parent p = directory /\ is_zdd_file (Posix.name p) = true)
         (elements (dom (files w))).

Definition load_zdd_files :=
  load_zdd_files Posix.decode Posix.name path_stem glob_zdd_files.

End RunCsv.

(** The world after the lines have been printed. *)
Definition printed (lines : list string) (w : world) : world :=
  fold_left (fun w line => add_stdout line w) lines w.

(** The first lines of the summary: the banner and the five totals. *)
Definition summary_head (zdds : list (Z * ZDDStructure)) : list string :=
  [LF +:+ str_mul "=" 60; "CORRECT ZDD ANALYSIS SUMMARY"; str_mul "=" 60;
   "Total ZDDs analyzed: " +:+ Py.str (len zdds);
   "Total arrays across all ZDDs: " +:+ Py.str (Z.of_nat (count_arrays zdds));
   "Total elements across all arrays: "
     +:+ Py.str (Z.of_nat (count_elements zdds));
   "Unique variables across all ZDDs: "
     +:+ Py.str (Z.of_nat (size (list_to_set (mjoin (all_arrays zdds)) : gset Z)));
   "Unique array patterns: "
     +:+ Py.str (Z.of_nat (size (list_to_set (Py.sorted <$> all_arrays zdds)
                                 : gset (list Z))))].

(** The line of the breakdown for a key of the dictionary. *)
Definition breakdown_text (zdds : list (Z * ZDDStructure)) (zdd_id : Z) : string :=
  "  ZDD " +:+ Py.str zdd_id +:+ " (Thesis " +:+ thesis_number_of zdd_id
  +:+ "): " +:+ Py.str (Z.of_nat (arrays_at zdds zdd_id)) +:+ " arrays, "
  +:+ Py.str (Z.of_nat (elements_at zdds zdd_id)) +:+ " elements".

(** The variables of the loaded structures. *)
Definition all_variables_of (zdds : list (Z * ZDDStructure)) : gset Z :=
  list_to_set (mjoin (all_arrays zdds)).

(** The line with the range of the variables, when there is a variable. *)
Definition range_lines (zdds : list (Z * ZDDStructure)) : list string :=
  match Py.min (elements (all_variables_of zdds)),
        Py.max (elements (all_variables_of zdds)) with
  | Some lo, Some hi =>
      ["Variable ID range: " +:+ Py.str lo +:+ " - " +:+ Py.str hi]
  | _, _ => []
  end.

(** ** The text format in the words of the specification *)

(** The decimal numeral of an integer, as the standard library prints it. *)
Definition decimal (v : Z) : string :=
  DecimalString.NilZero.string_of_int (Z.to_int v).

(** [v1,v2,...]: the numerals of the elements with a comma between two
    neighbours. *)
Fixpoint spec_elements (array : list Z) : string :=
  match array with
  | [] => ""
  | [v] => decimal v
  | v :: rest => decimal v +:+ "," +:+ spec_elements rest
  end.

(** The line [[v1,v2,...]] of an array. *)
Definition spec_array_line (array : list Z) : string :=
  "[" +:+ spec_elements array +:+ "]".

(** The records that the loop of [convert_multiple_binary_files] adds to the
    log for the listed files: a warning for a file that is missing, the count
    of arrays for a file that decodes. *)
Definition loop_log (decode : string -> Py.result ZDDStructure)
    (path_name : string -> string) (w : world) (items : list (Z * string))
  : list (level * string) :=
  (fun item : Z * string =>
     match decoded_in decode w item.2 with
     | Some structure =>
         (INFO, "Added " +:+ Py.str (len (arrays structure)) +:+ " arrays from "
                +:+ path_name item.2)
     | None => (WARNING, "File not found: " +:+ item.2)
     end) <$> items.

(** The output path that the command hands to the conversions. *)
Definition chosen_output (Path : string -> string) (output : option string)
    (default_output : string) : string :=
  match output with
  | None => default_output
  | Some o => if decide (o = "") then default_output else Path o
  end.


Example str_examples :
  Py.str 0 = "0" /\ Py.str 42 = "42" /\ Py.str (-7) = "-7".
Proof. repeat split. Qed.

Example int_examples :
  Py.int " 12 " = Some 12 /\ Py.int "-3" = Some (-3) /\ Py.int "1_0" = Some 10
  /\ Py.int "" = None /\ Py.int "2]" = None /\ Py.int "_1" = None.
Proof. repeat split. Qed.

Example split_examples :
  Py.split "," "1,2,3" = ["1"; "2"; "3"] /\ Py.split "," "" = [""]
  /\ Py.split "," ",a," = [""; "a"; ""].
Proof. repeat split. Qed.

Example strip_examples :
  Py.strip_chars "[]" "[1,2]" = "1,2" /\ Py.strip_chars "[]" "[]" = ""
  /\ Py.strip_chars "[]" "[[1],2" = "1],2".
Proof. repeat split. Qed.

Example sorted_examples :
  Py.sorted [3; 1; 2; 1] = [1; 1; 2; 3]
  /\ Py.sorted_str ["b"; "a10"; "a2"] = ["a10"; "a2"; "b"].
Proof. split; vm_compute; reflexivity. Qed.

(** * Properties *)

(** ** Strings *)

Lemma app_nil_str (s : string) : "" +:+ s = s.
Proof. reflexivity. Qed.

Lemma app_cons_str (c : ascii) (r s : string) :
  String c r +:+ s = String c (r +:+ s).
Proof. reflexivity. Qed.

Lemma app_empty_r_str (s : string) : s +:+ "" = s.
Proof. induction s as [|c r IH]; [done|]. by rewrite app_cons_str, IH. Qed.

Lemma app_assoc_str (s t u : string) : (s +:+ t) +:+ u = s +:+ t +:+ u.
Proof.
  induction s as [|c r IH]; [done|]. by rewrite !app_cons_str, IH.
Qed.

Lemma all_chars_app q s t :
  all_chars q (s +:+ t) = all_chars q s && all_chars q t.
Proof.
  induction s as [|c r IH]; [done|].
  rewrite app_cons_str. simpl. by rewrite IH, andb_assoc.
Qed.

Lemma all_chars_mono (q q' : ascii -> bool) s :
  (forall c, q c = true -> q' c = true) ->
  all_chars q s = true -> all_chars q' s = true.
Proof.
  intros Hq. induction s as [|c r IH]; [done|]. simpl.
  intros [Hc Hr]%andb_true_iff. rewrite (Hq _ Hc). by apply IH.
Qed.

Lemma lstrip_by_id p s :
  all_chars (fun c => negb (p c)) s = true -> Py.lstrip_by p s = s.
Proof.
  destruct s as [|c r]; [done|]. simpl.
  intros [Hc _]%andb_true_iff. by apply negb_true_iff in Hc as ->.
Qed.

Lemma rstrip_by_id p s :
  all_chars (fun c => negb (p c)) s = true -> Py.rstrip_by p s = s.
Proof.
  induction s as [|c r IH]; [done|]. simpl.
  intros [Hc Hr]%andb_true_iff. rewrite (IH Hr).
  apply negb_true_iff in Hc as ->. by destruct r.
Qed.

Lemma strip_by_id p s :
  all_chars (fun c => negb (p c)) s = true -> Py.strip_by p s = s.
Proof.
  intros H. unfold Py.strip_by. rewrite lstrip_by_id by done.
  by apply rstrip_by_id.
Qed.

(** Stripping a closing character after a body free of such characters. *)
Lemma rstrip_by_snoc p s c :
  all_chars (fun c => negb (p c)) s = true -> p c = true ->
  Py.rstrip_by p (s +:+ String c "") = s.
Proof.
  intros Hs Hc. induction s as [|d r IH].
  - simpl. by rewrite Hc.
  - simpl in Hs. apply andb_true_iff in Hs as [Hd Hr].
    rewrite app_cons_str. simpl. rewrite (IH Hr).
    apply negb_true_iff in Hd as ->. by destruct r.
Qed.

Lemma strip_by_enclosed p o c s :
  p o = true -> p c = true ->
  all_chars (fun c => negb (p c)) s = true ->
  Py.strip_by p (String o (s +:+ String c "")) = s.
Proof.
  intros Ho Hc Hs. unfold Py.strip_by. simpl. rewrite Ho.
  destruct s as [|d r].
  - simpl. by rewrite Hc.
  - rewrite app_cons_str. simpl in Hs |- *.
    apply andb_true_iff in Hs as [Hd Hr].
    pose proof Hd as Hd'. apply negb_true_iff in Hd' as ->.
    rewrite <- app_cons_str. apply rstrip_by_snoc; [|done].
    simpl. by rewrite Hd, Hr.
Qed.

Lemma split_no_sep sep s :
  all_chars (fun c => negb (Ascii.eqb c sep)) s = true -> Py.split sep s = [s].
Proof.
  induction s as [|c r IH]; [done|]. simpl.
  intros [Hc Hr]%andb_true_iff. apply negb_true_iff in Hc as ->.
  by rewrite (IH Hr).
Qed.

Lemma split_app_sep sep s t :
  all_chars (fun c => negb (Ascii.eqb c sep)) s = true ->
  Py.split sep (s +:+ String sep t) = s :: Py.split sep t.
Proof.
  induction s as [|c r IH].
  - intros _. rewrite app_nil_str. simpl. by rewrite Ascii.eqb_refl.
  - rewrite app_cons_str. simpl. intros [Hc Hr]%andb_true_iff.
    apply negb_true_iff in Hc as ->. by rewrite (IH Hr).
Qed.

Lemma split_join sep parts :
  parts <> [] ->
  Forall (fun p => all_chars (fun c => negb (Ascii.eqb c sep)) p = true) parts ->
  Py.split sep (Py.join (String sep "") parts) = parts.
Proof.
  intros Hne Hall. induction Hall as [|p ps Hp Hps IH]; [done|].
  destruct ps as [|p' ps'].
  - simpl. by apply split_no_sep.
  - change (Py.join (String sep "") (p :: p' :: ps'))
      with (p +:+ String sep "" +:+ Py.join (String sep "") (p' :: ps')).
    rewrite app_cons_str, app_nil_str, split_app_sep by done.
    by rewrite IH.
Qed.

Lemma all_chars_join q sep parts :
  all_chars q sep = true ->
  Forall (fun p => all_chars q p = true) parts ->
  all_chars q (Py.join sep parts) = true.
Proof.
  intros Hsep Hall. induction Hall as [|p ps Hp Hps IH]; [done|].
  destruct ps as [|p' ps']; [done|].
  change (Py.join sep (p :: p' :: ps'))
    with (p +:+ sep +:+ Py.join sep (p' :: ps')).
  by rewrite !all_chars_app, Hp, Hsep, IH.
Qed.

Lemma text_lines_app_line l rest :
  all_chars (fun c => negb (Ascii.eqb c "010")) l = true ->
  text_lines (l +:+ LF +:+ rest) = l :: text_lines rest.
Proof.
  induction l as [|c r IH].
  - done.
  - rewrite app_cons_str. simpl. intros [Hc Hr]%andb_true_iff.
    apply negb_true_iff in Hc as ->. by rewrite (IH Hr).
Qed.

Lemma text_lines_unlines ls :
  Forall (fun l => all_chars (fun c => negb (Ascii.eqb c "010")) l = true) ls ->
  text_lines (unlines ls) = ls.
Proof.
  induction 1 as [|l ls Hl Hls IH]; [done|].
  simpl. by rewrite text_lines_app_line, IH.
Qed.

(** ** Decimal integers *)

Lemma int_digits_acc d p :
  Py.int_digits (Py.uint_digits d) (Z.pos p) false
  = Some (Z.pos (Pos.of_uint_acc d p)).
Proof.
  revert p. induction d; intros p; simpl; [done|..];
    (etrans; [|apply IHd]); f_equal; lia.
Qed.

Lemma int_digits_uint d need :
  d <> Decimal.Nil \/ need = false ->
  Py.int_digits (Py.uint_digits d) 0 need = Some (Z.of_N (Pos.of_uint d)).
Proof.
  revert need. induction d; intros need Hd; simpl.
  - by destruct Hd as [Hd| ->].
  - apply IHd. by right.
  - apply (int_digits_acc d 1).
  - apply (int_digits_acc d 2).
  - apply (int_digits_acc d 3).
  - apply (int_digits_acc d 4).
  - apply (int_digits_acc d 5).
  - apply (int_digits_acc d 6).
  - apply (int_digits_acc d 7).
  - apply (int_digits_acc d 8).
  - apply (int_digits_acc d 9).
Qed.

Lemma uint_digits_chars d : all_chars is_int_char (Py.uint_digits d) = true.
Proof. induction d; simpl; done. Qed.

Lemma str_chars z : all_chars is_int_char (Py.str z) = true.
Proof.
  unfold Py.str. destruct (Z.to_int z); simpl; apply uint_digits_chars.
Qed.

Lemma to_int_nonnil z :
  match Z.to_int z with
  | Decimal.Pos d | Decimal.Neg d => d <> Decimal.Nil
  end.
Proof.
  destruct z as [|p|p]; simpl; [done|..]; apply DecimalPos.Unsigned.to_uint_nonnil.
Qed.

Lemma str_nonempty z : Py.str z <> "".
Proof.
  unfold Py.str. pose proof (to_int_nonnil z) as H.
  destruct (Z.to_int z) as [d|d]; [|done]. by destruct d.
Qed.

Lemma is_int_char_not_space c : is_int_char c = true -> Py.is_whitespace c = false.
Proof.
  destruct c as [[] [] [] [] [] [] [] []]; done.
Qed.

Lemma is_int_char_not_comma c :
  is_int_char c = true -> negb (Ascii.eqb c ",") = true.
Proof.
  destruct c as [[] [] [] [] [] [] [] []]; done.
Qed.

Lemma is_list_char_not_bracket c :
  is_list_char c = true -> negb (Py.mem_char c "[]") = true.
Proof.
  destruct c as [[] [] [] [] [] [] [] []]; done.
Qed.

Lemma is_list_char_not_lf c :
  is_list_char c = true -> negb (Ascii.eqb c "010") = true.
Proof.
  destruct c as [[] [] [] [] [] [] [] []]; done.
Qed.

(** [x.strip()] leaves a printed integer as it is. *)
Lemma strip_str z : Py.strip (Py.str z) = Py.str z.
Proof.
  apply strip_by_id. eapply all_chars_mono; [|apply str_chars].
  intros c Hc. by rewrite (is_int_char_not_space c Hc).
Qed.

Lemma is_int_space_whitespace c :
  Py.is_int_space c = true -> Py.is_whitespace c = true.
Proof.
  destruct c as [[] [] [] [] [] [] [] []]; done.
Qed.

(** [int(...)] has nothing to skip around a printed integer. *)
Lemma int_space_str z : Py.strip_by Py.is_int_space (Py.str z) = Py.str z.
Proof.
  apply strip_by_id. eapply all_chars_mono; [|apply str_chars].
  intros c Hc. pose proof (is_int_char_not_space c Hc) as Hw.
  destruct (Py.is_int_space c) eqn:Hs; [|done].
  apply is_int_space_whitespace in Hs. congruence.
Qed.

(** [int(str(z)) == z] *)
Lemma int_str z : Py.int (Py.str z) = Some z.
Proof.
  unfold Py.int. rewrite int_space_str. unfold Py.str.
  pose proof (to_int_nonnil z) as Hnil.
  pose proof (DecimalZ.of_to z) as Hz.
  destruct (Z.to_int z) as [d|d]; simpl in Hz.
  - transitivity (Py.int_digits (Py.uint_digits d) 0 true).
    { by destruct d. }
    rewrite int_digits_uint by auto. by rewrite <- Hz.
  - rewrite int_digits_uint by auto. simpl. by rewrite <- Hz.
Qed.

(** ** The textual encoding of an array *)

Lemma array_body_chars (array : list Z) :
  all_chars is_list_char (Py.join "," (Py.str <$> array)) = true.
Proof.
  apply all_chars_join; [done|].
  apply Forall_fmap, Forall_forall. intros z _. simpl.
  eapply all_chars_mono; [|apply str_chars].
  intros c Hc. unfold is_list_char. by rewrite Hc.
Qed.

Lemma array_text_unfold (array : list Z) :
  array_text array
  = String "[" (Py.join "," (Py.str <$> array) +:+ String "]" "").
Proof. reflexivity. Qed.

Lemma array_text_no_lf (array : list Z) :
  all_chars (fun c => negb (Ascii.eqb c "010")) (array_text array) = true.
Proof.
  rewrite array_text_unfold. simpl. rewrite all_chars_app, andb_true_r.
  eapply all_chars_mono; [|apply array_body_chars].
  apply is_list_char_not_lf.
Qed.

Lemma join_nonempty sep p ps : p <> "" -> Py.join sep (p :: ps) <> "".
Proof.
  intros Hp. destruct ps as [|p' ps']; [done|].
  change (Py.join sep (p :: p' :: ps'))
    with (p +:+ sep +:+ Py.join sep (p' :: ps')).
  destruct p; [done|]. by rewrite app_cons_str.
Qed.

Lemma mapM_int_str (array : list Z) :
  mapM (fun x => Py.int (Py.strip x)) (Py.str <$> array) = Some array.
Proof.
  apply mapM_Some. induction array as [|z r IH]; simpl; constructor; [|done].
  by rewrite strip_str, int_str.
Qed.

(** [parse_assignment] inverts the encoding of one array. *)
Lemma parse_array_text (array : list Z) :
  parse_assignment (array_text array) = Some array.
Proof.
  unfold parse_assignment. rewrite array_text_unfold.
  unfold Py.strip_chars. rewrite strip_by_enclosed; [|done|done|].
  2:{ eapply all_chars_mono; [|apply array_body_chars].
      apply is_list_char_not_bracket. }
  destruct array as [|z r]; [done|].
  rewrite decide_False by (apply join_nonempty, str_nonempty).
  rewrite split_join.
  - apply mapM_int_str.
  - done.
  - apply Forall_fmap, Forall_forall. intros y _. simpl.
    eapply all_chars_mono; [|apply str_chars]. apply is_int_char_not_comma.
Qed.

Lemma mapM_parse_array_text (arrays : list (list Z)) :
  mapM parse_assignment (array_text <$> arrays) = Some arrays.
Proof.
  apply mapM_Some. induction arrays as [|a r IH]; simpl; constructor; [|done].
  apply parse_array_text.
Qed.

Lemma text_lines_arrays (arrays : list (list Z)) :
  text_lines (unlines (array_text <$> arrays)) = array_text <$> arrays.
Proof.
  apply text_lines_unlines, Forall_fmap, Forall_forall.
  intros a _. apply array_text_no_lf.
Qed.

(** ** Writing to a file *)

Lemma world_eq (w w' : world) :
  files w = files w' -> dirs w = dirs w' -> os_error w = os_error w' ->
  log w = log w' -> stdout w = stdout w' -> w = w'.
Proof. destruct w, w'. simpl. by intros -> -> -> -> ->. Qed.

Lemma bind_ok {S A B} (m : St S A) (k : A -> St S B) s a s' :
  m s = (Py.Ok a, s') -> bind m k s = k a s'.
Proof. intros H. unfold bind. by rewrite H. Qed.

Lemma bind_raise {S A B} (m : St S A) (k : A -> St S B) s e s' :
  m s = (Py.Raise e, s') -> bind m k s = (Py.Raise e, s').
Proof. intros H. unfold bind. by rewrite H. Qed.

Lemma for_each_write_lines {A} (g : A -> string) p l w old :
  files w !! p = Some old ->
  for_each l (fun x => f_write p (g x +:+ LF)) w
  = (Py.Ok tt, set_files (insert p (old +:+ unlines (g <$> l))) w).
Proof.
  revert w old. induction l as [|x r IH]; intros w old Hold.
  - simpl. unfold ret. f_equal. apply world_eq; try done.
    simpl. by rewrite app_empty_r_str, insert_id.
  - simpl. unfold bind at 1. unfold f_write at 1.
    erewrite IH.
    2:{ simpl. rewrite Hold. simpl. apply lookup_insert_eq. }
    f_equal. apply world_eq; try done.
    simpl. rewrite Hold. simpl.
    by rewrite insert_insert_eq, !app_assoc_str.
Qed.

Lemma write_arrays_to_text_ok arrays output_file w :
  os_error w output_file = None ->
  output_file ∉ dirs w ->
  _write_arrays_to_text arrays output_file w
  = (Py.Ok tt,
     add_log INFO ("Wrote " +:+ Py.str (len arrays) +:+ " arrays to " +:+ output_file)
       (set_files (insert output_file (unlines (array_text <$> arrays))) w)).
Proof.
  intros Hos Hdir. unfold _write_arrays_to_text, bind, open_w.
  rewrite Hos, bool_decide_eq_false_2 by done.
  erewrite for_each_write_lines by (simpl; apply lookup_insert_eq).
  unfold logger_info. f_equal. f_equal. apply world_eq; try done.
  simpl. by rewrite insert_insert_eq.
Qed.

(** ** The text exporter *)

Lemma path_exists_missing w p :
  missing w p -> path_exists p w = (Py.Ok false, w).
Proof.
  intros [Hf Hd]. unfold path_exists. rewrite bool_decide_eq_false_2; [done|].
  intros [[x Hx]|Hin]; [congruence|done].
Qed.

Lemma path_exists_file w p bytes :
  files w !! p = Some bytes -> path_exists p w = (Py.Ok true, w).
Proof.
  intros Hf. unfold path_exists. rewrite bool_decide_eq_true_2; [done|].
  left. by exists bytes.
Qed.

Section ConverterFacts.
Variable decode : string -> Py.result ZDDStructure.
Variables path_name with_suffix_txt path_parent : string -> string.
Variable joinpath : string -> string -> string.
Variable glob_zdd_bin : world -> string -> list string.
Variable convert_witness_export_directory : string -> St world string.
Variable Path : string -> string.

Lemma convert_binary_to_text_ok binary_file output_file w bytes structure out :
  files w !! binary_file = Some bytes ->
  decode bytes = Py.Ok structure ->
  out = match output_file with
        | None => with_suffix_txt binary_file
        | Some o => o
        end ->
  creatable w out ->
  convert_binary_to_text decode path_name with_suffix_txt binary_file output_file w
  = (Py.Ok out,
     add_log INFO ("Converted to: " +:+ out)
       (add_log INFO ("Wrote " +:+ Py.str (len (arrays structure))
                      +:+ " arrays to " +:+ out)
          (set_files (insert out (unlines (array_text <$> arrays structure)))
             (add_log INFO ("Converting " +:+ path_name binary_file
                            +:+ " to text format") w)))).
Proof.
  intros Hf Hdec -> [Hos Hdir]. unfold convert_binary_to_text.
  rewrite (bind_ok _ _ _ _ _ (path_exists_file _ _ _ Hf)). cbn [negb].
  erewrite bind_ok by reflexivity.
  erewrite bind_ok by (unfold parser_load; simpl; rewrite Hf, Hdec; reflexivity).
  erewrite bind_ok by (by apply write_arrays_to_text_ok).
  reflexivity.
Qed.


Lemma convert_one_of_many_missing output_file i binary_file w :
  missing w binary_file ->
  convert_one_of_many decode path_name output_file (i, binary_file) w
  = (Py.Ok tt, add_log WARNING ("File not found: " +:+ binary_file) w).
Proof.
  intros Hm. unfold convert_one_of_many, bind.
  by rewrite (path_exists_missing _ _ Hm).
Qed.

Lemma for_each_all_missing output_file (items : list (Z * string)) w :
  Forall (fun it => missing w it.2) items ->
  exists w',
    for_each items (convert_one_of_many decode path_name output_file) w
    = (Py.Ok tt, w')
    /\ files w' = files w /\ dirs w' = dirs w.
Proof.
  revert w. induction items as [|[i f] r IH]; intros w Hall.
  - by exists w.
  - apply Forall_cons in Hall as [Hf Hr]. simpl in Hf.
    cbn [for_each].
    erewrite bind_ok by (by apply convert_one_of_many_missing).
    destruct (IH (add_log WARNING ("File not found: " +:+ f) w)) as (w' & Hw' & Hfs & Hds).
    { eapply Forall_impl; [exact Hr|]. by intros it [??]. }
    exists w'. by rewrite Hw'.
Qed.


End ConverterFacts.

Section ConverterClaims.
Variable decode : string -> Py.result ZDDStructure.
Variables path_name with_suffix_txt path_parent : string -> string.
Variable joinpath : string -> string -> string.
Variable glob_zdd_bin : world -> string -> list string.
Variable convert_witness_export_directory : string -> St world string.

Lemma convert_multiple_all_missing first rest output_file out w :
  out = match output_file with
        | None => joinpath (path_parent first) "zdd_vectors.txt"
        | Some o => o
        end ->
  Forall (missing w) (first :: rest) ->
  out ∉ first :: rest ->
  creatable w out ->
  exists w',
    convert_multiple_binary_files decode path_name path_parent joinpath
      (first :: rest) output_file w = (Py.Ok out, w')
    /\ files w' = <[out := ""]> (files w).
Proof.
  intros -> Hall Hout [Hos Hdir]. unfold convert_multiple_binary_files.
  erewrite bind_ok by reflexivity.
  erewrite bind_ok.
  2:{ unfold open_w. simpl. rewrite Hos, bool_decide_eq_false_2 by done.
      reflexivity. }
  edestruct (for_each_all_missing decode path_name) as (w' & Hw' & Hfs & Hds).
  2:{ erewrite bind_ok by exact Hw'.
      erewrite bind_ok by reflexivity.
      eexists. split; [reflexivity|]. simpl. by rewrite Hfs. }
  apply Forall_forall. intros [i f] [j [y [Heq Hy]]]%elem_of_lookup_imap.
  simplify_eq. simpl.
  assert (y ∈ first :: rest) as Hin by (by eapply list_elem_of_lookup_2).
  rewrite Forall_forall in Hall. destruct (Hall _ Hin) as [Hf Hd].
  split; simpl; [|done].
  rewrite lookup_insert_ne; [done|]. intros Heq. apply Hout. by rewrite Heq.
Qed.

End ConverterClaims.

(** C1. Writing arrays with [_write_arrays_to_text] and parsing every line of
    the written text with [parse_assignment] gives the arrays back, empty
    arrays included. *)
Theorem text_round_trip (arrays : list (list Z)) (output_file : string) (w : world) :
  creatable w output_file ->
  exists w' text,
    _write_arrays_to_text arrays output_file w = (Py.Ok tt, w')
    /\ files w' !! output_file = Some text
    /\ mapM parse_assignment (text_lines text) = Some arrays.
Proof.
  intros [Hos Hdir]. eexists _, _.
  split; [by apply write_arrays_to_text_ok|].
  split; [simpl; apply lookup_insert_eq|].
  rewrite text_lines_arrays. apply mapM_parse_array_text.
Qed.

Lemma text_round_trip_witness :
  creatable Posix.empty_world "out.txt"
  /\ exists w' text,
       _write_arrays_to_text [[3; 1; 2]; []; [-5]] "out.txt" Posix.empty_world
       = (Py.Ok tt, w')
       /\ files w' !! "out.txt" = Some text
       /\ mapM parse_assignment (text_lines text) = Some [[3; 1; 2]; []; [-5]].
Proof.
  assert (creatable Posix.empty_world "out.txt") as H.
  { split; [reflexivity|]. apply (bool_decide_eq_false_1 _). by vm_compute. }
  split; [exact H|]. exact (text_round_trip _ _ _ H).
Defined.


(** ** Dictionaries *)

Section DictFacts.
Context {K V : Type} `{EqDecision K}.
Implicit Types d : list (K * V).

Lemma dict_get_keys d k : k ∈ PyDict.keys d -> is_Some (PyDict.get d k).
Proof.
  unfold PyDict.keys. induction d as [|[k' v] r IH]; simpl.
  - by intros ?%elem_of_nil.
  - intros Hin. destruct (decide (k' = k)); [by eexists|].
    apply IH. apply elem_of_cons in Hin as [?|?]; [congruence|done].
Qed.

Lemma dict_get_Some_elem d k v : PyDict.get d k = Some v -> (k, v) ∈ d.
Proof.
  induction d as [|[k' v'] r IH]; simpl; [done|].
  destruct (decide (k' = k)) as [->|].
  - intros [= ->]. apply elem_of_cons. by left.
  - intros H'. apply elem_of_cons. right. by apply IH.
Qed.

Lemma dict_keys_set d k v :
  PyDict.keys (PyDict.set d k v)
  = if decide (k ∈ PyDict.keys d) then PyDict.keys d else PyDict.keys d ++ [k].
Proof.
  unfold PyDict.keys. induction d as [|[k' v'] r IH]; [done|].
  cbn [PyDict.set]. destruct (decide (k' = k)) as [->|Hne];
    rewrite !fmap_cons; cbn [fst].
  - rewrite decide_True; [done|]. apply elem_of_cons. by left.
  - rewrite IH. destruct (decide (k ∈ r.*1)) as [Hin|Hnin].
    + rewrite decide_True; [done|]. apply elem_of_cons. by right.
    + rewrite decide_False; [done|].
      intros [?|?]%elem_of_cons; [congruence|done].
Qed.

Lemma dict_set_NoDup d k v :
  NoDup (PyDict.keys d) -> NoDup (PyDict.keys (PyDict.set d k v)).
Proof.
  intros Hnd. rewrite dict_keys_set. case_decide; [done|].
  apply NoDup_app. split; [done|]. split; [|apply NoDup_singleton].
  intros x Hx ?%list_elem_of_singleton. by subst.
Qed.

Lemma dict_of_assignments_NoDup (l : list (K * V)) :
  NoDup (PyDict.keys (PyDict.of_assignments l)).
Proof.
  unfold PyDict.of_assignments.
  assert (forall d, NoDup (PyDict.keys d) ->
            NoDup (PyDict.keys (fold_left (fun d kv => PyDict.set d kv.1 kv.2) l d)))
    as Hgen.
  { induction l as [|[k v] r IH]; intros d Hd; [done|].
    simpl. by apply IH, dict_set_NoDup. }
  apply Hgen. constructor.
Qed.

Lemma dict_sum_skip d k v (g : K -> V -> nat) (ks : list K) :
  k ∉ ks ->
  sum_list_with (fun k0 => from_option (g k0) 0%nat (PyDict.get ((k, v) :: d) k0)) ks
  = sum_list_with (fun k0 => from_option (g k0) 0%nat (PyDict.get d k0)) ks.
Proof.
  induction ks as [|k' ks IH]; [done|].
  intros Hk. apply not_elem_of_cons in Hk as [Hne Hk].
  cbn [sum_list_with PyDict.get]. rewrite decide_False by done.
  by rewrite <- (IH Hk).
Qed.

(** Reading every key of a dictionary visits every item once. *)
Lemma dict_sum_keys d (g : K -> V -> nat) :
  NoDup (PyDict.keys d) ->
  sum_list_with (fun k => from_option (g k) 0%nat (PyDict.get d k)) (PyDict.keys d)
  = sum_list_with (fun kv => g kv.1 kv.2) d.
Proof.
  unfold PyDict.keys. induction d as [|[k v] r IH]; [done|].
  rewrite fmap_cons. cbn [fst]. intros [Hk Hr]%NoDup_cons.
  cbn [sum_list_with]. rewrite dict_sum_skip by done.
  cbn [PyDict.get]. rewrite decide_True by done.
  by rewrite (IH Hr).
Qed.
End DictFacts.

Lemma sorted_Permutation (l : list Z) : Py.sorted l ≡ₚ l.
Proof. apply merge_sort_Permutation. Qed.

Lemma sorted_elem_of (l : list Z) x : x ∈ Py.sorted l <-> x ∈ l.
Proof. by rewrite sorted_Permutation. Qed.

Lemma sorted_nil_inv (l : list Z) : Py.sorted l = [] -> l = [].
Proof.
  intros H. apply Permutation_nil_r. rewrite <- H. symmetry.
  apply sorted_Permutation.
Qed.

Lemma length_enumerate {A} (l : list A) : length (enumerate l) = length l.
Proof. apply length_imap. Qed.

(** ** The per-element and per-array reports *)

Lemma complete_elements_fold zdd_id structure array_idx array es st :
  fold_left (complete_element_step zdd_id structure array_idx array) es st
  = {| cs_rows := cs_rows st ++ (complete_row zdd_id structure array_idx array <$> es);
       total_arrays := total_arrays st;
       total_elements := total_elements st + Z.of_nat (length es) |}.
Proof.
  revert st. induction es as [|[pos v] es IH]; intros st.
  - destruct st. cbn. f_equal; [by rewrite app_nil_r | lia].
  - cbn [fold_left]. rewrite IH. cbn. f_equal; [by rewrite <- app_assoc | lia].
Qed.

Lemma complete_array_step_eq zdd_id structure st idx a :
  complete_array_step zdd_id structure st (idx, a)
  = {| cs_rows := cs_rows st ++ complete_rows_of_array zdd_id structure (idx, a);
       total_arrays := total_arrays st + 1;
       total_elements := total_elements st + Z.of_nat (length a) |}.
Proof.
  unfold complete_array_step. rewrite complete_elements_fold.
  by rewrite length_enumerate.
Qed.

Lemma complete_arrays_fold zdd_id structure items st :
  fold_left (complete_array_step zdd_id structure) items st
  = {| cs_rows := cs_rows st ++ mjoin (complete_rows_of_array zdd_id structure <$> items);
       total_arrays := total_arrays st + Z.of_nat (length items);
       total_elements :=
         total_elements st + Z.of_nat (sum_list_with (fun a => length a.2) items) |}.
Proof.
  revert st. induction items as [|[idx a] items IH]; intros st.
  - destruct st. cbn. f_equal; [by rewrite app_nil_r | lia | lia].
  - cbn [fold_left]. rewrite IH, complete_array_step_eq.
    cbn [cs_rows total_arrays total_elements].
    rewrite fmap_cons. cbn [mjoin list_join sum_list_with snd length].
    f_equal; [by rewrite <- app_assoc | lia | lia].
Qed.

Lemma sum_imap_lengths (f : nat -> list Z -> Z * list Z) (l : list (list Z)) :
  (forall i x, (f i x).2 = x) ->
  sum_list_with (fun a : Z * list Z => length a.2) (imap f l)
  = sum_list_with length l.
Proof.
  revert f. induction l as [|a l IH]; intros f Hf; [done|].
  rewrite imap_cons. cbn [sum_list_with]. rewrite Hf. f_equal.
  apply IH. intros i x. apply Hf.
Qed.

Lemma sum_enumerate_lengths (l : list (list Z)) :
  sum_list_with (fun a : Z * list Z => length a.2) (enumerate l)
  = sum_list_with length l.
Proof. by apply sum_imap_lengths. Qed.

Lemma complete_zdds_fold zdds ks st :
  Forall (fun k => is_Some (PyDict.get zdds k)) ks ->
  fold_left (complete_zdd_step zdds) ks (Some st)
  = Some {| cs_rows := cs_rows st ++ mjoin (complete_rows_of zdds <$> ks);
            total_arrays := total_arrays st + Z.of_nat (sum_list_with (arrays_at zdds) ks);
            total_elements :=
              total_elements st + Z.of_nat (sum_list_with (elements_at zdds) ks) |}.
Proof.
  intros Hks. revert st. induction Hks as [|k ks [s Hs] Hks IH]; intros st.
  - destruct st. cbn. do 2 f_equal; [by rewrite app_nil_r | lia | lia].
  - cbn [fold_left].
    replace (complete_zdd_step zdds (Some st) k)
      with (Some (fold_left (complete_array_step k s) (enumerate (arrays s)) st))
      by (unfold complete_zdd_step; cbn; by rewrite Hs).
    rewrite IH, complete_arrays_fold.
    cbn [cs_rows total_arrays total_elements].
    rewrite fmap_cons. cbn [mjoin list_join sum_list_with].
    unfold complete_rows_of at 2, arrays_at at 2, elements_at at 2.
    rewrite Hs. cbn [from_option].
    rewrite length_enumerate, sum_enumerate_lengths.
    do 2 f_equal; [by rewrite <- app_assoc | lia | lia].
Qed.

Lemma keys_sorted_present (zdds : list (Z * ZDDStructure)) :
  Forall (fun k => is_Some (PyDict.get zdds k)) (Py.sorted (PyDict.keys zdds)).
Proof.
  apply Forall_forall. intros k Hk. apply dict_get_keys.
  by apply sorted_elem_of.
Qed.

Lemma generate_complete_csv_rows zdds :
  generate_complete_csv zdds
  = Some {| cs_rows :=
              complete_header
              :: mjoin (complete_rows_of zdds <$> Py.sorted (PyDict.keys zdds));
            total_arrays :=
              Z.of_nat (sum_list_with (arrays_at zdds) (Py.sorted (PyDict.keys zdds)));
            total_elements :=
              Z.of_nat (sum_list_with (elements_at zdds) (Py.sorted (PyDict.keys zdds))) |}.
Proof.
  unfold generate_complete_csv.
  by rewrite complete_zdds_fold by apply keys_sorted_present.
Qed.

Lemma length_complete_rows_of zdds k :
  length (complete_rows_of zdds k) = elements_at zdds k.
Proof.
  unfold complete_rows_of, elements_at. destruct (PyDict.get zdds k) as [s|]; [|done].
  cbn [from_option]. rewrite length_join, <- list_fmap_compose.
  rewrite <- sum_enumerate_lengths.
  generalize (enumerate (arrays s)) as items.
  induction items as [|a items IH]; [done|].
  rewrite fmap_cons. cbn [sum_list_with]. rewrite IH. f_equal.
  unfold compose, complete_rows_of_array. by rewrite length_fmap, length_enumerate.
Qed.

Lemma sum_elements_at zdds :
  NoDup (PyDict.keys zdds) ->
  sum_list_with (elements_at zdds) (Py.sorted (PyDict.keys zdds)) = count_elements zdds.
Proof.
  intros Hnd. rewrite sorted_Permutation. unfold count_elements.
  by rewrite <- (dict_sum_keys zdds (fun _ s => sum_list_with length (arrays s))).
Qed.

Lemma sum_arrays_at zdds :
  NoDup (PyDict.keys zdds) ->
  sum_list_with (arrays_at zdds) (Py.sorted (PyDict.keys zdds)) = count_arrays zdds.
Proof.
  intros Hnd. rewrite sorted_Permutation. unfold count_arrays.
  by rewrite <- (dict_sum_keys zdds (fun _ s => length (arrays s))).
Qed.

Lemma length_mjoin_rows {A} (f : Z -> list A) (g : Z -> nat) ks :
  (forall k, length (f k) = g k) ->
  length (mjoin (f <$> ks)) = sum_list_with g ks.
Proof.
  intros Hfg. induction ks as [|k ks IH]; [done|].
  rewrite fmap_cons.
  change (mjoin (f k :: (f <$> ks))) with (f k ++ mjoin (f <$> ks)).
  by rewrite length_app, Hfg, IH.
Qed.

Lemma summary_row_cells zdd_id structure array_idx array :
  summary_row zdd_id structure array_idx array
  = Some (summary_cells zdd_id structure (array_idx, array)).
Proof.
  unfold summary_row, summary_cells. by destruct array.
Qed.

Lemma summary_arrays_fold zdd_id structure items rows :
  fold_left (summary_array_step zdd_id structure) items (Some rows)
  = Some (rows ++ (summary_cells zdd_id structure <$> items)).
Proof.
  revert rows. induction items as [|[idx a] items IH]; intros rows.
  - cbn. by rewrite app_nil_r.
  - cbn [fold_left].
    replace (summary_array_step zdd_id structure (Some rows) (idx, a))
      with (Some (rows ++ [summary_cells zdd_id structure (idx, a)]))
      by (unfold summary_array_step; cbn [mbind option_bind fst snd];
          by rewrite summary_row_cells).
    rewrite IH, fmap_cons. by rewrite <- app_assoc.
Qed.

Lemma summary_zdds_fold zdds ks rows :
  Forall (fun k => is_Some (PyDict.get zdds k)) ks ->
  fold_left (summary_zdd_step zdds) ks (Some rows)
  = Some (rows ++ mjoin (summary_rows_of zdds <$> ks)).
Proof.
  intros Hks. revert rows. induction Hks as [|k ks [s Hs] Hks IH]; intros rows.
  - cbn. by rewrite app_nil_r.
  - cbn [fold_left].
    replace (summary_zdd_step zdds (Some rows) k)
      with (Some (rows ++ (summary_cells k s <$> enumerate (arrays s))))
      by (unfold summary_zdd_step; cbn [mbind option_bind]; rewrite Hs;
          cbn [mbind option_bind]; by rewrite summary_arrays_fold).
    rewrite IH, fmap_cons.
    change (mjoin (summary_rows_of zdds k :: (summary_rows_of zdds <$> ks)))
      with (summary_rows_of zdds k ++ mjoin (summary_rows_of zdds <$> ks)).
    unfold summary_rows_of at 2. rewrite Hs. by rewrite <- app_assoc.
Qed.

Lemma generate_array_summary_csv_rows zdds :
  generate_array_summary_csv zdds
  = Some (summary_header
          :: mjoin (summary_rows_of zdds <$> Py.sorted (PyDict.keys zdds))).
Proof.
  unfold generate_array_summary_csv.
  by rewrite summary_zdds_fold by apply keys_sorted_present.
Qed.

Lemma length_summary_rows_of zdds k :
  length (summary_rows_of zdds k) = arrays_at zdds k.
Proof.
  unfold summary_rows_of, arrays_at. destruct (PyDict.get zdds k) as [s|]; [|done].
  cbn [from_option]. by rewrite length_fmap, length_enumerate.
Qed.

(** C7. Below its header row the per-element report has one row for each
    element of each array of each loaded structure, so as many rows as the
    array lengths add up to, and the per-array report has one row per array.
    The counter that [generate_complete_csv] prints agrees with the rows. *)
Theorem csv_row_counts (loads : list (Z * ZDDStructure)) :
  (exists st data,
     generate_complete_csv (PyDict.of_assignments loads) = Some st
     /\ cs_rows st = complete_header :: data
     /\ length data = count_elements (PyDict.of_assignments loads)
     /\ total_elements st = Z.of_nat (length data))
  /\ (exists data,
        generate_array_summary_csv (PyDict.of_assignments loads)
        = Some (summary_header :: data)
        /\ length data = count_arrays (PyDict.of_assignments loads)).
Proof.
  pose proof (dict_of_assignments_NoDup loads) as Hnd.
  set (zdds := PyDict.of_assignments loads) in *. split.
  - eexists _, _. split; [apply generate_complete_csv_rows|].
    split; [reflexivity|]. cbn [total_elements].
    rewrite (length_mjoin_rows _ _ _ (length_complete_rows_of zdds)).
    split; [by apply sum_elements_at | done].
  - eexists. split; [apply generate_array_summary_csv_rows|].
    rewrite (length_mjoin_rows _ _ _ (length_summary_rows_of zdds)).
    by apply sum_arrays_at.
Qed.

(** ** The pattern table *)

Lemma occurrences_append_cons k v r p o :
  occurrences_append ((k, v) :: r) p o
  = if decide (k = p) then (p, v ++ [o]) :: r
    else (k, v) :: occurrences_append r p o.
Proof.
  unfold occurrences_append. cbn [PyDict.get PyDict.set].
  by destruct (decide (k = p)).
Qed.


Lemma occurrences_append_nonempty d p o :
  Forall (fun item => item.2 <> []) d ->
  Forall (fun item => item.2 <> []) (occurrences_append d p o).
Proof.
  induction 1 as [|[k v] r Hv Hr IH].
  - repeat constructor. done.
  - rewrite occurrences_append_cons. destruct (decide (k = p)).
    + constructor; [|done]. simpl. by destruct v.
    + by constructor.
Qed.

Lemma pattern_arrays_fold zdd_id items d :
  fold_left (pattern_array_step zdd_id) items d
  = fold_left pattern_step
      ((fun a : Z * list Z => ((zdd_id, a.1), a.2)) <$> items) d.
Proof.
  revert d. induction items as [|[idx a] items IH]; intros d; [done|].
  rewrite fmap_cons. cbn [fold_left]. by rewrite IH.
Qed.

Lemma collect_patterns_flat zdds :
  collect_patterns zdds = fold_left pattern_step (occurrence_list zdds) [].
Proof.
  unfold collect_patterns, occurrence_list. generalize (@nil (list Z * list (Z * Z))).
  induction zdds as [|[k s] zdds IH]; intros d; [done|].
  rewrite fmap_cons. cbn [fold_left fst snd].
  change (mjoin (?x :: ?l)) with (x ++ mjoin l).
  by rewrite fold_left_app, IH, pattern_arrays_fold.
Qed.


Lemma elem_of_occurrence_list zdds x :
  x ∈ occurrence_list zdds ->
  exists item, item ∈ zdds /\ x.2 ∈ arrays item.2.
Proof.
  unfold occurrence_list.
  intros (l & Hx & (item & -> & Hitem)%list_elem_of_fmap)%list_elem_of_join.
  apply list_elem_of_fmap in Hx as ([idx a] & -> & Ha).
  exists item. split; [done|]. cbn [snd].
  unfold enumerate in Ha. apply elem_of_lookup_imap in Ha as (i & y & Heq & Hy).
  simplify_eq. by eapply list_elem_of_lookup_2.
Qed.

Lemma occurrence_list_elem_of zdds item a :
  item ∈ zdds -> a ∈ arrays item.2 ->
  exists occ, (occ, a) ∈ occurrence_list zdds.
Proof.
  intros Hitem (i & Hi)%list_elem_of_lookup_1.
  exists (item.1, Z.of_nat i). unfold occurrence_list.
  apply list_elem_of_join. eexists. split; [|apply list_elem_of_fmap; eauto].
  apply list_elem_of_fmap. exists (Z.of_nat i, a). split; [done|].
  unfold enumerate. apply elem_of_lookup_imap. eauto.
Qed.


Lemma pattern_fold_nonempty xs d :
  Forall (fun item => item.2 <> []) d ->
  Forall (fun item => item.2 <> []) (fold_left pattern_step xs d).
Proof.
  revert d. induction xs as [|x xs IH]; intros d Hd; [done|].
  cbn [fold_left]. by apply IH, occurrences_append_nonempty.
Qed.

Lemma pattern_fold_NoDup xs d :
  NoDup (PyDict.keys d) -> NoDup (PyDict.keys (fold_left pattern_step xs d)).
Proof.
  revert d. induction xs as [|x xs IH]; intros d Hd; [done|].
  cbn [fold_left]. by apply IH, dict_set_NoDup.
Qed.

Lemma pattern_step_keys d x p :
  p ∈ PyDict.keys (pattern_step d x) <-> p ∈ PyDict.keys d \/ p = Py.sorted x.2.
Proof.
  unfold pattern_step, occurrences_append. rewrite dict_keys_set.
  case_decide as Hin.
  - split; [by left|]. by intros [?| ->].
  - rewrite elem_of_app, list_elem_of_singleton. done.
Qed.

Lemma pattern_fold_keys xs d p :
  p ∈ PyDict.keys (fold_left pattern_step xs d)
  <-> p ∈ PyDict.keys d \/ exists x, x ∈ xs /\ p = Py.sorted x.2.
Proof.
  revert d. induction xs as [|x xs IH]; intros d; cbn [fold_left].
  - split; [by left|]. intros [?|(x & Hx & _)]; [done|]. by apply elem_of_nil in Hx.
  - rewrite IH, pattern_step_keys. split.
    + intros [[?| ->]|(y & Hy & ->)]; [by left| |].
      * right. exists x. split; [|done]. apply elem_of_cons. by left.
      * right. exists y. split; [|done]. apply elem_of_cons. by right.
    + intros [?|(y & [->|Hy]%elem_of_cons & ->)].
      * by left; left.
      * by left; right.
      * right. by exists y.
Qed.

Lemma insert_by_frequency_Permutation {A B} (x : A * list B) l :
  insert_by_frequency x l ≡ₚ x :: l.
Proof.
  induction l as [|y r IH]; [done|]. cbn [insert_by_frequency].
  case_match; [done|]. rewrite IH. apply Permutation_swap.
Qed.

Lemma sorted_by_frequency_Permutation {A B} (l : list (A * list B)) :
  sorted_by_frequency l ≡ₚ l.
Proof.
  induction l as [|x l IH]; [done|]. cbn [sorted_by_frequency foldr].
  rewrite insert_by_frequency_Permutation. by f_equiv.
Qed.

Lemma min_is_Some (l : list Z) : l <> [] -> is_Some (Py.min l).
Proof. destruct l; [done|]. by eexists. Qed.

Lemma unique_zdds_nonempty (occurrences : list (Z * Z)) :
  occurrences <> [] ->
  Py.sorted (elements (list_to_set occurrences.*1 : gset Z)) <> [].
Proof.
  destruct occurrences as [|[k i] r]; [done|]. intros _ H.
  apply sorted_nil_inv, elements_empty_inv in H.
  assert (k ∈ (list_to_set ((k, i) :: r).*1 : gset Z)) as Hk.
  { apply elem_of_list_to_set. rewrite fmap_cons. apply elem_of_cons. by left. }
  rewrite H in Hk. by apply elem_of_empty in Hk.
Qed.

Lemma pattern_row_cells item :
  item.2 <> [] -> pattern_row item = Some (pattern_cells item).
Proof.
  destruct item as [pattern occurrences]. cbn [snd]. intros Hne.
  unfold pattern_row, pattern_cells. cbn [fst snd].
  destruct (min_is_Some _ (unique_zdds_nonempty _ Hne)) as [m Hm].
  by rewrite Hm.
Qed.

Lemma pattern_rows_fold items rows :
  Forall (fun item => item.2 <> []) items ->
  fold_left pattern_row_step items (Some rows)
  = Some (rows ++ (pattern_cells <$> items)).
Proof.
  intros Hall. revert rows. induction Hall as [|item items Hne Hall IH]; intros rows.
  - cbn. by rewrite app_nil_r.
  - cbn [fold_left].
    replace (pattern_row_step (Some rows) item)
      with (Some (rows ++ [pattern_cells item]))
      by (unfold pattern_row_step; cbn [mbind option_bind];
          by rewrite pattern_row_cells).
    rewrite IH, fmap_cons. by rewrite <- app_assoc.
Qed.


Lemma collect_patterns_nonempty zdds :
  Forall (fun item => item.2 <> []) (collect_patterns zdds).
Proof. rewrite collect_patterns_flat. by apply pattern_fold_nonempty. Qed.

Lemma generate_pattern_analysis_csv_rows zdds :
  generate_pattern_analysis_csv zdds
  = Some (pattern_header
          :: (pattern_cells <$> sorted_by_frequency (collect_patterns zdds))).
Proof.
  unfold generate_pattern_analysis_csv. rewrite pattern_rows_fold; [done|].
  rewrite sorted_by_frequency_Permutation. apply collect_patterns_nonempty.
Qed.

Lemma collect_patterns_keys zdds p :
  p ∈ PyDict.keys (collect_patterns zdds)
  <-> exists item a, item ∈ zdds /\ a ∈ arrays item.2 /\ p = Py.sorted a.
Proof.
  rewrite collect_patterns_flat, pattern_fold_keys. split.
  - intros [Hp|(x & Hx & ->)]; [by apply elem_of_nil in Hp|].
    destruct (elem_of_occurrence_list _ _ Hx) as (item & Hitem & Ha). eauto.
  - intros (item & a & Hitem & Ha & ->). right.
    destruct (occurrence_list_elem_of _ _ _ Hitem Ha) as (occ & Hocc).
    by exists (occ, a).
Qed.


(** ** Empty arrays in the exports *)

Lemma enumerate_lookup {A} (l : list A) i x :
  l !! i = Some x -> (Z.of_nat i, x) ∈ enumerate l.
Proof.
  intros H. unfold enumerate. apply elem_of_lookup_imap. eauto.
Qed.

Lemma elem_of_enumerate {A} (l : list A) idx x :
  (idx, x) ∈ enumerate l -> exists i, idx = Z.of_nat i /\ l !! i = Some x.
Proof.
  unfold enumerate. intros (i & y & Heq & Hy)%elem_of_lookup_imap.
  simplify_eq. eauto.
Qed.

Lemma dict_get_Some_key {V} (d : list (Z * V)) k v :
  PyDict.get d k = Some v -> k ∈ PyDict.keys d.
Proof.
  intros H%dict_get_Some_elem. unfold PyDict.keys.
  apply list_elem_of_fmap. by exists (k, v).
Qed.

Lemma summary_row_present zdds zdd_id structure i a :
  PyDict.get zdds zdd_id = Some structure ->
  arrays structure !! i = Some a ->
  exists rows,
    generate_array_summary_csv zdds = Some rows
    /\ summary_cells zdd_id structure (Z.of_nat i, a) ∈ rows.
Proof.
  intros Hget Ha. eexists. split; [apply generate_array_summary_csv_rows|].
  apply elem_of_cons. right. apply list_elem_of_join.
  exists (summary_rows_of zdds zdd_id). split.
  - unfold summary_rows_of. rewrite Hget. apply list_elem_of_fmap.
    exists (Z.of_nat i, a). split; [done|]. by apply enumerate_lookup.
  - apply list_elem_of_fmap. exists zdd_id. split; [done|].
    apply sorted_elem_of. by eapply dict_get_Some_key.
Qed.

Lemma summary_rows_origin zdds row :
  row ∈ mjoin (summary_rows_of zdds <$> Py.sorted (PyDict.keys zdds)) ->
  exists k s j a,
    PyDict.get zdds k = Some s /\ arrays s !! j = Some a
    /\ row = summary_cells k s (Z.of_nat j, a).
Proof.
  intros (l & Hrow & Hl)%list_elem_of_join.
  apply list_elem_of_fmap in Hl as (k & -> & Hk).
  unfold summary_rows_of in Hrow.
  destruct (PyDict.get zdds k) as [s|] eqn:Hs; [|by apply elem_of_nil in Hrow].
  apply list_elem_of_fmap in Hrow as ([idx a] & -> & Ha).
  apply elem_of_enumerate in Ha as (j & -> & Hj). eauto 10.
Qed.

(** C9. [generate_array_summary_csv] returns its rows for every collection
    of structures.  For a zero-length array of a loaded structure the report
    has a row, and every row of the report for that array is this one:
    length 0, both signatures [[]], 0 unique elements and 0 as minimum and as
    maximum, although [min] and [max] of an empty sequence raise. *)
Theorem summary_of_empty_array (zdds : list (Z * ZDDStructure)) (zdd_id : Z)
    (structure : ZDDStructure) (i : nat) :
  PyDict.get zdds zdd_id = Some structure ->
  arrays structure !! i = Some [] ->
  exists rows,
    generate_array_summary_csv zdds = Some rows
    /\ [CInt zdd_id; CStr (thesis_number_of zdd_id);
        CInt (magic_number structure); CInt (Z.of_nat i); CInt 0;
        CStr "[]"; CStr "[]"; CInt 0; CInt 0; CInt 0] ∈ rows
    /\ (forall row,
          row ∈ rows ->
          row !! 0%nat = Some (CInt zdd_id) ->
          row !! 3%nat = Some (CInt (Z.of_nat i)) ->
          row = [CInt zdd_id; CStr (thesis_number_of zdd_id);
                 CInt (magic_number structure); CInt (Z.of_nat i); CInt 0;
                 CStr "[]"; CStr "[]"; CInt 0; CInt 0; CInt 0])
    /\ (forall zdds' : list (Z * ZDDStructure),
          is_Some (generate_array_summary_csv zdds'))
    /\ Py.min [] = None /\ Py.max [] = None.
Proof.
  intros Hget Ha.
  destruct (summary_row_present _ _ _ _ _ Hget Ha) as (rows & Hrows & Hin).
  exists rows. split; [exact Hrows|]. split; [exact Hin|].
  split.
  { rewrite generate_array_summary_csv_rows in Hrows. injection Hrows as <-.
    intros row [->|Hrow]%elem_of_cons; [by intros [=]|].
    apply summary_rows_origin in Hrow as (k & s & j & a & Hk & Hj & ->).
    cbn. intros [= ->] [= Hij]. apply Nat2Z.inj in Hij as ->.
    rewrite Hget in Hk. injection Hk as <-. rewrite Ha in Hj. injection Hj as <-.
    reflexivity. }
  split; [|done].
  intros zdds'. rewrite generate_array_summary_csv_rows. by eexists.
Qed.

Lemma summary_of_empty_array_witness :
  PyDict.get Sample.zdds_only_empty 1 = Some Sample.only_empty
  /\ arrays Sample.only_empty !! 0%nat = Some []
  /\ exists rows,
       generate_array_summary_csv Sample.zdds_only_empty = Some rows
       /\ [CInt 1; CStr (thesis_number_of 1);
           CInt (magic_number Sample.only_empty); CInt (Z.of_nat 0); CInt 0;
           CStr "[]"; CStr "[]"; CInt 0; CInt 0; CInt 0] ∈ rows
       /\ (forall row,
             row ∈ rows ->
             row !! 0%nat = Some (CInt 1) ->
             row !! 3%nat = Some (CInt (Z.of_nat 0)) ->
             row = [CInt 1; CStr (thesis_number_of 1);
                    CInt (magic_number Sample.only_empty); CInt (Z.of_nat 0);
                    CInt 0; CStr "[]"; CStr "[]"; CInt 0; CInt 0; CInt 0])
       /\ (forall zdds' : list (Z * ZDDStructure),
             is_Some (generate_array_summary_csv zdds'))
       /\ Py.min [] = None /\ Py.max [] = None.
Proof.
  assert (PyDict.get Sample.zdds_only_empty 1 = Some Sample.only_empty) as H1
    by reflexivity.
  assert (arrays Sample.only_empty !! 0%nat = Some []) as H2 by reflexivity.
  split; [exact H1|]. split; [exact H2|].
  exact (summary_of_empty_array Sample.zdds_only_empty 1 Sample.only_empty 0 H1 H2).
Defined.

Lemma complete_rows_origin zdds row :
  row ∈ mjoin (complete_rows_of zdds <$> Py.sorted (PyDict.keys zdds)) ->
  exists zdd_id structure i a e,
    PyDict.get zdds zdd_id = Some structure
    /\ arrays structure !! i = Some a
    /\ e ∈ enumerate a
    /\ row = complete_row zdd_id structure (Z.of_nat i) a e.
Proof.
  intros (l & Hrow & (k & -> & Hk)%list_elem_of_fmap)%list_elem_of_join.
  unfold complete_rows_of in Hrow.
  destruct (PyDict.get zdds k) as [s|] eqn:Hs; [|by apply elem_of_nil in Hrow].
  apply list_elem_of_join in Hrow as (l & Hrow & ([idx a] & -> & Ha)%list_elem_of_fmap).
  apply elem_of_enumerate in Ha as (i & -> & Hi).
  unfold complete_rows_of_array in Hrow. cbn [fst snd] in Hrow.
  apply list_elem_of_fmap in Hrow as (e & -> & He).
  by exists k, s, i, a, e.
Qed.

Lemma pattern_row_present zdds item a :
  item ∈ zdds -> a ∈ arrays item.2 ->
  exists data row f,
    generate_pattern_analysis_csv zdds = Some (pattern_header :: data)
    /\ row ∈ data
    /\ row !! 0%nat = Some (CStr (array_text (Py.sorted a)))
    /\ row !! 1%nat = Some (CInt f) /\ 0 < f.
Proof.
  intros Hitem Ha.
  assert (Py.sorted a ∈ PyDict.keys (collect_patterns zdds)) as Hkey
    by (apply collect_patterns_keys; eauto).
  unfold PyDict.keys in Hkey.
  apply list_elem_of_fmap in Hkey as ([p occ] & Hp & Hin). cbn [fst] in Hp.
  pose proof (collect_patterns_nonempty zdds) as Hne.
  rewrite Forall_forall in Hne. specialize (Hne _ Hin). cbn [snd] in Hne.
  exists (pattern_cells <$> sorted_by_frequency (collect_patterns zdds)),
         (pattern_cells (p, occ)), (len occ).
  split; [apply generate_pattern_analysis_csv_rows|].
  split.
  { apply list_elem_of_fmap. exists (p, occ). split; [done|].
    by rewrite sorted_by_frequency_Permutation. }
  split; [by rewrite Hp|]. split; [done|].
  unfold len. destruct occ; [done|]. simpl. lia.
Qed.

(** C2, amended. A zero-length array of a loaded structure is kept by the text
    exporter (the line [[]] at the array's position), by the per-array
    report (its row, with length 0) and by the pattern table (a row for the
    empty signature); the per-element report, which writes one row per
    element, has no row for it. *)
Theorem empty_array_exports (zdds : list (Z * ZDDStructure)) (zdd_id : Z)
    (structure : ZDDStructure) (i : nat) :
  PyDict.get zdds zdd_id = Some structure ->
  arrays structure !! i = Some [] ->
  (forall w output_file,
      creatable w output_file ->
      exists w' text,
        _write_arrays_to_text (arrays structure) output_file w = (Py.Ok tt, w')
        /\ files w' !! output_file = Some text
        /\ text_lines text !! i = Some "[]")
  /\ (exists rows,
        generate_array_summary_csv zdds = Some rows
        /\ [CInt zdd_id; CStr (thesis_number_of zdd_id);
            CInt (magic_number structure); CInt (Z.of_nat i); CInt 0;
            CStr "[]"; CStr "[]"; CInt 0; CInt 0; CInt 0] ∈ rows)
  /\ (exists data row f,
        generate_pattern_analysis_csv zdds = Some (pattern_header :: data)
        /\ row ∈ data
        /\ row !! 0%nat = Some (CStr "[]")
        /\ row !! 1%nat = Some (CInt f) /\ 0 < f)
  /\ (exists st,
        generate_complete_csv zdds = Some st
        /\ forall row, row ∈ cs_rows st ->
             ~ (row !! 0%nat = Some (CInt zdd_id)
                /\ row !! 3%nat = Some (CInt (Z.of_nat i)))).
Proof.
  intros Hget Ha. split.
  { intros w output_file [Hos Hdir]. eexists _, _.
    split; [by apply write_arrays_to_text_ok|].
    split; [simpl; apply lookup_insert_eq|].
    by rewrite text_lines_arrays, list_lookup_fmap, Ha. }
  split; [exact (summary_row_present _ _ _ _ _ Hget Ha)|].
  split.
  { apply (pattern_row_present zdds (zdd_id, structure) []).
    - by apply dict_get_Some_elem.
    - by eapply list_elem_of_lookup_2. }
  eexists. split; [apply generate_complete_csv_rows|].
  cbn [cs_rows]. intros row [->|Hrow]%elem_of_cons.
  { by intros [[=] _]. }
  apply complete_rows_origin in Hrow as (k & s & j & a & e & Hk & Hj & He & ->).
  cbn. intros [[= ->] [= Hij]]. apply Nat2Z.inj in Hij as ->.
  rewrite Hget in Hk. simplify_eq. by apply elem_of_nil in He.
Qed.

Lemma empty_array_exports_witness :
  PyDict.get Sample.zdds 1 = Some Run.zdd_1
  /\ arrays Run.zdd_1 !! 1%nat = Some []
  /\ ((forall w output_file,
         creatable w output_file ->
         exists w' text,
           _write_arrays_to_text (arrays Run.zdd_1) output_file w = (Py.Ok tt, w')
           /\ files w' !! output_file = Some text
           /\ text_lines text !! 1%nat = Some "[]")
      /\ (exists rows,
            generate_array_summary_csv Sample.zdds = Some rows
            /\ [CInt 1; CStr (thesis_number_of 1);
                CInt (magic_number Run.zdd_1); CInt (Z.of_nat 1); CInt 0;
                CStr "[]"; CStr "[]"; CInt 0; CInt 0; CInt 0] ∈ rows)
      /\ (exists data row f,
            generate_pattern_analysis_csv Sample.zdds = Some (pattern_header :: data)
            /\ row ∈ data
            /\ row !! 0%nat = Some (CStr "[]")
            /\ row !! 1%nat = Some (CInt f) /\ 0 < f)
      /\ (exists st,
            generate_complete_csv Sample.zdds = Some st
            /\ forall row, row ∈ cs_rows st ->
                 ~ (row !! 0%nat = Some (CInt 1)
                    /\ row !! 3%nat = Some (CInt (Z.of_nat 1))))).
Proof.
  assert (PyDict.get Sample.zdds 1 = Some Run.zdd_1) as H1 by reflexivity.
  assert (arrays Run.zdd_1 !! 1%nat = Some []) as H2 by reflexivity.
  split; [exact H1|]. split; [exact H2|].
  exact (empty_array_exports Sample.zdds 1 Run.zdd_1 1 H1 H2).
Defined.

(** The per-element report of a structure whose only array is empty consists
    of the header row. *)
Lemma per_element_report_without_empty_array :
  PyDict.get Sample.zdds_only_empty 1 = Some Sample.only_empty
  /\ arrays Sample.only_empty !! 0%nat = Some []
  /\ generate_complete_csv Sample.zdds_only_empty
     = Some {| cs_rows := [complete_header]; total_arrays := 1;
               total_elements := 0 |}.
Proof. repeat split. Qed.

(** ** Cohen's kappa: the clauses that are compared *)

Lemma StronglySorted_filter {A} (R : relation A) (P : A -> Prop)
    `{forall x, Decision (P x)} (l : list A) :
  StronglySorted R l -> StronglySorted R (filter P l).
Proof.
  induction 1 as [|x l Hl IH Hx]; [constructor|].
  rewrite filter_cons. case_decide; [|done].
  constructor; [done|]. apply Forall_forall. intros y [_ Hy]%list_elem_of_filter.
  rewrite Forall_forall in Hx. by apply Hx.
Qed.

Section KappaFacts.
Context {kappa : Type}.
Variable cohen_kappa_score : list string -> list string -> kappa.
Variables eval1 eval2 : gmap string clause_evaluation.

Let both_rated (c : string) : Prop :=
  rated (rating_in eval1 c) && rated (rating_in eval2 c).

Lemma kappa_step_eq c acc e1 e2 :
  eval1 !! c = Some e1 -> eval2 !! c = Some e2 ->
  kappa_step eval1 eval2 (Some acc) c
  = Some (if rated (rating e1) && rated (rating e2)
          then (acc.1 ++ [rating e1], acc.2 ++ [rating e2])
          else acc).
Proof.
  intros H1 H2. unfold kappa_step. cbn [mbind option_bind].
  rewrite H1. cbn [mbind option_bind]. rewrite H2. cbn [mbind option_bind].
  by destruct (rated (rating e1) && rated (rating e2)).
Qed.

Lemma both_rated_at c e1 e2 :
  eval1 !! c = Some e1 -> eval2 !! c = Some e2 ->
  both_rated c <-> rated (rating e1) && rated (rating e2) = true.
Proof.
  intros H1 H2. unfold both_rated, rating_in. rewrite H1, H2. cbn [from_option].
  apply Is_true_true.
Qed.

Lemma kappa_fold ks acc :
  Forall (fun c => is_Some (eval1 !! c) /\ is_Some (eval2 !! c)) ks ->
  fold_left (kappa_step eval1 eval2) ks (Some acc)
  = Some (acc.1 ++ (rating_in eval1 <$> filter both_rated ks),
          acc.2 ++ (rating_in eval2 <$> filter both_rated ks)).
Proof.
  intros Hks. revert acc.
  induction Hks as [|c ks [[e1 H1] [e2 H2]] Hks IH]; intros [r1 r2].
  - cbn. by rewrite !app_nil_r.
  - cbn [fold_left]. rewrite (kappa_step_eq _ _ _ _ H1 H2), IH.
    destruct (decide (both_rated c)) as [Hb|Hb].
    + rewrite filter_cons_True by done.
      apply (both_rated_at _ _ _ H1 H2) in Hb as ->.
      cbn [fst snd]. rewrite !fmap_cons, <- !app_assoc.
      assert (rating_in eval1 c = rating e1) as ->
        by (unfold rating_in; by rewrite H1).
      assert (rating_in eval2 c = rating e2) as ->
        by (unfold rating_in; by rewrite H2).
      done.
    + rewrite filter_cons_False by done.
      destruct (rated (rating e1) && rated (rating e2)) eqn:Hr; [|done].
      exfalso. by apply Hb, (both_rated_at _ _ _ H1 H2).
Qed.

Lemma common_clauses_present :
  Forall (fun c => is_Some (eval1 !! c) /\ is_Some (eval2 !! c))
         (Py.sorted_str (elements (dom eval1 ∩ dom eval2))).
Proof.
  apply Forall_forall. intros c Hc. unfold Py.sorted_str in Hc.
  rewrite merge_sort_Permutation in Hc.
  apply elem_of_elements, elem_of_intersection in Hc as [Hc1 Hc2].
  by apply elem_of_dom in Hc1, Hc2.
Qed.

Lemma both_rated_iff c : both_rated c <-> commonly_rated eval1 eval2 c.
Proof.
  unfold both_rated, commonly_rated, rating_in, rated.
  rewrite andb_True, !bool_decide_spec. split.
  - destruct (eval1 !! c) as [e1|], (eval2 !! c) as [e2|]; cbn; intros [??];
      try done. by exists e1, e2.
  - intros (e1 & e2 & -> & -> & ? & ?). done.
Qed.

Lemma elem_of_rated_ids c :
  c ∈ filter both_rated (Py.sorted_str (elements (dom eval1 ∩ dom eval2)))
  <-> commonly_rated eval1 eval2 c.
Proof.
  rewrite list_elem_of_filter, both_rated_iff. split; [by intros [??]|].
  intros Hc. split; [done|]. unfold Py.sorted_str.
  rewrite merge_sort_Permutation.
  destruct Hc as (e1 & e2 & H1 & H2 & _).
  apply elem_of_elements, elem_of_intersection. split; apply elem_of_dom; eauto.
Qed.

(** C8. [compute_cohens_kappa] returns [(None, [], [])] exactly when no clause
    has an entry with a non-empty rating from both evaluators.  Otherwise it
    returns the score of the two rating lists of the commonly rated clauses,
    listed in increasing order of clause id, and the two lists have the same
    length. *)
Theorem kappa_compares_commonly_rated :
  exists k ratings1 ratings2 ids,
    compute_cohens_kappa cohen_kappa_score eval1 eval2
    = Some (k, ratings1, ratings2)
    /\ ((k, ratings1, ratings2) = (None, [], [])
        <-> ~ exists c, commonly_rated eval1 eval2 c)
    /\ (forall c, c ∈ ids <-> commonly_rated eval1 eval2 c)
    /\ StronglySorted String.le ids /\ NoDup ids
    /\ ratings1 = rating_in eval1 <$> ids
    /\ ratings2 = rating_in eval2 <$> ids
    /\ length ratings1 = length ratings2
    /\ ((exists c, commonly_rated eval1 eval2 c) ->
        k = Some (cohen_kappa_score ratings1 ratings2)).
Proof.
  set (ks := Py.sorted_str (elements (dom eval1 ∩ dom eval2))).
  set (ids := filter both_rated ks).
  assert (StronglySorted String.le ids /\ NoDup ids) as Hsorted.
  { split.
    - apply StronglySorted_filter, StronglySorted_merge_sort; apply _.
    - apply NoDup_filter. unfold ks, Py.sorted_str.
      rewrite merge_sort_Permutation. apply NoDup_elements. }
  assert (ids = [] <-> ~ exists c, commonly_rated eval1 eval2 c) as Hnil.
  { split.
    - intros Hids [c Hc]. apply elem_of_rated_ids in Hc. fold ks ids in Hc.
      rewrite Hids in Hc. by apply elem_of_nil in Hc.
    - intros Hno. destruct ids as [|c r] eqn:Hids; [done|]. exfalso.
      apply Hno. exists c. apply elem_of_rated_ids. fold ks ids.
      rewrite Hids. apply elem_of_cons. by left. }
  assert (compute_cohens_kappa cohen_kappa_score eval1 eval2
          = Some (if decide (ids = []) then None
                  else Some (cohen_kappa_score (rating_in eval1 <$> ids)
                                               (rating_in eval2 <$> ids)),
                  rating_in eval1 <$> ids, rating_in eval2 <$> ids)) as Hrun.
  { unfold compute_cohens_kappa. case_decide as Hempty.
    - assert (ids = []) as Hids.
      { unfold ids, ks. by rewrite Hempty, elements_empty. }
      rewrite Hids. by rewrite decide_True.
    - fold ks. rewrite kappa_fold by apply common_clauses_present.
      cbn [mbind option_bind fst snd app]. fold ids.
      destruct ids as [|c r]; [by rewrite !decide_True|].
      by rewrite !decide_False. }
  eexists _, _, _, ids. split; [exact Hrun|].
  split.
  { rewrite <- Hnil. case_decide as Hids.
    - by rewrite Hids.
    - split; [|done]. intros [=]. }
  split; [apply elem_of_rated_ids|].
  split; [apply Hsorted|]. split; [apply Hsorted|].
  split; [done|]. split; [done|]. split; [by rewrite !length_fmap|].
  intros Hex. rewrite decide_False; [done|]. by rewrite Hnil; intros Hno.
Qed.

End KappaFacts.

(** ** The batch index *)

Lemma set_completed_from evaluator_name b :
  completed_from evaluator_name b (set_completed evaluator_name b).
Proof.
  unfold completed_from, set_completed. simpl.
  repeat split; [apply lookup_insert_eq|].
  intros other Hne. by rewrite lookup_insert_ne.
Qed.

Lemma mark_completed_length batches batch_num evaluator_name :
  length (mark_completed batches batch_num evaluator_name) = length batches.
Proof.
  induction batches as [|b rest IH]; [done|]. simpl.
  case_decide; simpl; by rewrite ?IH.
Qed.

Lemma first_with_number_here b rest batch_num :
  batch_number b = batch_num -> first_with_number (b :: rest) batch_num 0.
Proof.
  intros Hb. split; [by exists b|]. intros j b' Hj. lia.
Qed.

Lemma first_with_number_later b rest batch_num i :
  batch_number b <> batch_num ->
  first_with_number rest batch_num i -> first_with_number (b :: rest) batch_num (S i).
Proof.
  intros Hb [Hi Hlt]. split; [done|].
  intros [|j] b' Hj; simpl; [by intros [= <-]|].
  apply Hlt. lia.
Qed.

Lemma mark_completed_lookup batches batch_num evaluator_name i b :
  batches !! i = Some b ->
  (mark_completed batches batch_num evaluator_name !! i = Some b
   /\ ~ first_with_number batches batch_num i)
  \/ (mark_completed batches batch_num evaluator_name !! i
      = Some (set_completed evaluator_name b)
      /\ first_with_number batches batch_num i).
Proof.
  revert i. induction batches as [|b0 rest IH]; intros i Hi; [done|].
  simpl. case_decide as Hb0.
  - destruct i as [|i]; simpl in *.
    + simplify_eq. right. split; [done|]. by apply first_with_number_here.
    + left. split; [done|]. intros [_ Hlt].
      by apply (Hlt 0%nat b0); [lia| |].
  - destruct i as [|i]; simpl in *.
    + simplify_eq. left. split; [done|]. intros [(b' & Hb' & Hn) _].
      simpl in Hb'. by simplify_eq.
    + destruct (IH i Hi) as [[Hl Hnot]|[Hl Hfirst]].
      * left. split; [done|]. intros [Hex Hlt]. apply Hnot. split; [done|].
        intros j b' Hj Hb'. apply (Hlt (S j) b'); [lia|done].
      * right. split; [done|]. by apply first_with_number_later.
Qed.

Section BatchManagerFacts.
Context {batch_document : Type}.
Variable batch_number_of : batch_document -> Z.
Variable dumps_batch : batch_document -> string.
Variable dumps_index : batch_index -> string.
Variable joinpath : string -> string -> string.

Lemma save_batch_index batch_data evaluator_name self w :
  exists r self' w',
    save_batch batch_number_of dumps_batch dumps_index joinpath
               batch_data evaluator_name (self, w) = (r, (self', w'))
    /\ eval_dir self' = eval_dir self
    /\ index_file self' = index_file self
    /\ total_batches (index self') = total_batches (index self)
    /\ total_theses (index self') = total_theses (index self)
    /\ ((batches (index self') = batches (index self) /\ Py.is_ok r = false)
        \/ batches (index self')
           = mark_completed (batches (index self))
                            (batch_number_of batch_data) evaluator_name).
Proof.
  unfold save_batch, save_index, bind, get_self, lift_world, update_index,
    mkdir_exist_ok, open_w, f_write, print, ret.
  cbn [fst snd].
  repeat (case_match; simplify_eq/=);
    eexists _, _, _; (split; [reflexivity|]); simpl; eauto 10.
Qed.

(** C10. [save_batch] leaves every attribute of the manager and every field
    of the index as it was, except the list of batches, which keeps its length
    and changes at one entry at most: the first entry with the saved batch
    number becomes the same entry with the status of the given evaluator set
    to ['completed'] and the other evaluators' statuses as before.  When
    [save_batch] returns, that entry has been changed in this way. *)
Theorem save_batch_frame batch_data evaluator_name self w :
  exists r self' w',
    save_batch batch_number_of dumps_batch dumps_index joinpath
               batch_data evaluator_name (self, w) = (r, (self', w'))
    /\ eval_dir self' = eval_dir self
    /\ index_file self' = index_file self
    /\ total_batches (index self') = total_batches (index self)
    /\ total_theses (index self') = total_theses (index self)
    /\ length (batches (index self')) = length (batches (index self))
    /\ (forall i b,
          batches (index self) !! i = Some b ->
          exists b',
            batches (index self') !! i = Some b'
            /\ (b' = b
                \/ (first_with_number (batches (index self))
                                      (batch_number_of batch_data) i
                    /\ completed_from evaluator_name b b')))
    /\ (forall i b,
          Py.is_ok r = true ->
          batches (index self) !! i = Some b ->
          first_with_number (batches (index self)) (batch_number_of batch_data) i ->
          exists b',
            batches (index self') !! i = Some b'
            /\ completed_from evaluator_name b b').
Proof.
  destruct (save_batch_index batch_data evaluator_name self w)
    as (r & self' & w' & Hrun & Hdir & Hfile & Htb & Htt & Hb).
  exists r, self', w'. split; [done|]. do 4 (split; [done|]).
  destruct Hb as [[Hsame Hfail]|Hmark].
  - rewrite Hsame. split; [done|]. split.
    + intros i b Hi. exists b. auto.
    + intros i b Hok. congruence.
  - rewrite Hmark. split; [apply mark_completed_length|]. split.
    + intros i b Hi.
      destruct (mark_completed_lookup _ (batch_number_of batch_data)
                  evaluator_name _ _ Hi) as [[Hl _]|[Hl Hfirst]].
      * exists b. auto.
      * eexists. split; [exact Hl|]. right. split; [done|].
        apply set_completed_from.
    + intros i b _ Hi Hfirst.
      destruct (mark_completed_lookup _ (batch_number_of batch_data)
                  evaluator_name _ _ Hi) as [[_ Hnot]|[Hl _]]; [done|].
      eexists. split; [exact Hl|]. apply set_completed_from.
Qed.

End BatchManagerFacts.

(** ** The binary reader *)

Section LayoutFacts.
Variable read_size : list byte -> option (N * list byte).
Variable read_value : list byte -> option (Z * list byte).

Lemma read_arrays_length n bytes r :
  ZDDFormat.read_arrays read_size read_value n bytes = Some r ->
  length r.1 = n.
Proof.
  revert bytes r. induction n as [|n IH]; intros bytes r; simpl.
  - by intros [= <-].
  - intros H. apply bind_Some in H as (a & Ha & H).
    apply bind_Some in H as (r' & Hr' & H). simplify_eq. simpl.
    f_equal. by eapply IH.
Qed.

(** C6. When [load] accepts the bytes, the structure it returns has as many
    arrays as the count field of the header says. *)
Theorem load_array_count bytes structure :
  ZDDFormat.load read_size read_value bytes = Some structure ->
  exists count,
    ZDDFormat.header_count read_size read_value bytes = Some count
    /\ length (arrays structure) = N.to_nat count.
Proof.
  unfold ZDDFormat.load, ZDDFormat.header_count. intros H.
  apply bind_Some in H as (m & Hm & H).
  apply bind_Some in H as (c & Hc & H).
  apply bind_Some in H as (a & Ha & H). simplify_eq. simpl.
  rewrite Hm. simpl. rewrite Hc. simpl. eexists. split; [done|].
  by eapply read_arrays_length.
Qed.

End LayoutFacts.

Lemma load_array_count_witness :
  ZDDFormat.load32 (list_byte_of_string Run.zdd_1_bytes) = Some Run.zdd_1
  /\ exists count,
       ZDDFormat.header_count ZDDFormat.read_u32 ZDDFormat.read_i32
         (list_byte_of_string Run.zdd_1_bytes) = Some count
       /\ length (arrays Run.zdd_1) = N.to_nat count.
Proof.
  assert (ZDDFormat.load32 (list_byte_of_string Run.zdd_1_bytes) = Some Run.zdd_1)
    as H by (vm_compute; reflexivity).
  split; [exact H|].
  exact (load_array_count ZDDFormat.read_u32 ZDDFormat.read_i32 _ _ H).
Defined.

(** ** The models run on examples *)

(** A line parsed together with its line feed is not accepted:
    [strip('[]')] stops at the line feed. *)
Example parse_assignment_line_feed :
  parse_assignment ("[1,2]" +:+ LF) = None /\ parse_assignment ("[]" +:+ LF) = None.
Proof. split; reflexivity. Qed.

Example kappa_example :
  compute_cohens_kappa SampleEval.agreements SampleEval.eval1 SampleEval.eval2
  = Some (Some 1%nat, ["accept"; "reject"], ["accept"; "revise"]).
Proof. vm_compute. reflexivity. Qed.

Example kappa_nothing_in_common :
  compute_cohens_kappa SampleEval.agreements SampleEval.eval1
    (list_to_map [("tesis1_c", SampleEval.entry "accept")])
  = Some (None, [], []).
Proof. vm_compute. reflexivity. Qed.

Example save_batch_example :
  (SampleEval.save_batch 2 "evaluator_1" (SampleEval.self, SampleEval.world0)).1
  = Py.Ok "evaluations/evaluator_1/batch_2.json"
  /\ (fun b => (batch_number b, map_to_list (status b)))
     <$> batches (index (SampleEval.save_batch 2 "evaluator_1"
                           (SampleEval.self, SampleEval.world0)).2.1)
     = [(1, map_to_list SampleEval.pending);
        (2, map_to_list (<["evaluator_1" := "completed"]> SampleEval.pending))].
Proof. split; vm_compute; reflexivity. Qed.

Example reports_example :
  generate_complete_csv Sample.zdds
  = Some {| cs_rows :=
              [complete_header;
               [CInt 1; CStr "2020418"; CInt 7; CInt 0; CInt 2; CStr "[1,-1]";
                CStr "[-1,1]"; CInt 0; CInt 1];
               [CInt 1; CStr "2020418"; CInt 7; CInt 0; CInt 2; CStr "[1,-1]";
                CStr "[-1,1]"; CInt 1; CInt (-1)]];
            total_arrays := 2; total_elements := 2 |}
  /\ generate_array_summary_csv Sample.zdds
     = Some [summary_header;
             [CInt 1; CStr "2020418"; CInt 7; CInt 0; CInt 2; CStr "[1,-1]";
              CStr "[-1,1]"; CInt 2; CInt (-1); CInt 1];
             [CInt 1; CStr "2020418"; CInt 7; CInt 1; CInt 0; CStr "[]";
              CStr "[]"; CInt 0; CInt 0; CInt 0]]
  /\ generate_pattern_analysis_csv Sample.zdds
     = Some [pattern_header;
             [CStr "[-1,1]"; CInt 1; CStr "1"; CInt 1; CInt 2; CInt 2];
             [CStr "[]"; CInt 1; CStr "1"; CInt 1; CInt 0; CInt 0]].
Proof. repeat split; vm_compute; reflexivity. Qed.

(** ** What a frequency counts *)

Lemma dict_get_set {K V} `{EqDecision K} (d : list (K * V)) k v k' :
  PyDict.get (PyDict.set d k v) k'
  = if decide (k = k') then Some v else PyDict.get d k'.
Proof.
  induction d as [|[k0 v0] r IH]; cbn [PyDict.set PyDict.get].
  - done.
  - destruct (decide (k0 = k)) as [->|Hne]; cbn [PyDict.get].
    + by destruct (decide (k = k')).
    + rewrite IH. destruct (decide (k0 = k')) as [->|]; [|done].
      by rewrite decide_False.
Qed.

Lemma pattern_fold_count xs d p :
  length (default [] (PyDict.get (fold_left pattern_step xs d) p))
  = (length (default [] (PyDict.get d p))
     + length (filter (fun x : (Z * Z) * list Z => Py.sorted x.2 = p) xs))%nat.
Proof.
  revert d. induction xs as [|x xs IH]; intros d; cbn [fold_left].
  - rewrite filter_nil. simpl. lia.
  - rewrite IH, filter_cons. unfold pattern_step, occurrences_append.
    rewrite dict_get_set. destruct (decide (Py.sorted x.2 = p)) as [Heq|Hne].
    + cbn [default from_option id]. rewrite length_app, Heq. simpl. lia.
    + lia.
Qed.

(** The occurrences recorded for a pattern are the arrays of the collection
    whose sorted elements are the pattern. *)
Lemma pattern_frequency_counts zdds p occurrences :
  PyDict.get (collect_patterns zdds) p = Some occurrences ->
  length occurrences
  = length (filter (fun x : (Z * Z) * list Z => Py.sorted x.2 = p)
                   (occurrence_list zdds)).
Proof.
  intros Hget. pose proof (pattern_fold_count (occurrence_list zdds) [] p) as H.
  rewrite <- collect_patterns_flat, Hget in H. exact H.
Qed.

(** * Further properties *)

(** ** The multi-file text output *)

Lemma unlines_app (l1 l2 : list string) :
  unlines (l1 ++ l2) = unlines l1 +:+ unlines l2.
Proof.
  induction l1 as [|l r IH]; [done|].
  cbn [app unlines]. by rewrite IH, !app_assoc_str.
Qed.


Lemma f_write_eq p s w old :
  files w !! p = Some old ->
  f_write p s w = (Py.Ok tt, set_files (insert p (old +:+ s)) w).
Proof.
  intros Hold. unfold f_write. f_equal. apply world_eq; try done.
  simpl. by rewrite Hold.
Qed.

Section MultiFileFacts.
Variable decode : string -> Py.result ZDDStructure.
Variables path_name path_parent : string -> string.
Variable joinpath : string -> string -> string.

Lemma decoded_in_Some w f s :
  decoded_in decode w f = Some s ->
  exists bytes, files w !! f = Some bytes /\ decode bytes = Py.Ok s.
Proof.
  unfold decoded_in. destruct (files w !! f) as [bytes|]; [|done].
  destruct (decode bytes) as [s'|] eqn:Hd; [|done]. intros [= ->]. eauto.
Qed.

Lemma decoded_in_missing w f : missing w f -> decoded_in decode w f = None.
Proof. intros [Hf _]. unfold decoded_in. by rewrite Hf. Qed.

(** One existing file: its block is appended to the output. *)
Lemma convert_one_of_many_block out i f w bytes s old :
  files w !! f = Some bytes -> decode bytes = Py.Ok s ->
  files w !! out = Some old ->
  exists w',
    convert_one_of_many decode path_name out (i, f) w = (Py.Ok tt, w')
    /\ files w' = <[out := old +:+ unlines (zdd_block path_name i f s)]> (files w)
    /\ dirs w' = dirs w /\ os_error w' = os_error w /\ stdout w' = stdout w
    /\ log w'
       = log w ++ [(INFO, "Added " +:+ Py.str (len (arrays s)) +:+ " arrays from "
                          +:+ path_name f)].
Proof.
  intros Hf Hdec Hout. unfold convert_one_of_many.
  rewrite (bind_ok _ _ _ _ _ (path_exists_file _ _ _ Hf)). cbn [negb].
  erewrite bind_ok by (unfold parser_load; rewrite Hf, Hdec; reflexivity).
  erewrite bind_ok by (by apply f_write_eq).
  erewrite bind_ok by (apply f_write_eq; simpl; apply lookup_insert_eq).
  erewrite bind_ok by (apply f_write_eq; simpl; apply lookup_insert_eq).
  erewrite bind_ok by (apply f_write_eq; simpl; apply lookup_insert_eq).
  erewrite bind_ok by (apply for_each_write_lines; simpl; apply lookup_insert_eq).
  erewrite bind_ok by (apply f_write_eq; simpl; apply lookup_insert_eq).
  erewrite bind_ok by (apply f_write_eq; simpl; apply lookup_insert_eq).
  erewrite bind_ok by (apply f_write_eq; simpl; apply lookup_insert_eq).
  eexists. split; [reflexivity|]. split; [|done].
  cbn [files add_log set_files]. rewrite !insert_insert_eq. f_equal.
  unfold zdd_block. rewrite !unlines_app. cbn [unlines].
  rewrite !app_assoc_str, !app_empty_r_str. reflexivity.
Qed.

Lemma loop_log_cons w item items :
  loop_log decode path_name w (item :: items)
  = match decoded_in decode w item.2 with
    | Some structure =>
        (INFO, "Added " +:+ Py.str (len (arrays structure)) +:+ " arrays from "
               +:+ path_name item.2)
    | None => (WARNING, "File not found: " +:+ item.2)
    end :: loop_log decode path_name w items.
Proof. reflexivity. Qed.

(** The loop over the listed files, when each of them is missing or decodes. *)
Lemma for_each_convertible out (items : list (Z * string)) w0 w content :
  Forall (fun item => convertible decode w0 item.2) items ->
  out ∉ items.*2 ->
  files w = <[out := content]> (files w0) -> dirs w = dirs w0 ->
  exists w',
    for_each items (convert_one_of_many decode path_name out) w = (Py.Ok tt, w')
    /\ files w'
       = <[out := content +:+ unlines (blocks_of decode path_name w0 items)]> (files w0)
    /\ dirs w' = dirs w0 /\ os_error w' = os_error w /\ stdout w' = stdout w
    /\ log w' = log w ++ loop_log decode path_name w0 items.
Proof.
  intros Hall. revert w content.
  induction Hall as [|[i f] items Hf Hall IH]; intros w content Hout Hfiles Hdirs.
  - exists w. unfold blocks_of. simpl. by rewrite app_empty_r_str, app_nil_r.
  - rewrite fmap_cons in Hout. apply not_elem_of_cons in Hout as [Hne Hout].
    cbn [fst snd] in *. cbn [for_each]. unfold blocks_of. rewrite fmap_cons.
    change (mjoin (?x :: ?l)) with (x ++ mjoin l). fold (blocks_of decode path_name w0 items).
    cbn [fst snd]. rewrite unlines_app, <- app_assoc_str.
    destruct Hf as [Hmiss|[s Hs]].
    + assert (missing w f) as Hmiss'.
      { destruct Hmiss as [H1 H2]. split; [|by rewrite Hdirs].
        by rewrite Hfiles, lookup_insert_ne. }
      erewrite bind_ok by (by apply convert_one_of_many_missing).
      rewrite (decoded_in_missing _ _ Hmiss). cbn [from_option unlines].
      rewrite app_empty_r_str.
      destruct (IH (add_log WARNING ("File not found: " +:+ f) w) content)
        as (w' & Hrun & Hres & Hd' & Ho' & Hs' & Hl'); [done..|].
      exists w'. rewrite Hrun. do 5 (split; [done|]).
      rewrite Hl', loop_log_cons. cbn [snd].
      rewrite (decoded_in_missing _ _ Hmiss). cbn [log add_log].
      by rewrite <- app_assoc.
    + rewrite Hs. cbn [from_option]. pose proof Hs as Hdecoded.
      apply decoded_in_Some in Hs as (bytes & Hb & Hd).
      destruct (convert_one_of_many_block out i f w bytes s content)
        as (w1 & Hrun1 & Hf1 & Hd1 & Ho1 & Hs1 & Hl1).
      { by rewrite Hfiles, lookup_insert_ne. }
      { done. }
      { rewrite Hfiles. apply lookup_insert_eq. }
      erewrite bind_ok by exact Hrun1.
      destruct (IH w1 (content +:+ unlines (zdd_block path_name i f s)))
        as (w' & Hrun & Hres & Hd' & Ho' & Hs' & Hl'); [done| |congruence|].
      { by rewrite Hf1, Hfiles, insert_insert_eq. }
      exists w'. rewrite Hrun. split; [done|]. split; [done|].
      split; [done|]. split; [congruence|]. split; [congruence|].
      rewrite Hl', Hl1, loop_log_cons. cbn [snd]. rewrite Hdecoded.
      by rewrite <- app_assoc.
Qed.

Lemma convertible_enumerate w (binary_files : list string) :
  Forall (convertible decode w) binary_files ->
  Forall (fun item : Z * string => convertible decode w item.2) (enumerate binary_files).
Proof.
  intros Hall. apply Forall_forall. intros [i f] (j & Hj)%elem_of_enumerate.
  destruct Hj as [-> Hj]. rewrite Forall_forall in Hall. apply Hall.
  by eapply list_elem_of_lookup_2.
Qed.

Lemma enumerate_snd {A} (l : list A) : (enumerate l).*2 = l.
Proof.
  unfold enumerate. rewrite fmap_imap.
  rewrite (imap_ext _ (const id)) by done.
  rewrite imap_const. apply list_fmap_id.
Qed.

Lemma convert_multiple_convertible first rest output_file out w :
  out = match output_file with
        | None => joinpath (path_parent first) "zdd_vectors.txt"
        | Some o => o
        end ->
  Forall (convertible decode w) (first :: rest) ->
  out ∉ first :: rest ->
  creatable w out ->
  exists w',
    convert_multiple_binary_files decode path_name path_parent joinpath
      (first :: rest) output_file w = (Py.Ok out, w')
    /\ files w'
       = <[out := unlines (blocks_of decode path_name w (enumerate (first :: rest)))]>
           (files w)
    /\ dirs w' = dirs w /\ stdout w' = stdout w
    /\ log w'
       = log w
         ++ [(INFO, "Converting " +:+ Py.str (len (first :: rest))
                    +:+ " binary ZDD files")]
         ++ loop_log decode path_name w (enumerate (first :: rest))
         ++ [(INFO, "Converted " +:+ Py.str (len (first :: rest)) +:+ " files to: "
                    +:+ out)].
Proof.
  intros -> Hall Hout [Hos Hdir].
  unfold convert_multiple_binary_files.
  erewrite bind_ok by reflexivity.
  erewrite bind_ok.
  2:{ unfold open_w. simpl. rewrite Hos, bool_decide_eq_false_2 by done.
      reflexivity. }
  match goal with
  | |- context [bind (for_each ?items _) _ ?wc] =>
      destruct (for_each_convertible
                  (match output_file with
                   | None => joinpath (path_parent first) "zdd_vectors.txt"
                   | Some o => o
                   end) items w wc "")
        as (w' & Hrun & Hf & Hd & Ho & Hs & Hl)
  end.
  { by apply convertible_enumerate. }
  { by rewrite enumerate_snd. }
  { reflexivity. }
  { reflexivity. }
  erewrite bind_ok by exact Hrun.
  erewrite bind_ok by reflexivity.
  eexists. split; [reflexivity|]. cbn [files dirs stdout log add_log].
  rewrite Hf, Hd, Hs, Hl, app_nil_str. cbn [log add_log set_files].
  by rewrite <- !app_assoc.
Qed.

End MultiFileFacts.






Section MultiFileClaims.
Variable decode : string -> Py.result ZDDStructure.
Variables path_name path_parent : string -> string.
Variable joinpath : string -> string -> string.



(** X1. When every listed file is either missing or a file that decodes, and
    the output is not one of the listed files, the multi-file conversion
    returns the output path, and the output file consists of one block per
    decoded file, in list order: four comment lines (position, file name,
    magic number, array count), the arrays one per line, three closing
    comment lines.  No other file is changed. *)
Theorem multi_file_blocks first rest output_file out w :
  out = match output_file with
        | None => joinpath (path_parent first) "zdd_vectors.txt"
        | Some o => o
        end ->
  Forall (convertible decode w) (first :: rest) ->
  out ∉ first :: rest ->
  creatable w out ->
  exists w',
    convert_multiple_binary_files decode path_name path_parent joinpath
      (first :: rest) output_file w = (Py.Ok out, w')
    /\ files w' !! out
       = Some (unlines (blocks_of decode path_name w (enumerate (first :: rest))))
    /\ (forall p, p <> out -> files w' !! p = files w !! p).
Proof.
  intros Hout Hall Hnin Hc.
  destruct (convert_multiple_convertible decode path_name path_parent joinpath
              first rest output_file out w Hout Hall Hnin Hc)
    as (w' & Hrun & Hf & _).
  exists w'. split; [done|]. rewrite Hf. split; [apply lookup_insert_eq|].
  intros p Hp. by rewrite lookup_insert_ne.
Qed.




End MultiFileClaims.

(** ** The text format against the words of the specification *)

Lemma uint_digits_spec d :
  Py.uint_digits d = DecimalString.NilEmpty.string_of_uint d.
Proof. induction d as [|d IH|d IH|d IH|d IH|d IH|d IH|d IH|d IH|d IH|d IH]; simpl; by rewrite ?IH. Qed.

Lemma str_decimal z : Py.str z = decimal z.
Proof.
  unfold Py.str, decimal. pose proof (to_int_nonnil z) as Hnil.
  destruct (Z.to_int z) as [d|d]; simpl; rewrite uint_digits_spec; by destruct d.
Qed.

Lemma join_comma_spec (array : list Z) :
  Py.join "," (Py.str <$> array) = spec_elements array.
Proof.
  induction array as [|v rest IH]; [done|].
  destruct rest as [|v' rest]; [apply str_decimal|].
  change (Py.str v +:+ "," +:+ Py.join "," (Py.str <$> v' :: rest)
          = decimal v +:+ "," +:+ spec_elements (v' :: rest)).
  by rewrite IH, str_decimal.
Qed.

Lemma array_text_spec (array : list Z) : array_text array = spec_array_line array.
Proof. unfold array_text, spec_array_line. by rewrite join_comma_spec. Qed.

Lemma array_texts_spec (arrays : list (list Z)) :
  array_text <$> arrays = spec_array_line <$> arrays.
Proof. apply list_fmap_ext. intros _ a _. apply array_text_spec. Qed.

(** ** The conversions and their command line *)

Section ConversionClaims.
Variable decode : string -> Py.result ZDDStructure.
Variables path_name with_suffix_txt path_parent : string -> string.
Variable joinpath : string -> string -> string.
Variable glob_zdd_bin : world -> string -> list string.
Variable convert_witness_export_directory : string -> St world string.
Variable Path : string -> string.

Lemma path_is_file_true w p bytes :
  files w !! p = Some bytes -> path_is_file p w = (Py.Ok true, w).
Proof.
  intros Hf. unfold path_is_file. rewrite bool_decide_eq_true_2; [done|].
  by exists bytes.
Qed.

Lemma path_is_file_false w p :
  files w !! p = None -> path_is_file p w = (Py.Ok false, w).
Proof.
  intros Hf. unfold path_is_file. rewrite bool_decide_eq_false_2; [done|].
  intros [x Hx]. congruence.
Qed.

Lemma path_is_dir_true w p : p ∈ dirs w -> path_is_dir p w = (Py.Ok true, w).
Proof. intros Hd. unfold path_is_dir. by rewrite bool_decide_eq_true_2. Qed.

Lemma output_path_chosen input output default_output :
  match output_path_of Path
          {| arg_input := input; arg_output := output; arg_job := false |} with
  | None => default_output
  | Some o => o
  end
  = chosen_output Path output default_output.
Proof.
  unfold output_path_of, chosen_output. cbn [arg_output].
  destruct output as [o|]; [|done]. by case_decide.
Qed.





(** X4. Given the path of a file that decodes, the command writes the text
    file (one line per array, in order), prints the pictograph of success
    with [Converted: ] and the output path, and ends with exit status 0.  The
    output path is the one given with [-o], unless that is empty or absent:
    then it is the input path with the suffix [.txt]. *)
Theorem main_converts_file input output w input_path bytes structure out :
  Path input = input_path ->
  files w !! input_path = Some bytes ->
  decode bytes = Py.Ok structure ->
  out = chosen_output Path output (with_suffix_txt input_path) ->
  creatable w out ->
  exists r w' text,
    main decode path_name with_suffix_txt path_parent joinpath glob_zdd_bin
         convert_witness_export_directory Path
         {| arg_input := input; arg_output := output; arg_job := false |} w
    = (r, w')
    /\ exit_status r = 0
    /\ stdout w' = stdout w ++ ["✅ Converted: " +:+ out]
    /\ files w' !! out = Some text
    /\ text_lines text = spec_array_line <$> arrays structure.
Proof.
  intros <- Hf Hdec Hout Hc. unfold main, try_except_Exception.
  cbn [arg_job arg_input].
  rewrite (bind_ok _ _ _ _ _ (path_is_file_true _ _ _ Hf)).
  unfold convert_zdd_binary_file.
  erewrite bind_ok.
  2:{ eapply convert_binary_to_text_ok; [exact Hf|exact Hdec| |exact Hc].
      by rewrite output_path_chosen. }
  eexists _, _, _. split; [reflexivity|]. split; [done|]. split; [done|].
  split; [simpl; apply lookup_insert_eq|].
  rewrite <- array_texts_spec. apply text_lines_arrays.
Qed.

(** X5. When the input file does not decode, the single-file conversion raises
    the decoder's exception before any file is written, and the command prints
    the pictograph of failure with [Error: ] and the exception's message and
    ends with exit status 1. *)
Theorem main_decode_error input output w input_path bytes e :
  Path input = input_path ->
  files w !! input_path = Some bytes ->
  decode bytes = Py.Raise e ->
  (forall code, e <> Py.SystemExit code) ->
  (forall output_file,
     exists w1,
       convert_binary_to_text decode path_name with_suffix_txt
         input_path output_file w
       = (Py.Raise e, w1) /\ files w1 = files w /\ dirs w1 = dirs w)
  /\ (exists r w',
        main decode path_name with_suffix_txt path_parent joinpath glob_zdd_bin
             convert_witness_export_directory Path
             {| arg_input := input; arg_output := output; arg_job := false |} w
        = (r, w')
        /\ exit_status r = 1
        /\ stdout w' = stdout w ++ ["❌ Error: " +:+ Py.exn_msg e]
        /\ files w' = files w /\ dirs w' = dirs w).
Proof.
  intros <- Hf Hdec Hexit.
  assert (forall output_file,
            convert_binary_to_text decode path_name with_suffix_txt
              (Path input) output_file w
            = (Py.Raise e,
               add_log INFO ("Converting " +:+ path_name (Path input)
                             +:+ " to text format") w))
    as Hrun.
  { intros output_file. unfold convert_binary_to_text.
    rewrite (bind_ok _ _ _ _ _ (path_exists_file _ _ _ Hf)). cbn [negb].
    erewrite bind_ok by reflexivity.
    erewrite bind_raise; [done|]. unfold parser_load. simpl. by rewrite Hf, Hdec. }
  split; [intros output_file; rewrite Hrun; by eexists|].
  unfold main, try_except_Exception. cbn [arg_job arg_input].
  rewrite (bind_ok _ _ _ _ _ (path_is_file_true _ _ _ Hf)).
  unfold convert_zdd_binary_file. erewrite bind_raise by apply Hrun.
  destruct e as [m|m|m|c]; [..|by destruct (Hexit c)];
    by eexists _, _.
Qed.

(** X6. Given a directory in which no [zdd*.bin] file is found, the directory
    conversion raises [FileNotFoundError] and changes nothing, and the command
    prints the pictograph of failure with [Error: No zdd*.bin files found in ]
    and the directory, and ends with exit status 1. *)
Theorem main_empty_directory input output w input_path :
  Path input = input_path ->
  input_path ∈ dirs w -> files w !! input_path = None ->
  glob_zdd_bin w input_path = [] ->
  (forall output_file,
     convert_zdd_binary_directory decode path_name path_parent joinpath
       glob_zdd_bin input_path output_file w
     = (Py.Raise (Py.FileNotFoundError
                    ("No zdd*.bin files found in " +:+ input_path)), w))
  /\ main decode path_name with_suffix_txt path_parent joinpath glob_zdd_bin
          convert_witness_export_directory Path
          {| arg_input := input; arg_output := output; arg_job := false |} w
     = (Py.Raise (Py.SystemExit 1),
        add_stdout ("❌ Error: " +:+ "No zdd*.bin files found in " +:+ input_path) w).
Proof.
  intros <- Hd Hf Hglob.
  assert (forall output_file,
            convert_zdd_binary_directory decode path_name path_parent joinpath
              glob_zdd_bin (Path input) output_file w
            = (Py.Raise (Py.FileNotFoundError
                           ("No zdd*.bin files found in " +:+ Path input)), w))
    as Hrun.
  { intros output_file. unfold convert_zdd_binary_directory. by rewrite Hglob. }
  split; [done|].
  unfold main, try_except_Exception. cbn [arg_job arg_input].
  rewrite (bind_ok _ _ _ _ _ (path_is_file_false _ _ Hf)).
  rewrite (bind_ok _ _ _ _ _ (path_is_dir_true _ _ Hd)).
  by erewrite bind_raise by apply Hrun.
Qed.


End ConversionClaims.

Ltac by_computation := vm_compute; reflexivity.
Ltac not_member := apply (bool_decide_eq_false_1 _); vm_compute; reflexivity.
Ltac is_member := apply (bool_decide_eq_true_1 _); vm_compute; reflexivity.

Lemma sample_convertible_1 : convertible Posix.decode Run.sample_world "d/zdd_1.bin".
Proof. right. exists Run.zdd_1. by_computation. Defined.

Lemma sample_convertible_9 : convertible Posix.decode Run.sample_world "d/zdd_9.bin".
Proof. left. split; [by_computation|not_member]. Defined.

Lemma sample_creatable : creatable Run.sample_world "out.txt".
Proof. split; [reflexivity|not_member]. Defined.

Lemma multi_file_blocks_witness :
  Forall (convertible Posix.decode Run.sample_world) ["d/zdd_1.bin"; "d/zdd_9.bin"]
  /\ ("out.txt" ∉ ["d/zdd_1.bin"; "d/zdd_9.bin"])
  /\ creatable Run.sample_world "out.txt"
  /\ exists w',
       Run.convert_multiple_binary_files ["d/zdd_1.bin"; "d/zdd_9.bin"]
         (Some "out.txt") Run.sample_world = (Py.Ok "out.txt", w')
       /\ files w' !! "out.txt"
          = Some (unlines (blocks_of Posix.decode Posix.name Run.sample_world
                             (enumerate ["d/zdd_1.bin"; "d/zdd_9.bin"])))
       /\ (forall p, p <> "out.txt" -> files w' !! p = files Run.sample_world !! p).
Proof.
  assert (Forall (convertible Posix.decode Run.sample_world)
                 ["d/zdd_1.bin"; "d/zdd_9.bin"]) as H1.
  { constructor; [apply sample_convertible_1|].
    constructor; [apply sample_convertible_9|constructor]. }
  assert ("out.txt" ∉ ["d/zdd_1.bin"; "d/zdd_9.bin"]) as H2 by not_member.
  split; [exact H1|]. split; [exact H2|]. split; [exact sample_creatable|].
  exact (multi_file_blocks Posix.decode Posix.name Posix.parent Posix.joinpath
           "d/zdd_1.bin" ["d/zdd_9.bin"] (Some "out.txt") "out.txt" Run.sample_world
           eq_refl H1 H2 sample_creatable).
Defined.






Example array_line_examples :
  spec_array_line [1; -1] = "[1,-1]" /\ spec_array_line [] = "[]"
  /\ spec_array_line [0; 10; -205] = "[0,10,-205]"
  /\ array_text [0; 10; -205] = "[0,10,-205]".
Proof. repeat split; by vm_compute. Qed.

Lemma main_converts_file_witness :
  Posix.Path "./d/zdd_1.bin" = "d/zdd_1.bin"
  /\ files Run.sample_world !! "d/zdd_1.bin" = Some Run.zdd_1_bytes
  /\ Posix.decode Run.zdd_1_bytes = Py.Ok Run.zdd_1
  /\ "d/zdd_1.txt"
     = chosen_output Posix.Path (Some "") (Posix.with_suffix_txt "d/zdd_1.bin")
  /\ creatable Run.sample_world "d/zdd_1.txt"
  /\ exists r w' text,
       Run.main {| arg_input := "./d/zdd_1.bin"; arg_output := Some "";
                   arg_job := false |} Run.sample_world = (r, w')
       /\ exit_status r = 0
       /\ stdout w' = stdout Run.sample_world ++ ["✅ Converted: " +:+ "d/zdd_1.txt"]
       /\ files w' !! "d/zdd_1.txt" = Some text
       /\ text_lines text = spec_array_line <$> arrays Run.zdd_1.
Proof.
  assert (Posix.Path "./d/zdd_1.bin" = "d/zdd_1.bin") as H0 by by_computation.
  assert (files Run.sample_world !! "d/zdd_1.bin" = Some Run.zdd_1_bytes) as H1
    by by_computation.
  assert (Posix.decode Run.zdd_1_bytes = Py.Ok Run.zdd_1) as H2 by by_computation.
  assert ("d/zdd_1.txt"
          = chosen_output Posix.Path (Some "") (Posix.with_suffix_txt "d/zdd_1.bin"))
    as H3 by by_computation.
  assert (creatable Run.sample_world "d/zdd_1.txt") as H4.
  { split; [reflexivity|not_member]. }
  split; [exact H0|]. split; [exact H1|]. split; [exact H2|].
  split; [exact H3|]. split; [exact H4|].
  exact (main_converts_file Posix.decode Posix.name Posix.with_suffix_txt
           Posix.parent Posix.joinpath Posix.glob_zdd_bin Posix.no_witness_export
           Posix.Path "./d/zdd_1.bin" (Some "") Run.sample_world "d/zdd_1.bin"
           Run.zdd_1_bytes Run.zdd_1 "d/zdd_1.txt" H0 H1 H2 H3 H4).
Defined.

Lemma main_decode_error_witness :
  Posix.Path "d/zdd_2.bin" = "d/zdd_2.bin"
  /\ files Run2.world !! "d/zdd_2.bin" = Some "xx"
  /\ Posix.decode "xx" = Py.Raise (Py.OtherError "decoding error")
  /\ (forall output_file,
        exists w1,
          Run.convert_binary_to_text "d/zdd_2.bin" output_file Run2.world
          = (Py.Raise (Py.OtherError "decoding error"), w1)
          /\ files w1 = files Run2.world /\ dirs w1 = dirs Run2.world)
  /\ (exists r w',
        Run.main {| arg_input := "d/zdd_2.bin"; arg_output := None;
                    arg_job := false |} Run2.world = (r, w')
        /\ exit_status r = 1
        /\ stdout w' = stdout Run2.world
                       ++ ["❌ Error: " +:+ Py.exn_msg (Py.OtherError "decoding error")]
        /\ files w' = files Run2.world /\ dirs w' = dirs Run2.world).
Proof.
  assert (Posix.Path "d/zdd_2.bin" = "d/zdd_2.bin") as H0 by by_computation.
  assert (files Run2.world !! "d/zdd_2.bin" = Some "xx") as H1 by by_computation.
  assert (Posix.decode "xx" = Py.Raise (Py.OtherError "decoding error")) as H2
    by by_computation.
  split; [exact H0|]. split; [exact H1|]. split; [exact H2|].
  exact (main_decode_error Posix.decode Posix.name Posix.with_suffix_txt
           Posix.parent Posix.joinpath Posix.glob_zdd_bin Posix.no_witness_export
           Posix.Path "d/zdd_2.bin" None Run2.world "d/zdd_2.bin" "xx"
           (Py.OtherError "decoding error")
           H0 H1 H2 (fun code H => eq_ind (Py.OtherError "decoding error")
                                     (fun e => match e with
                                               | Py.SystemExit _ => False
                                               | _ => True
                                               end) I _ H)).
Defined.

Lemma main_empty_directory_witness :
  Posix.Path "./" = "."
  /\ "." ∈ dirs Run.sample_world
  /\ files Run.sample_world !! "." = None
  /\ Posix.glob_zdd_bin Run.sample_world "." = []
  /\ (forall output_file,
        Run2.convert_zdd_binary_directory "." output_file Run.sample_world
        = (Py.Raise (Py.FileNotFoundError ("No zdd*.bin files found in " +:+ ".")),
           Run.sample_world))
  /\ Run.main {| arg_input := "./"; arg_output := None; arg_job := false |}
              Run.sample_world
     = (Py.Raise (Py.SystemExit 1),
        add_stdout ("❌ Error: " +:+ "No zdd*.bin files found in " +:+ ".")
                   Run.sample_world).
Proof.
  assert (Posix.Path "./" = ".") as H0 by by_computation.
  assert ("." ∈ dirs Run.sample_world) as H1 by is_member.
  assert (files Run.sample_world !! "." = None) as H2 by by_computation.
  assert (Posix.glob_zdd_bin Run.sample_world "." = []) as H3 by by_computation.
  split; [exact H0|]. split; [exact H1|]. split; [exact H2|]. split; [exact H3|].
  exact (main_empty_directory Posix.decode Posix.name Posix.with_suffix_txt
           Posix.parent Posix.joinpath Posix.glob_zdd_bin Posix.no_witness_export
           Posix.Path "./" None Run.sample_world "." H0 H1 H2 H3).
Defined.


(** ** The reports: columns and order *)

Lemma sorted_Permutation_eq (a b : list Z) : a ≡ₚ b -> Py.sorted a = Py.sorted b.
Proof.
  intros Hab. apply (Sorted_unique Z.le); try apply Sorted_merge_sort; try apply _.
  unfold Py.sorted. by rewrite !merge_sort_Permutation.
Qed.

Lemma array_text_inj (a b : list Z) : array_text a = array_text b -> a = b.
Proof.
  intros H. pose proof (parse_array_text a) as Ha.
  rewrite H, parse_array_text in Ha. by injection Ha.
Qed.

(** X8. Two arrays have the same sorted signature, and so fall under the same
    row of the pattern table, exactly when one is a rearrangement of the
    other. *)
Theorem sorted_signature_canonical (a b : list Z) :
  array_text (Py.sorted a) = array_text (Py.sorted b) <-> a ≡ₚ b.
Proof.
  split.
  - intros H%array_text_inj.
    by rewrite <- (sorted_Permutation a), H, sorted_Permutation.
  - intros H. by rewrite (sorted_Permutation_eq a b H).
Qed.

Lemma sum_Z_app (l1 l2 : list Z) : sum_Z (l1 ++ l2) = sum_Z l1 + sum_Z l2.
Proof.
  unfold sum_Z. induction l1 as [|x l1 IH]; simpl; [done|]. rewrite IH. lia.
Qed.

Lemma sum_lengths_summary_rows zdds k :
  sum_Z (int_at 4 <$> summary_rows_of zdds k) = Z.of_nat (elements_at zdds k).
Proof.
  unfold summary_rows_of, elements_at. destruct (PyDict.get zdds k) as [s|]; [|done].
  cbn [from_option]. rewrite <- sum_enumerate_lengths.
  induction (enumerate (arrays s)) as [|[i a] r IH]; [done|].
  rewrite !fmap_cons. cbn [sum_Z foldr sum_list_with snd].
  fold (sum_Z (int_at 4 <$> (summary_cells k s <$> r))). rewrite IH.
  unfold int_at, summary_cells, len. cbn. lia.
Qed.

(** X9. The two reports agree: the [array_length] column of the per-array
    report adds up to the number of data rows of the per-element report. *)
Theorem reports_agree_on_elements (zdds : list (Z * ZDDStructure)) :
  exists st element_rows array_rows,
    generate_complete_csv zdds = Some st
    /\ cs_rows st = complete_header :: element_rows
    /\ generate_array_summary_csv zdds = Some (summary_header :: array_rows)
    /\ sum_Z (int_at 4 <$> array_rows) = Z.of_nat (length element_rows).
Proof.
  eexists _, _, _. split; [apply generate_complete_csv_rows|].
  split; [reflexivity|]. split; [apply generate_array_summary_csv_rows|].
  rewrite (length_mjoin_rows _ _ _ (length_complete_rows_of zdds)).
  induction (Py.sorted (PyDict.keys zdds)) as [|k ks IH]; [done|].
  rewrite fmap_cons. change (mjoin (?x :: ?l)) with (x ++ mjoin l).
  rewrite fmap_app, sum_Z_app, IH, sum_lengths_summary_rows.
  cbn [sum_list_with]. lia.
Qed.

Lemma insert_by_frequency_filter {A B} (x : A * list B) l (n : nat) :
  filter (fun item : A * list B => length item.2 = n) (insert_by_frequency x l)
  = filter (fun item : A * list B => length item.2 = n) (x :: l).
Proof.
  induction l as [|y r IH]; [done|]. cbn [insert_by_frequency].
  destruct (length y.2 <=? length x.2)%nat eqn:Hle; [done|].
  apply Nat.leb_gt in Hle.
  rewrite (filter_cons _ y), IH, !(filter_cons _ x), (filter_cons _ y).
  repeat case_decide; try done; lia.
Qed.

Lemma sorted_by_frequency_filter {A B} (l : list (A * list B)) (n : nat) :
  filter (fun item : A * list B => length item.2 = n) (sorted_by_frequency l)
  = filter (fun item : A * list B => length item.2 = n) l.
Proof.
  induction l as [|x l IH]; [done|]. cbn [sorted_by_frequency foldr].
  fold (sorted_by_frequency l).
  by rewrite insert_by_frequency_filter, !(filter_cons _ x), IH.
Qed.

Lemma insert_by_frequency_sorted {A B} (x : A * list B) l :
  StronglySorted (fun a b : A * list B => (length b.2 <= length a.2)%nat) l ->
  StronglySorted (fun a b : A * list B => (length b.2 <= length a.2)%nat)
                 (insert_by_frequency x l).
Proof.
  induction 1 as [|y r Hr IH Hy]; cbn [insert_by_frequency].
  - repeat constructor.
  - destruct (length y.2 <=? length x.2)%nat eqn:Hle.
    + apply Nat.leb_le in Hle. constructor; [by constructor|].
      constructor; [done|]. eapply Forall_impl; [exact Hy|].
      intros z Hz. simpl in *. lia.
    + apply Nat.leb_gt in Hle. constructor; [done|].
      rewrite insert_by_frequency_Permutation. constructor; [lia|done].
Qed.

Lemma sorted_by_frequency_sorted {A B} (l : list (A * list B)) :
  StronglySorted (fun a b : A * list B => (length b.2 <= length a.2)%nat)
                 (sorted_by_frequency l).
Proof.
  induction l as [|x l IH]; [constructor|].
  cbn [sorted_by_frequency foldr]. by apply insert_by_frequency_sorted.
Qed.

Lemma filter_fmap_cells (P : list cell -> Prop) `{forall r, Decision (P r)}
    (items : list (list Z * list (Z * Z))) :
  filter P (pattern_cells <$> items)
  = pattern_cells <$> filter (fun item => P (pattern_cells item)) items.
Proof.
  induction items as [|x l IH]; [done|].
  rewrite fmap_cons, !filter_cons, IH. by case_decide.
Qed.

(** X10. The rows of the pattern table are in order of decreasing frequency,
    and patterns of equal frequency keep the order in which they were first
    met in the loaded structures. *)
Theorem pattern_rows_order (zdds : list (Z * ZDDStructure)) :
  exists data,
    generate_pattern_analysis_csv zdds = Some (pattern_header :: data)
    /\ StronglySorted (fun r1 r2 => frequency_of r2 <= frequency_of r1) data
    /\ forall n : nat,
         filter (fun r => frequency_of r = Z.of_nat n) data
         = pattern_cells
           <$> filter (fun item => length item.2 = n) (collect_patterns zdds).
Proof.
  eexists. split; [apply generate_pattern_analysis_csv_rows|]. split.
  - apply (StronglySorted_fmap _
             (fun a b : list Z * list (Z * Z) => (length b.2 <= length a.2)%nat));
      [|apply sorted_by_frequency_sorted].
    intros a b Hab. unfold frequency_of, pattern_cells, len. cbn. lia.
  - intros n. rewrite filter_fmap_cells, <- sorted_by_frequency_filter.
    f_equal. apply list_filter_iff. intros item.
    unfold frequency_of, pattern_cells, len. cbn. lia.
Qed.

(** ** The reports: what a row says about its array *)

Lemma fold_min_le (r : list Z) (x : Z) :
  fold_left Z.min r x <= x /\ Forall (fun y => fold_left Z.min r x <= y) r
  /\ fold_left Z.min r x ∈ x :: r.
Proof.
  revert x. induction r as [|y r IH]; intros x; simpl.
  - split; [lia|]. split; [constructor|]. apply elem_of_cons. by left.
  - destruct (IH (Z.min x y)) as (H1 & H2 & H3). split; [lia|]. split.
    + constructor; [lia|done].
    + apply elem_of_cons in H3 as [H3|H3].
      * rewrite H3. destruct (Z.min_spec x y) as [[_ ->]|[_ ->]].
        -- apply elem_of_cons. by left.
        -- apply elem_of_cons. right. apply elem_of_cons. by left.
      * apply elem_of_cons. right. apply elem_of_cons. by right.
Qed.

Lemma fold_max_ge (r : list Z) (x : Z) :
  x <= fold_left Z.max r x /\ Forall (fun y => y <= fold_left Z.max r x) r
  /\ fold_left Z.max r x ∈ x :: r.
Proof.
  revert x. induction r as [|y r IH]; intros x; simpl.
  - split; [lia|]. split; [constructor|]. apply elem_of_cons. by left.
  - destruct (IH (Z.max x y)) as (H1 & H2 & H3). split; [lia|]. split.
    + constructor; [lia|done].
    + apply elem_of_cons in H3 as [H3|H3].
      * rewrite H3. destruct (Z.max_spec x y) as [[_ ->]|[_ ->]].
        -- apply elem_of_cons. right. apply elem_of_cons. by left.
        -- apply elem_of_cons. by left.
      * apply elem_of_cons. right. apply elem_of_cons. by right.
Qed.

Lemma length_remove_dups_le (l : list Z) : (length (remove_dups l) <= length l)%nat.
Proof.
  induction l as [|x l IH]; simpl; [done|]. case_decide; simpl; lia.
Qed.

Lemma length_remove_dups_eq (l : list Z) :
  length (remove_dups l) = length l <-> NoDup l.
Proof.
  split.
  - induction l as [|x l IH]; simpl; [constructor|].
    pose proof (length_remove_dups_le l). case_decide; simpl; [lia|].
    intros [= Hlen]. constructor; auto.
  - induction 1 as [|x l Hx Hl IH]; simpl; [done|].
    case_decide; [done|]. simpl. by rewrite IH.
Qed.

Lemma count_distinct_remove_dups (l : list Z) :
  Py.count_distinct l = Z.of_nat (length (remove_dups l)).
Proof.
  unfold Py.count_distinct. f_equal.
  rewrite <- (size_list_to_set (C:=gset Z) (remove_dups l)) by apply NoDup_remove_dups.
  f_equal. apply set_eq. intros x.
  by rewrite !elem_of_list_to_set, elem_of_remove_dups.
Qed.

(** X11. In a row of the per-array report, [min_element] and [max_element] are
    elements of the array that bound all its elements (both 0 for the empty
    array), and [unique_elements] lies between 0 and [array_length], reaching
    it exactly when the array has no repeated element. *)
Theorem summary_row_columns zdd_id structure array_idx (array : list Z) :
  exists unique_elements min_element max_element,
    summary_row zdd_id structure array_idx array
    = Some [CInt zdd_id; CStr (thesis_number_of zdd_id);
            CInt (magic_number structure); CInt array_idx; CInt (len array);
            CStr (array_text array); CStr (array_text (Py.sorted array));
            CInt unique_elements; CInt min_element; CInt max_element]
    /\ 0 <= unique_elements <= len array
    /\ (unique_elements = len array <-> NoDup array)
    /\ (forall x, x ∈ array -> min_element <= x <= max_element)
    /\ (array <> [] -> min_element ∈ array /\ max_element ∈ array)
    /\ (array = [] -> min_element = 0 /\ max_element = 0).
Proof.
  eexists _, _, _. split; [apply summary_row_cells|]. cbn [fst snd].
  rewrite count_distinct_remove_dups. unfold len.
  pose proof (length_remove_dups_le array) as Hle.
  split; [lia|]. split.
  { rewrite <- length_remove_dups_eq. lia. }
  destruct array as [|x r]; [by split; [intros ? ?%elem_of_nil|]|].
  destruct (fold_min_le r x) as (Hm1 & Hm2 & Hm3).
  destruct (fold_max_ge r x) as (HM1 & HM2 & HM3).
  rewrite Forall_forall in Hm2, HM2. split; [|done].
  intros y [->|Hy]%elem_of_cons; [lia|].
  specialize (Hm2 y Hy). specialize (HM2 y Hy). lia.
Qed.

Lemma StronglySorted_le_lt (l : list Z) :
  StronglySorted Z.le l -> NoDup l -> StronglySorted Z.lt l.
Proof.
  induction 1 as [|x l Hl IH Hx]; [constructor|].
  intros [Hnin Hnd]%NoDup_cons. constructor; [auto|].
  rewrite Forall_forall in Hx |- *. intros y Hy.
  specialize (Hx y Hy). assert (x <> y) by (by intros ->). lia.
Qed.

Lemma min_of_sorted (l : list Z) x r :
  StronglySorted Z.le (x :: r) -> Py.min (x :: r) = Some x.
Proof.
  intros [_ Hx]%StronglySorted_inv. simpl. f_equal.
  destruct (fold_min_le r x) as (H1 & _ & [?|Hin]%elem_of_cons); [done|].
  rewrite Forall_forall in Hx. specialize (Hx _ Hin). lia.
Qed.

(** X12. In a row of the pattern table, [zdd_occurrences] lists the ids of the
    structures in which the pattern occurs, each once and in increasing order,
    and [first_seen_zdd] is the smallest of them. *)
Theorem pattern_row_columns (pattern : list Z) (occurrences : list (Z * Z)) :
  occurrences <> [] ->
  exists ids first_seen,
    pattern_row (pattern, occurrences)
    = Some [CStr (array_text pattern); CInt (len occurrences);
            CStr (Py.join "," (Py.str <$> ids)); CInt first_seen;
            CInt (len pattern); CInt (Py.count_distinct pattern)]
    /\ StronglySorted Z.lt ids
    /\ (forall z, z ∈ ids <-> z ∈ occurrences.*1)
    /\ first_seen ∈ occurrences.*1
    /\ (forall z, z ∈ occurrences.*1 -> first_seen <= z).
Proof.
  intros Hne.
  set (ids := Py.sorted (elements (list_to_set occurrences.*1 : gset Z))).
  assert (forall z, z ∈ ids <-> z ∈ occurrences.*1) as Hids.
  { intros z. unfold ids. by rewrite sorted_elem_of, elem_of_elements,
      elem_of_list_to_set. }
  assert (StronglySorted Z.le ids) as Hle
    by (apply StronglySorted_merge_sort; apply _).
  assert (StronglySorted Z.lt ids) as Hlt.
  { apply StronglySorted_le_lt; [done|]. unfold ids.
    rewrite sorted_Permutation. apply NoDup_elements. }
  destruct ids as [|x r] eqn:Heq.
  { by destruct (unique_zdds_nonempty occurrences Hne). }
  exists (x :: r), x. split.
  { rewrite pattern_row_cells by done. unfold pattern_cells. cbn [fst snd].
    fold ids. rewrite Heq, (min_of_sorted (x :: r) x r Hle). done. }
  split; [done|]. split; [done|]. split.
  { apply Hids. apply elem_of_cons. by left. }
  intros z [->|Hz]%Hids%elem_of_cons; [lia|].
  apply StronglySorted_inv in Hle as [_ Hx]. rewrite Forall_forall in Hx.
  by apply Hx.
Qed.

Lemma pattern_row_columns_witness :
  [(1, 0); (3, 2); (1, 4)] <> []
  /\ exists ids first_seen,
       pattern_row ([2; 7], [(1, 0); (3, 2); (1, 4)])
       = Some [CStr (array_text [2; 7]); CInt (len [(1, 0); (3, 2); (1, 4)]);
               CStr (Py.join "," (Py.str <$> ids)); CInt first_seen;
               CInt (len [2; 7]); CInt (Py.count_distinct [2; 7])]
       /\ StronglySorted Z.lt ids
       /\ (forall z, z ∈ ids <-> z ∈ [(1, 0); (3, 2); (1, 4)].*1)
       /\ first_seen ∈ [(1, 0); (3, 2); (1, 4)].*1
       /\ (forall z, z ∈ [(1, 0); (3, 2); (1, 4)].*1 -> first_seen <= z).
Proof.
  assert ([(1, 0); (3, 2); (1, 4)] <> @nil (Z * Z)) as H by discriminate.
  split; [exact H|]. exact (pattern_row_columns [2; 7] _ H).
Defined.

Lemma complete_rows_present zdds zdd_id structure i a j v :
  PyDict.get zdds zdd_id = Some structure ->
  arrays structure !! i = Some a -> a !! j = Some v ->
  complete_row zdd_id structure (Z.of_nat i) a (Z.of_nat j, v)
  ∈ mjoin (complete_rows_of zdds <$> Py.sorted (PyDict.keys zdds)).
Proof.
  intros Hget Hi Hj. apply list_elem_of_join.
  exists (complete_rows_of zdds zdd_id). split.
  - unfold complete_rows_of. rewrite Hget. apply list_elem_of_join.
    exists (complete_rows_of_array zdd_id structure (Z.of_nat i, a)). split.
    + unfold complete_rows_of_array. cbn [fst snd]. apply list_elem_of_fmap.
      exists (Z.of_nat j, v). split; [done|]. by apply enumerate_lookup.
    + apply list_elem_of_fmap. exists (Z.of_nat i, a). split; [done|].
      by apply enumerate_lookup.
  - apply list_elem_of_fmap. exists zdd_id. split; [done|].
    apply sorted_elem_of. by eapply dict_get_Some_key.
Qed.

(** X13. The data rows of the per-element report are exactly the rows of the
    elements of the loaded arrays: a row names a structure, the position of one
    of its arrays and the position of one of that array's elements, its
    [element_value] is that element, and its [array_elements] column parses
    back to the whole array; every element of every array has its row. *)
Theorem complete_rows_exact (zdds : list (Z * ZDDStructure)) :
  exists st data,
    generate_complete_csv zdds = Some st
    /\ cs_rows st = complete_header :: data
    /\ forall row,
         row ∈ data
         <-> exists zdd_id structure i a j v,
               PyDict.get zdds zdd_id = Some structure
               /\ arrays structure !! i = Some a
               /\ a !! j = Some v
               /\ parse_assignment (array_text a) = Some a
               /\ row = [CInt zdd_id; CStr (thesis_number_of zdd_id);
                         CInt (magic_number structure); CInt (Z.of_nat i);
                         CInt (len a); CStr (array_text a);
                         CStr (array_text (Py.sorted a));
                         CInt (Z.of_nat j); CInt v].
Proof.
  eexists _, _. split; [apply generate_complete_csv_rows|].
  split; [reflexivity|]. intros row. split.
  - intros (k & s & i & a & [jz v] & Hk & Hi & He & ->)%complete_rows_origin.
    apply elem_of_enumerate in He as (j & -> & Hj).
    exists k, s, i, a, j, v. split; [done|]. split; [done|]. split; [done|].
    split; [apply parse_array_text|done].
  - intros (k & s & i & a & j & v & Hk & Hi & Hj & _ & ->).
    exact (complete_rows_present zdds k s i a j v Hk Hi Hj).
Qed.

Lemma enumerate_from_sorted {A} (l : list A) (n : nat) :
  StronglySorted (fun a b : Z * A => a.1 < b.1)
                 (imap (fun i x => (Z.of_nat (n + i), x)) l)
  /\ Forall (fun a : Z * A => Z.of_nat n <= a.1)
            (imap (fun i x => (Z.of_nat (n + i), x)) l).
Proof.
  revert n. induction l as [|x l IH]; intros n; [by split; constructor|].
  rewrite imap_cons.
  rewrite (imap_ext _ (fun i x => (Z.of_nat (S n + i), x)))
    by (intros i y _; simpl; f_equal; lia).
  destruct (IH (S n)) as [Hs Hb]. split.
  - constructor; [done|]. eapply Forall_impl; [exact Hb|].
    intros a Ha. simpl in *. lia.
  - constructor; [simpl; lia|]. eapply Forall_impl; [exact Hb|].
    intros a Ha. simpl in *. lia.
Qed.

Lemma enumerate_sorted {A} (l : list A) :
  StronglySorted (fun a b : Z * A => a.1 < b.1) (enumerate l).
Proof. apply (enumerate_from_sorted l 0). Qed.

Lemma summary_rows_of_keys zdds k :
  (fun r => (int_at 0 r, int_at 3 r)) <$> summary_rows_of zdds k
  = match PyDict.get zdds k with
    | Some s => (fun a : Z * list Z => (k, a.1)) <$> enumerate (arrays s)
    | None => []
    end.
Proof.
  unfold summary_rows_of. destruct (PyDict.get zdds k) as [s|]; [|done].
  rewrite <- list_fmap_compose. by apply list_fmap_ext.
Qed.

Lemma summary_keys_sorted zdds (ks : list Z) :
  StronglySorted Z.lt ks ->
  StronglySorted pair_lt
    ((fun r => (int_at 0 r, int_at 3 r)) <$> mjoin (summary_rows_of zdds <$> ks))
  /\ Forall (fun p : Z * Z => p.1 ∈ ks)
            ((fun r => (int_at 0 r, int_at 3 r)) <$> mjoin (summary_rows_of zdds <$> ks)).
Proof.
  induction 1 as [|k ks Hks IH Hk]; [by split; constructor|].
  destruct IH as [IHs IHf].
  rewrite fmap_cons. change (mjoin (?x :: ?l)) with (x ++ mjoin l).
  rewrite fmap_app, summary_rows_of_keys.
  assert (Forall (fun p : Z * Z => p.1 = k)
            match PyDict.get zdds k with
            | Some s => (fun a : Z * list Z => (k, a.1)) <$> enumerate (arrays s)
            | None => []
            end) as Hblock.
  { destruct (PyDict.get zdds k); [|constructor].
    apply Forall_fmap, Forall_forall. by intros a _. }
  split.
  - apply StronglySorted_app. split; [|split; [|done]].
    + intros p q Hp Hq. left.
      rewrite Forall_forall in Hblock. rewrite Forall_forall in IHf.
      rewrite Forall_forall in Hk.
      rewrite (Hblock p Hp). by apply Hk, IHf.
    + destruct (PyDict.get zdds k) as [s|]; [|constructor].
      eapply StronglySorted_fmap; [|apply enumerate_sorted].
      intros a b Hab. right. by split.
  - apply Forall_app. split.
    + eapply Forall_impl; [exact Hblock|]. intros p ->. apply elem_of_cons. by left.
    + eapply Forall_impl; [exact IHf|]. intros p Hp. apply elem_of_cons. by right.
Qed.

(** X14. The data rows of the per-array report are in strictly increasing
    order of [(zdd_id, array_index)]: structures by increasing id, the arrays
    of a structure in their own order, and no pair occurs twice. *)
Theorem summary_rows_order (loads : list (Z * ZDDStructure)) :
  exists data,
    generate_array_summary_csv (PyDict.of_assignments loads)
    = Some (summary_header :: data)
    /\ StronglySorted pair_lt ((fun r => (int_at 0 r, int_at 3 r)) <$> data).
Proof.
  eexists. split; [apply generate_array_summary_csv_rows|].
  apply summary_keys_sorted, StronglySorted_le_lt.
  - apply StronglySorted_merge_sort; apply _.
  - rewrite sorted_Permutation. apply dict_of_assignments_NoDup.
Qed.

(** ** Parsing with blanks, and clauses *)

Lemma lstrip_by_blank p l t :
  all_chars p l = true -> Py.lstrip_by p (l +:+ t) = Py.lstrip_by p t.
Proof.
  induction l as [|c r IH]; [done|]. intros H. simpl in H.
  apply andb_true_iff in H as [Hc Hr]. rewrite app_cons_str. simpl.
  rewrite Hc. auto.
Qed.

Lemma rstrip_by_all p r : all_chars p r = true -> Py.rstrip_by p r = "".
Proof.
  induction r as [|c r IH]; [done|]. simpl.
  intros [Hc Hr]%andb_true_iff. by rewrite (IH Hr), Hc.
Qed.

Lemma rstrip_by_blank p s r :
  all_chars (fun c => negb (p c)) s = true -> all_chars p r = true ->
  Py.rstrip_by p (s +:+ r) = s.
Proof.
  intros Hs Hr. induction s as [|c s IH].
  - rewrite app_nil_str. by apply rstrip_by_all.
  - simpl in Hs. apply andb_true_iff in Hs as [Hc Hs].
    rewrite app_cons_str. simpl. rewrite (IH Hs).
    apply negb_true_iff in Hc as ->. by destruct s.
Qed.

Lemma lstrip_by_first p c s :
  p c = false -> Py.lstrip_by p (String c s) = String c s.
Proof. intros H. simpl. by rewrite H. Qed.

Lemma strip_padded item :
  is_blank item.1.1 -> is_blank item.2 -> Py.strip (padded item) = Py.str item.1.2.
Proof.
  intros Hl Hr. unfold Py.strip, Py.strip_by, padded.
  assert (all_chars (fun c => negb (Py.is_whitespace c)) (Py.str item.1.2) = true)
    as Hs.
  { eapply all_chars_mono; [|apply str_chars].
    intros c Hc. by rewrite (is_int_char_not_space c Hc). }
  rewrite lstrip_by_blank by done.
  pose proof (str_nonempty item.1.2) as Hne.
  destruct (Py.str item.1.2) as [|c s]; [done|].
  assert (Py.is_whitespace c = false) as Hws.
  { simpl in Hs. apply andb_true_iff in Hs as [Hc _]. by apply negb_true_iff. }
  rewrite app_cons_str, lstrip_by_first by done.
  rewrite <- app_cons_str. by apply rstrip_by_blank.
Qed.

Lemma is_padded_char_not_bracket c :
  is_padded_char c = true -> negb (Py.mem_char c "[]") = true.
Proof. destruct c as [[] [] [] [] [] [] [] []]; done. Qed.

Lemma is_whitespace_not_comma c :
  Py.is_whitespace c = true -> negb (Ascii.eqb c ",") = true.
Proof. destruct c as [[] [] [] [] [] [] [] []]; done. Qed.

Lemma padded_chars (q : ascii -> bool) item :
  (forall c, is_int_char c = true -> q c = true) ->
  (forall c, Py.is_whitespace c = true -> q c = true) ->
  is_blank item.1.1 -> is_blank item.2 -> all_chars q (padded item) = true.
Proof.
  intros Hint Hws Hl Hr. unfold padded. rewrite !all_chars_app.
  rewrite (all_chars_mono _ q _ Hws Hl), (all_chars_mono _ q _ Hws Hr).
  by rewrite (all_chars_mono _ q _ Hint (str_chars _)).
Qed.

Lemma padded_nonempty item : padded item <> "".
Proof.
  unfold padded. pose proof (str_nonempty item.1.2) as Hne.
  destruct item.1.1 as [|c l]; [|by rewrite app_cons_str].
  rewrite app_nil_str. destruct (Py.str item.1.2); [done|].
  by rewrite app_cons_str.
Qed.

(** X15. [parse_assignment] accepts blanks around the elements: for a
    non-empty list of integers, each written in decimal between two strings of
    whitespace, separated by commas and enclosed in brackets, it returns the
    integers.  (So it reads [[1, 2, 3]] as well as [[1,2,3]].) *)
Theorem parse_assignment_padded (items : list (string * Z * string)) :
  items <> [] ->
  Forall (fun item => is_blank item.1.1 /\ is_blank item.2) items ->
  parse_assignment ("[" +:+ Py.join "," (padded <$> items) +:+ "]")
  = Some ((fun item => item.1.2) <$> items).
Proof.
  intros Hne Hall. unfold parse_assignment, Py.strip_chars.
  change ("[" +:+ Py.join "," (padded <$> items) +:+ "]")
    with (String "[" (Py.join "," (padded <$> items) +:+ String "]" "")).
  rewrite strip_by_enclosed; [|done|done|].
  2:{ apply all_chars_join; [done|]. apply Forall_fmap.
      eapply Forall_impl; [exact Hall|]. intros item [Hl Hr]. simpl.
      apply padded_chars; try done.
      - intros c Hc. apply is_padded_char_not_bracket.
        unfold is_padded_char, is_list_char. by rewrite Hc.
      - intros c Hc. apply is_padded_char_not_bracket.
        unfold is_padded_char. rewrite Hc. apply orb_true_r. }
  destruct items as [|item items]; [done|].
  rewrite fmap_cons, decide_False by apply join_nonempty, padded_nonempty.
  rewrite <- fmap_cons, split_join.
  - apply mapM_Some. apply Forall2_fmap, Forall_Forall2_diag.
    eapply Forall_impl; [exact Hall|]. intros it [Hl Hr]. simpl.
    by rewrite strip_padded, int_str.
  - by rewrite fmap_cons.
  - apply Forall_fmap. eapply Forall_impl; [exact Hall|].
    intros it [Hl Hr]. simpl. apply padded_chars; try done.
    + apply is_int_char_not_comma.
    + apply is_whitespace_not_comma.
Qed.

Lemma parse_assignment_padded_witness :
  [("", 1, ""); (" ", 2, ""); (" ", -3, " ")] <> []
  /\ Forall (fun item : string * Z * string => is_blank item.1.1 /\ is_blank item.2)
            [("", 1, ""); (" ", 2, ""); (" ", -3, " ")]
  /\ parse_assignment
       ("[" +:+ Py.join "," (padded <$> [("", 1, ""); (" ", 2, ""); (" ", -3, " ")])
        +:+ "]")
     = Some ((fun item : string * Z * string => item.1.2)
             <$> [("", 1, ""); (" ", 2, ""); (" ", -3, " ")]).
Proof.
  assert ([("", 1, ""); (" ", 2, ""); (" ", -3, " ")]
          <> @nil (string * Z * string)) as H1 by discriminate.
  assert (Forall (fun item : string * Z * string =>
                    is_blank item.1.1 /\ is_blank item.2)
                 [("", 1, ""); (" ", 2, ""); (" ", -3, " ")]) as H2.
  { constructor; [by split|]. constructor; [by split|].
    constructor; [by split|constructor]. }
  split; [exact H1|]. split; [exact H2|].
  exact (parse_assignment_padded _ H1 H2).
Defined.

(** An empty list written with a blank between the brackets is not accepted. *)
Example parse_assignment_blank_brackets : parse_assignment "[ ]" = None.
Proof. reflexivity. Qed.

Lemma clause_parts_fold (assignment vars acc : list Z) (parts : list string) :
  fold_left (fun clause_parts var =>
               if bool_decide (var ∈ assignment)
               then clause_parts ++ [Py.str var +:+ "=T"]
               else clause_parts ++ [Py.str var +:+ "=F"]) vars parts
  = parts ++ (literal assignment <$> vars).
Proof.
  revert parts. induction vars as [|v vars IH]; intros parts.
  - by rewrite app_nil_r.
  - cbn [fold_left]. rewrite IH, fmap_cons. unfold literal at 2.
    destruct (bool_decide (v ∈ assignment)); by rewrite <- app_assoc.
Qed.

Lemma assignment_to_clause_eq assignment all_variables :
  assignment_to_clause assignment all_variables
  = "(" +:+ Py.join " ∧ " (literal assignment <$> Py.sorted all_variables) +:+ ")".
Proof. unfold assignment_to_clause. by rewrite clause_parts_fold. Qed.

Lemma length_app_str (s t : string) :
  String.length (s +:+ t) = (String.length s + String.length t)%nat.
Proof.
  induction s as [|c s IH]; [done|]. rewrite app_cons_str. simpl. by rewrite IH.
Qed.

Lemma app_inv_tail_str (s t u : string) : s +:+ u = t +:+ u -> s = t.
Proof.
  revert t. induction s as [|c s IH]; intros t H.
  - destruct t as [|d t]; [done|]. exfalso.
    rewrite app_nil_str, app_cons_str in H.
    assert (String.length u = String.length (String d (t +:+ u))) as Hlen
      by (by rewrite <- H).
    simpl in Hlen. rewrite length_app_str in Hlen. lia.
  - destruct t as [|d t].
    + exfalso. rewrite app_nil_str, app_cons_str in H.
      assert (String.length (String c (s +:+ u)) = String.length u) as Hlen
        by (by rewrite H).
      simpl in Hlen. rewrite length_app_str in Hlen. lia.
    + rewrite !app_cons_str in H. injection H as -> H. f_equal. by apply IH.
Qed.

(** Two strings without space that are followed by a space. *)
Lemma first_space_inj (p q x y : string) :
  no_space p -> no_space q ->
  p +:+ String " " x = q +:+ String " " y -> p = q /\ x = y.
Proof.
  unfold no_space. revert q. induction p as [|c p IH]; intros q Hp Hq H.
  - destruct q as [|d q]; [by injection H|].
    rewrite app_nil_str, app_cons_str in H. injection H as <- _.
    by simpl in Hq.
  - destruct q as [|d q].
    + rewrite app_nil_str, app_cons_str in H. injection H as -> _. by simpl in Hp.
    + rewrite !app_cons_str in H. injection H as -> H. simpl in Hp, Hq.
      apply andb_true_iff in Hp as [_ Hp]. apply andb_true_iff in Hq as [_ Hq].
      destruct (IH q Hp Hq H) as [-> ->]. done.
Qed.

Lemma no_space_app_space (p q x : string) :
  no_space p -> p <> q +:+ String " " x.
Proof.
  unfold no_space. intros Hp ->. rewrite all_chars_app in Hp.
  apply andb_true_iff in Hp as [_ Hp]. by simpl in Hp.
Qed.

Lemma join_and_cons p p' ps :
  Py.join " ∧ " (p :: p' :: ps)
  = p +:+ String " " ("∧ " +:+ Py.join " ∧ " (p' :: ps)).
Proof. reflexivity. Qed.

(** Joining with [ ∧ ] loses nothing when the parts are non-empty and have no
    space. *)
Lemma join_and_inj (ps qs : list string) :
  Forall (fun p => no_space p /\ p <> "") ps ->
  Forall (fun p => no_space p /\ p <> "") qs ->
  Py.join " ∧ " ps = Py.join " ∧ " qs -> ps = qs.
Proof.
  intros Hps. revert qs. induction Hps as [|p ps [Hp Hpne] Hps IH]; intros qs Hqs H.
  - destruct Hqs as [|q qs [_ Hq] _]; [done|].
    by destruct (join_nonempty " ∧ " q qs Hq).
  - destruct Hqs as [|q qs [Hq Hqne] Hqs].
    { by destruct (join_nonempty " ∧ " p ps Hpne). }
    destruct ps as [|p' ps], qs as [|q' qs].
    + simpl in H. by subst.
    + rewrite join_and_cons in H. change (Py.join " ∧ " [p]) with p in H.
      by destruct (no_space_app_space _ _ _ Hp H).
    + rewrite join_and_cons in H. change (Py.join " ∧ " [q]) with q in H.
      symmetry in H. by destruct (no_space_app_space _ _ _ Hq H).
    + rewrite !join_and_cons in H.
      destruct (first_space_inj _ _ _ _ Hp Hq H) as [-> H'].
      f_equal. apply IH; [done|]. by apply (inj (String.app "∧ ")) in H'.
Qed.

Lemma literal_chars assignment var :
  all_chars is_literal_char (literal assignment var) = true.
Proof.
  unfold literal. assert (all_chars is_literal_char (Py.str var) = true) as H.
  { eapply all_chars_mono; [|apply str_chars].
    intros c Hc. unfold is_literal_char. by rewrite Hc. }
  destruct (bool_decide _); by rewrite all_chars_app, H.
Qed.

Lemma is_literal_char_not_space c :
  is_literal_char c = true -> negb (Ascii.eqb c " ") = true.
Proof. destruct c as [[] [] [] [] [] [] [] []]; done. Qed.

Lemma literal_no_space assignment var :
  no_space (literal assignment var) /\ literal assignment var <> "".
Proof.
  split.
  - eapply all_chars_mono; [|apply literal_chars]. apply is_literal_char_not_space.
  - unfold literal. pose proof (str_nonempty var) as Hne.
    destruct (bool_decide _), (Py.str var); try done; by rewrite app_cons_str.
Qed.

Lemma str_inj (x y : Z) : Py.str x = Py.str y -> x = y.
Proof.
  intros H. pose proof (int_str x) as Hx. rewrite H, int_str in Hx.
  by injection Hx.
Qed.

Lemma literal_eq_iff a1 a2 var :
  literal a1 var = literal a2 var <-> (var ∈ a1 <-> var ∈ a2).
Proof.
  unfold literal.
  destruct (bool_decide (var ∈ a1)) eqn:H1, (bool_decide (var ∈ a2)) eqn:H2;
    try apply bool_decide_eq_true in H1; try apply bool_decide_eq_true in H2;
    try apply bool_decide_eq_false in H1; try apply bool_decide_eq_false in H2.
  - done.
  - split; [|tauto]. intros H%(inj (String.app (Py.str var))). done.
  - split; [|tauto]. intros H%(inj (String.app (Py.str var))). done.
  - split; [done|tauto].
Qed.

(** X16. The full clause of an assignment over given variables says exactly
    which of the variables are in the assignment: two assignments get the same
    clause if and only if they contain the same variables among
    [all_variables]. *)
Theorem assignment_to_clause_membership (a1 a2 all_variables : list Z) :
  assignment_to_clause a1 all_variables = assignment_to_clause a2 all_variables
  <-> forall var, var ∈ all_variables -> (var ∈ a1 <-> var ∈ a2).
Proof.
  rewrite !assignment_to_clause_eq. split.
  - intros H var Hvar.
    change ("(" +:+ ?x) with (String "(" x) in H. injection H as H.
    apply app_inv_tail_str, join_and_inj in H.
    2,3: apply Forall_fmap, Forall_forall; intros v _; apply literal_no_space.
    apply literal_eq_iff.
    apply sorted_elem_of in Hvar.
    induction (Py.sorted all_variables) as [|v vs IH]; [by apply elem_of_nil in Hvar|].
    rewrite !fmap_cons in H. injection H as Hv Hvs.
    apply elem_of_cons in Hvar as [->|Hvar]; auto.
  - intros H. do 3 f_equal. apply list_fmap_ext. intros i v Hv.
    apply literal_eq_iff, H, sorted_elem_of. by eapply list_elem_of_lookup_2.
Qed.

Lemma join_snoc sep (ps : list string) (x : string) :
  ps <> [] -> Py.join sep (ps ++ [x]) = Py.join sep ps +:+ sep +:+ x.
Proof.
  induction ps as [|p ps IH]; [done|]. intros _.
  destruct ps as [|p' ps]; [done|].
  change (Py.join sep ((p :: p' :: ps) ++ [x]))
    with (p +:+ sep +:+ Py.join sep ((p' :: ps) ++ [x])).
  rewrite IH by done.
  change (Py.join sep (p :: p' :: ps)) with (p +:+ sep +:+ Py.join sep (p' :: ps)).
  by rewrite !app_assoc_str.
Qed.

Lemma sorted_nil_inv_neg (l : list Z) :
  l <> [] -> exists v vs, Py.sorted l = v :: vs.
Proof.
  intros Hne. destruct (Py.sorted l) as [|v vs] eqn:H; [|eauto].
  by apply sorted_nil_inv in H.
Qed.

Lemma positive_clause_eq (assignment : list Z) :
  assignment <> [] ->
  assignment_to_positive_clause assignment
  = String "(" (Py.join " ∧ " (((fun var => Py.str var +:+ "=T")
                                 <$> Py.sorted assignment) ++ ["others=F)"])).
Proof.
  intros Hne. unfold assignment_to_positive_clause. rewrite decide_False by done.
  rewrite join_snoc; [done|].
  intros H%fmap_nil_inv%sorted_nil_inv. done.
Qed.

Lemma positive_literal_no_space (var : Z) :
  no_space (Py.str var +:+ "=T") /\ Py.str var +:+ "=T" <> "".
Proof.
  pose proof (literal_no_space [var] var) as H. unfold literal in H.
  rewrite bool_decide_eq_true_2 in H; [done|]. apply elem_of_cons. by left.
Qed.

Lemma positive_parts_no_space (l : list Z) :
  Forall (fun p => no_space p /\ p <> "")
         (((fun var => Py.str var +:+ "=T") <$> l) ++ ["others=F)"]).
Proof.
  apply Forall_app. split.
  - apply Forall_fmap, Forall_forall. intros v _. apply positive_literal_no_space.
  - by repeat constructor.
Qed.

(** X17. The readable clause identifies an assignment up to the order of its
    elements: two assignments get the same clause if and only if one is a
    rearrangement of the other. *)
Theorem positive_clause_order (a b : list Z) :
  assignment_to_positive_clause a = assignment_to_positive_clause b <-> a ≡ₚ b.
Proof.
  split.
  - destruct (decide (a = [])) as [->|Ha], (decide (b = [])) as [->|Hb]; [done|..].
    + rewrite (positive_clause_eq b Hb). intros H. exfalso.
      change (assignment_to_positive_clause []) with (String "(" "all_variables=F)") in H.
      injection H as H.
      apply sorted_nil_inv_neg in Hb as (v & vs & Hvs). rewrite Hvs in H.
      destruct vs as [|v' vs]; cbn [fmap list_fmap app] in H;
        rewrite join_and_cons in H;
        by destruct (no_space_app_space "all_variables=F)" _ _ eq_refl H).
    + rewrite (positive_clause_eq a Ha). intros H. exfalso.
      change (assignment_to_positive_clause []) with (String "(" "all_variables=F)") in H.
      injection H as H. symmetry in H.
      apply sorted_nil_inv_neg in Ha as (v & vs & Hvs). rewrite Hvs in H.
      destruct vs as [|v' vs]; cbn [fmap list_fmap app] in H;
        rewrite join_and_cons in H;
        by destruct (no_space_app_space "all_variables=F)" _ _ eq_refl H).
    + rewrite (positive_clause_eq a Ha), (positive_clause_eq b Hb).
      intros H. injection H as H.
      apply join_and_inj in H; [|apply positive_parts_no_space..].
      apply app_inv_tail in H.
      assert (Py.sorted a = Py.sorted b) as Hs.
      { revert H. generalize (Py.sorted a) (Py.sorted b).
        induction l as [|x l IH]; intros [|y l'] H; try done.
        rewrite !fmap_cons in H. injection H as Hxy Hl.
        apply app_inv_tail_str, str_inj in Hxy as ->. f_equal. by apply IH. }
      by rewrite <- (sorted_Permutation a), Hs, sorted_Permutation.
  - intros Hab. unfold assignment_to_positive_clause.
    rewrite (sorted_Permutation_eq a b Hab).
    destruct (decide (a = [])) as [->|Ha], (decide (b = [])) as [->|Hb]; try done.
    + by apply Permutation_nil_l in Hab.
    + by apply Permutation_nil_r in Hab.
Qed.

(** ** The batch index on disk and in memory *)

Lemma find_batch_mark_completed batches batch_num evaluator_name number :
  find_batch (mark_completed batches batch_num evaluator_name) number
  = if decide (number = batch_num)
    then set_completed evaluator_name <$> find_batch batches number
    else find_batch batches number.
Proof.
  induction batches as [|b rest IH]; simpl; [by case_decide|].
  destruct (decide (batch_number b = batch_num)) as [Hb|Hb]; simpl.
  - destruct (decide (number = batch_num)) as [->|Hn].
    + by rewrite !decide_True.
    + rewrite !decide_False by congruence. done.
  - destruct (decide (batch_number b = number)) as [Hbn|Hbn]; [|exact IH].
    rewrite decide_False by congruence. done.
Qed.

Lemma next_pending_number batches evaluator_name n :
  next_pending batches evaluator_name = Some (Some n) ->
  n ∈ batch_number <$> batches.
Proof.
  induction batches as [|b rest IH]; simpl; [done|].
  destruct (status b !! evaluator_name) as [st|]; simpl; [|done].
  case_decide.
  - intros [= <-]. apply elem_of_cons. by left.
  - intros H'. apply elem_of_cons. right. by apply IH.
Qed.

Lemma next_pending_mark_completed batches evaluator_name n :
  NoDup (batch_number <$> batches) ->
  next_pending batches evaluator_name = Some (Some n) ->
  next_pending (mark_completed batches n evaluator_name) evaluator_name
  <> Some (Some n)
  /\ (length (filter (pending_for evaluator_name)
                     (mark_completed batches n evaluator_name)) + 1)%nat
     = length (filter (pending_for evaluator_name) batches).
Proof.
  induction batches as [|b rest IH]; simpl; [done|].
  intros [Hb Hrest]%NoDup_cons.
  destruct (status b !! evaluator_name) as [st|] eqn:Hst; simpl; [|done].
  destruct (decide (st = "pending")) as [->|Hp].
  - intros [= <-]. rewrite decide_True by done. simpl.
    rewrite lookup_insert_eq. simpl.
    split.
    + intros Hn%next_pending_number. done.
    + rewrite filter_cons_False, filter_cons_True; [simpl; lia|done|].
      unfold pending_for. simpl. by rewrite lookup_insert_eq.
  - intros Hn. pose proof (next_pending_number _ _ _ Hn) as Hin.
    rewrite decide_False by (intros <-; done). simpl.
    rewrite Hst. simpl. rewrite decide_False by done.
    destruct (IH Hrest Hn) as [IH1 IH2]. split; [done|].
    rewrite !filter_cons_False; [done|..]; unfold pending_for; rewrite Hst; congruence.
Qed.

Section BatchManagerRuns.
Context {batch_document : Type}.
Variable batch_number_of : batch_document -> Z.
Variable dumps_batch : batch_document -> string.
Variable dumps_index : batch_index -> string.
Variable loads_index : string -> Py.result batch_index.
Variable joinpath : string -> string -> string.

Lemma save_batch_ok batch_data evaluator_name self w output_file self' w' :
  save_batch batch_number_of dumps_batch dumps_index joinpath
             batch_data evaluator_name (self, w)
  = (Py.Ok output_file, (self', w')) ->
  let evaluator_dir := joinpath (eval_dir self) evaluator_name in
  output_file
  = joinpath evaluator_dir
             ("batch_" +:+ Py.str (batch_number_of batch_data) +:+ ".json")
  /\ self' = set_index (index_completed (batch_number_of batch_data) evaluator_name)
                       self
  /\ files w' = <[index_file self := dumps_index (index self')]>
                  (<[output_file := dumps_batch batch_data]> (files w))
  /\ dirs w' = {[evaluator_dir]} ∪ dirs w
  /\ os_error w' = os_error w
  /\ log w' = log w
  /\ index_file self ∉ dirs w'.
Proof.
  unfold save_batch, save_index, bind, get_self, lift_world, update_index,
    mkdir_exist_ok, open_w, f_write, print, ret.
  cbn [fst snd].
  repeat (case_match; simplify_eq/=); intros; simplify_eq/=.
  all: rewrite ?lookup_insert_eq; cbn [default].
  all: repeat match goal with
         | H : bool_decide _ = false |- _ => apply (bool_decide_eq_false_1 _) in H
         | H : bool_decide _ = true |- _ => apply (bool_decide_eq_true_1 _) in H
         end.
  all: repeat split; try done.
  all: try (change (id "" +:+ ?s) with s; by rewrite !insert_insert_eq).
  all: apply leibniz_equiv; intros x; rewrite elem_of_union, elem_of_singleton.
  all: split; [by right|by intros [->|?]].
Qed.

(** X18. When [save_batch] returns, its value is the path of the batch file
    in the evaluator's directory, which now exists; the index file holds the
    dump of the index that the manager now has, the batch file holds the dump
    of the saved document, and no other file is changed. *)
Theorem save_batch_persists batch_data evaluator_name self w output_file self' w' :
  save_batch batch_number_of dumps_batch dumps_index joinpath
             batch_data evaluator_name (self, w)
  = (Py.Ok output_file, (self', w')) ->
  output_file
  = joinpath (joinpath (eval_dir self) evaluator_name)
             ("batch_" +:+ Py.str (batch_number_of batch_data) +:+ ".json")
  /\ joinpath (eval_dir self) evaluator_name ∈ dirs w'
  /\ files w' !! index_file self = Some (dumps_index (index self'))
  /\ (output_file <> index_file self ->
      files w' !! output_file = Some (dumps_batch batch_data))
  /\ (forall p, p <> output_file -> p <> index_file self ->
                files w' !! p = files w !! p)
  /\ (forall d, d ∈ dirs w -> d ∈ dirs w').
Proof.
  intros Hrun.
  destruct (save_batch_ok _ _ _ _ _ _ _ Hrun)
    as (Hout & _ & Hfiles & Hdirs & _ & _ & _).
  split; [exact Hout|]. rewrite Hfiles, Hdirs.
  split; [apply elem_of_union; left; by apply elem_of_singleton|].
  split; [apply lookup_insert_eq|].
  split.
  { intros Hne. rewrite lookup_insert_ne by done. apply lookup_insert_eq. }
  split.
  { intros p Hp1 Hp2. by rewrite !lookup_insert_ne. }
  intros d Hd. apply elem_of_union. by right.
Qed.

(** X19. The saved index is the one a new manager starts from: when
    [save_batch] returns for a manager with the attributes that [__init__]
    sets, and the dump of its index reads back as that index, then
    [BatchEvaluationManager()] yields a manager equal to the one that saved. *)
Theorem saved_index_reloads batch_data evaluator_name self w output_file self' w' :
  save_batch batch_number_of dumps_batch dumps_index joinpath
             batch_data evaluator_name (self, w)
  = (Py.Ok output_file, (self', w')) ->
  eval_dir self = "evaluations" ->
  index_file self = joinpath "evaluations" "batch_index.json" ->
  loads_index (dumps_index (index self')) = Py.Ok (index self') ->
  BatchEvaluationManager loads_index joinpath w' = (Py.Ok self', w').
Proof.
  intros Hrun Hdir Hfile Hload.
  destruct (save_batch_ok _ _ _ _ _ _ _ Hrun)
    as (_ & Hself & Hfiles & _ & _ & _ & Hnot).
  unfold BatchEvaluationManager, bind, read_text, lift_result, ret.
  rewrite <- Hfile. rewrite bool_decide_eq_false_2 by done.
  rewrite Hfiles, lookup_insert_eq, Hload.
  do 2 f_equal. rewrite Hself. unfold set_index. by rewrite Hdir.
Qed.

(** X20. After [save_batch] has returned, [get_batch_info] gives for the saved
    batch number the entry it gave before with the evaluator's status set to
    ['completed'], and for every other number the entry it gave before. *)
Theorem saved_batch_info batch_data evaluator_name self w output_file self' w' :
  save_batch batch_number_of dumps_batch dumps_index joinpath
             batch_data evaluator_name (self, w)
  = (Py.Ok output_file, (self', w')) ->
  forall number,
    get_batch_info self' number
    = if decide (number = batch_number_of batch_data)
      then set_completed evaluator_name <$> get_batch_info self number
      else get_batch_info self number.
Proof.
  intros Hrun number.
  destruct (save_batch_ok _ _ _ _ _ _ _ Hrun) as (_ & -> & _).
  unfold get_batch_info. cbn [set_index index index_completed batches].
  apply find_batch_mark_completed.
Qed.

(** X21. In an index whose batch numbers are pairwise distinct, saving the
    batch that [get_next_batch] names for an evaluator makes progress: the
    number of entries pending for the evaluator goes down by one, and
    [get_next_batch] no longer names that batch. *)
Theorem next_batch_progress batch_data evaluator_name self w output_file self' w' :
  NoDup (batch_number <$> batches (index self)) ->
  get_next_batch self evaluator_name = Some (Some (batch_number_of batch_data)) ->
  save_batch batch_number_of dumps_batch dumps_index joinpath
             batch_data evaluator_name (self, w)
  = (Py.Ok output_file, (self', w')) ->
  get_next_batch self' evaluator_name <> Some (Some (batch_number_of batch_data))
  /\ (length (filter (pending_for evaluator_name) (batches (index self'))) + 1)%nat
     = length (filter (pending_for evaluator_name) (batches (index self))).
Proof.
  intros Hnd Hnext Hrun.
  destruct (save_batch_ok _ _ _ _ _ _ _ Hrun) as (_ & -> & _).
  unfold get_next_batch. cbn [set_index index index_completed batches].
  by apply next_pending_mark_completed.
Qed.

End BatchManagerRuns.

Lemma sample_saved :
  SampleEval.save_batch 2 "evaluator_1" (SampleEval.self, SampleEval.world0)
  = (Py.Ok "evaluations/evaluator_1/batch_2.json",
     (SampleIndex.saved.2.1, SampleIndex.saved.2.2)).
Proof. vm_compute. reflexivity. Defined.

Lemma sample_saved_first :
  SampleEval.save_batch 1 "evaluator_1" (SampleEval.self, SampleEval.world0)
  = (Py.Ok "evaluations/evaluator_1/batch_1.json",
     (SampleIndex.saved_first.2.1, SampleIndex.saved_first.2.2)).
Proof. vm_compute. reflexivity. Defined.

Lemma save_batch_persists_witness :
  "evaluations/evaluator_1" ∈ dirs SampleIndex.saved.2.2
  /\ files SampleIndex.saved.2.2 !! "evaluations/batch_index.json" = Some "{}"
  /\ files SampleIndex.saved.2.2 !! "evaluations/evaluator_1/batch_2.json"
     = Some "{}".
Proof.
  destruct (save_batch_persists (fun n : Z => n) (fun _ : Z => "{}") (fun _ => "{}")
              Posix.joinpath 2 "evaluator_1" SampleEval.self SampleEval.world0
              _ _ _ sample_saved) as (_ & Hd & Hi & Hb & _).
  split; [exact Hd|]. split; [exact Hi|]. apply Hb. discriminate.
Defined.

Lemma saved_index_reloads_witness :
  BatchEvaluationManager SampleIndex.loads_index Posix.joinpath
                         SampleIndex.saved.2.2
  = (Py.Ok SampleIndex.saved.2.1, SampleIndex.saved.2.2).
Proof.
  apply (saved_index_reloads (fun n : Z => n) (fun _ : Z => "{}") (fun _ => "{}")
           SampleIndex.loads_index Posix.joinpath 2 "evaluator_1"
           SampleEval.self SampleEval.world0 _ _ _ sample_saved);
    vm_compute; reflexivity.
Defined.

Lemma saved_batch_info_witness :
  get_batch_info SampleIndex.saved.2.1 2
  = set_completed "evaluator_1" <$> get_batch_info SampleEval.self 2
  /\ get_batch_info SampleIndex.saved.2.1 1 = get_batch_info SampleEval.self 1.
Proof.
  pose proof (saved_batch_info (fun n : Z => n) (fun _ : Z => "{}") (fun _ => "{}")
                Posix.joinpath 2 "evaluator_1" SampleEval.self SampleEval.world0
                _ _ _ sample_saved) as H.
  split; [exact (H 2)|exact (H 1)].
Defined.

Lemma next_batch_progress_witness :
  get_next_batch SampleEval.self "evaluator_1" = Some (Some 1)
  /\ get_next_batch SampleIndex.saved_first.2.1 "evaluator_1" <> Some (Some 1)
  /\ (length (filter (pending_for "evaluator_1")
                     (batches (index SampleIndex.saved_first.2.1))) + 1)%nat
     = length (filter (pending_for "evaluator_1")
                      (batches (index SampleEval.self))).
Proof.
  assert (get_next_batch SampleEval.self "evaluator_1" = Some (Some 1)) as H1
    by (vm_compute; reflexivity).
  assert (NoDup (batch_number <$> batches (index SampleEval.self))) as Hnd.
  { apply (bool_decide_eq_true_1 _). vm_compute. reflexivity. }
  split; [exact H1|].
  exact (next_batch_progress (fun n : Z => n) (fun _ : Z => "{}") (fun _ => "{}")
           Posix.joinpath 1 "evaluator_1" SampleEval.self SampleEval.world0
           _ _ _ Hnd H1 sample_saved_first).
Defined.


(** ** Disagreements between the evaluators *)

Lemma zip_fmap_diag {A B C} (f : A -> B) (g : A -> C) (l : list A) :
  zip (f <$> l) (g <$> l) = (fun x => (f x, g x)) <$> l.
Proof. induction l as [|x l IH]; [done|]. rewrite !fmap_cons. simpl. by rewrite IH. Qed.

Lemma filter_differ_nil {A} `{EqDecision A} (l1 l2 : list A) :
  length l1 = length l2 ->
  filter (fun p : A * A => p.1 <> p.2) (zip l1 l2) = [] <-> l1 = l2.
Proof.
  revert l2. induction l1 as [|x l1 IH]; intros [|y l2] Hlen; try done.
  simpl in Hlen. injection Hlen as Hlen. cbn [zip zip_with].
  rewrite filter_cons. cbn [fst snd]. case_decide as Hxy.
  - split; [done|]. by intros [= ? ?].
  - subst y. rewrite (IH l2 Hlen). split; [by intros ->|].
    by intros [= ->].
Qed.

Section DisagreementFacts.
Context {kappa : Type}.
Variable cohen_kappa_score : list string -> list string -> kappa.
Variable first_100 : string -> string.
Variables eval1 eval2 : gmap string clause_evaluation.

Let both_rated (c : string) : Prop :=
  rated (rating_in eval1 c) && rated (rating_in eval2 c).

Let differs (c : string) : Prop := rating_in eval1 c <> rating_in eval2 c.

Let disagreement_on (c : string) : disagreement :=
  {| d_clause_id := c;
     d_thesis_id := from_option thesis_id 0 (eval1 !! c);
     d_thesis_title := from_option thesis_title "" (eval1 !! c);
     evaluator_1 := rating_in eval1 c;
     evaluator_2 := rating_in eval2 c;
     justification_1 := first_100 (from_option justification "" (eval1 !! c)) +:+ "...";
     justification_2 := first_100 (from_option justification "" (eval2 !! c)) +:+ "..." |}.

Let common : list string := Py.sorted_str (elements (dom eval1 ∩ dom eval2)).

Lemma disagreement_fold ks acc :
  Forall (fun c => is_Some (eval1 !! c) /\ is_Some (eval2 !! c)) ks ->
  fold_left (disagreement_step first_100 eval1 eval2) ks (Some acc)
  = Some (acc ++ (disagreement_on
                    <$> filter (fun c => differs c /\ both_rated c) ks)).
Proof.
  intros Hks. revert acc.
  induction Hks as [|c ks [[e1 H1] [e2 H2]] Hks IH]; intros acc.
  - cbn. by rewrite app_nil_r.
  - cbn [fold_left]. unfold disagreement_step at 2. cbn [mbind option_bind].
    rewrite H1. cbn [mbind option_bind]. rewrite H2. cbn [mbind option_bind].
    assert (rating_in eval1 c = rating e1) as Hr1
      by (unfold rating_in; by rewrite H1).
    assert (rating_in eval2 c = rating e2) as Hr2
      by (unfold rating_in; by rewrite H2).
    destruct (decide (differs c /\ both_rated c)) as [[Hd Hb]|Hno].
    + rewrite filter_cons_True by done.
      unfold both_rated, differs in Hb, Hd. rewrite Hr1, Hr2 in Hb, Hd.
      apply Is_true_true in Hb. rewrite Hb, bool_decide_eq_true_2 by done.
      cbn [andb]. rewrite IH, fmap_cons, <- app_assoc. do 3 f_equal.
      unfold disagreement_on. rewrite H1, H2, Hr1, Hr2. done.
    + rewrite filter_cons_False by done. rewrite <- IH.
      destruct (rated (rating e1) && rated (rating e2)
                && bool_decide (rating e1 <> rating e2)) eqn:Hc; [|done].
      exfalso. apply Hno. apply andb_true_iff in Hc as [Hb Hd].
      apply bool_decide_eq_true_1 in Hd. unfold differs, both_rated.
      rewrite Hr1, Hr2. split; [done|]. by apply Is_true_true.
Qed.

Lemma analyze_disagreements_eq :
  analyze_disagreements first_100 eval1 eval2
  = Some (disagreement_on <$> filter differs (filter both_rated common)).
Proof.
  unfold analyze_disagreements. fold common.
  rewrite disagreement_fold by apply common_clauses_present.
  by rewrite list_filter_filter.
Qed.

Lemma compute_cohens_kappa_eq :
  exists k,
    compute_cohens_kappa cohen_kappa_score eval1 eval2
    = Some (k, rating_in eval1 <$> filter both_rated common,
            rating_in eval2 <$> filter both_rated common).
Proof.
  unfold compute_cohens_kappa. case_decide as Hempty.
  - exists None. unfold common. by rewrite Hempty, elements_empty.
  - fold common. unfold common at 1.
    rewrite kappa_fold by apply common_clauses_present.
    cbn [mbind option_bind fst snd app]. fold common. fold both_rated.
    destruct (filter both_rated common) as [|c r].
    + exists None. by rewrite decide_True.
    + eexists. by rewrite decide_False.
Qed.

Lemma disagreement_ids (l : list string) :
  d_clause_id <$> (disagreement_on <$> l) = l.
Proof. rewrite <- list_fmap_compose. by rewrite <- (list_fmap_id l) at 2. Qed.

(** X22. [analyze_disagreements] returns for every pair of evaluations: no
    lookup fails.  Its entries are the clauses that both evaluators rated,
    and rated differently, each once and in increasing order of clause id;
    an entry shows the two ratings and the two shortened justifications, and
    takes the thesis id and title from the first evaluator's entry. *)
Theorem disagreements_listed :
  exists ds,
    analyze_disagreements first_100 eval1 eval2 = Some ds
    /\ StronglySorted String.le (d_clause_id <$> ds)
    /\ NoDup (d_clause_id <$> ds)
    /\ (forall c, c ∈ d_clause_id <$> ds <-> rated_differently eval1 eval2 c)
    /\ Forall (fun d =>
                 exists e1 e2,
                   eval1 !! d_clause_id d = Some e1
                   /\ eval2 !! d_clause_id d = Some e2
                   /\ d = {| d_clause_id := d_clause_id d;
                             d_thesis_id := thesis_id e1;
                             d_thesis_title := thesis_title e1;
                             evaluator_1 := rating e1;
                             evaluator_2 := rating e2;
                             justification_1 :=
                               first_100 (justification e1) +:+ "...";
                             justification_2 :=
                               first_100 (justification e2) +:+ "..." |}) ds.
Proof.
  eexists. split; [apply analyze_disagreements_eq|].
  rewrite disagreement_ids.
  split.
  { apply StronglySorted_filter, StronglySorted_filter, StronglySorted_merge_sort;
      apply _. }
  split.
  { apply NoDup_filter, NoDup_filter. unfold common, Py.sorted_str.
    rewrite merge_sort_Permutation. apply NoDup_elements. }
  split.
  { intros c. rewrite list_elem_of_filter.
    pose proof (elem_of_rated_ids eval1 eval2 c) as Hc.
    change (c ∈ filter both_rated common <-> commonly_rated eval1 eval2 c) in Hc.
    unfold rated_differently, differs. tauto. }
  apply Forall_fmap, Forall_forall. intros c Hc.
  apply list_elem_of_filter in Hc as [_ Hc].
  apply list_elem_of_filter in Hc as [_ Hc].
  pose proof common_clauses_present eval1 eval2 as Hp.
  rewrite Forall_forall in Hp. destruct (Hp c Hc) as [[e1 H1] [e2 H2]].
  exists e1, e2. cbn [d_clause_id disagreement_on]. split; [done|]. split; [done|].
  unfold disagreement_on, rating_in. by rewrite H1, H2.
Qed.

(** X23. The disagreements are the unequal pairs among the ratings that
    [compute_cohens_kappa] compares: the pairs of ratings of the entries of
    [analyze_disagreements] are, in order, the pairs at the positions where
    the two rating lists of [compute_cohens_kappa] differ; so there are no
    more disagreements than compared ratings, and none exactly when the two
    lists are equal. *)
Theorem disagreements_among_kappa_ratings :
  exists ds k ratings1 ratings2,
    analyze_disagreements first_100 eval1 eval2 = Some ds
    /\ compute_cohens_kappa cohen_kappa_score eval1 eval2
       = Some (k, ratings1, ratings2)
    /\ (fun d => (evaluator_1 d, evaluator_2 d)) <$> ds
       = filter (fun p => p.1 <> p.2) (zip ratings1 ratings2)
    /\ (length ds <= length ratings1)%nat
    /\ (ds = [] <-> ratings1 = ratings2).
Proof.
  destruct compute_cohens_kappa_eq as [k Hk].
  eexists _, k, _, _. split; [apply analyze_disagreements_eq|].
  split; [exact Hk|].
  assert ((fun d => (evaluator_1 d, evaluator_2 d))
            <$> (disagreement_on <$> filter differs (filter both_rated common))
          = filter (fun p => p.1 <> p.2)
                   (zip (rating_in eval1 <$> filter both_rated common)
                        (rating_in eval2 <$> filter both_rated common))) as Hpairs.
  { rewrite zip_fmap_diag, <- list_fmap_compose.
    generalize (filter both_rated common). intros l.
    induction l as [|c l IH]; [done|].
    rewrite fmap_cons, !filter_cons. cbn [fst snd]. unfold differs at 1.
    case_decide; [|done]. rewrite fmap_cons. by rewrite IH. }
  split; [exact Hpairs|]. split.
  { rewrite !length_fmap. apply length_filter. }
  rewrite <- filter_differ_nil by by rewrite !length_fmap.
  rewrite <- Hpairs. split; [by intros ->|].
  intros H. by apply fmap_nil_inv in H.
Qed.

End DisagreementFacts.

(** ** Model quality *)

Lemma length_filter_eq {A} (P : A -> Prop) `{forall x, Decision (P x)} (l : list A) :
  length (filter P l) = length l <-> Forall P l.
Proof.
  induction l as [|x l IH]; [by split|].
  rewrite filter_cons. case_decide as Hx.
  - simpl. rewrite Forall_cons. split.
    + intros [= Hl]. split; [done|]. by apply IH.
    + intros [_ Hl]. f_equal. by apply IH.
  - pose proof (length_filter P l). simpl. split; [lia|].
    by intros [? _]%Forall_cons.
Qed.

Lemma counter_labels (ratings : list string) :
  counter_get ratings "accept" + counter_get ratings "revise"
  + counter_get ratings "reject"
  = len (filter (fun r => r ∈ ["accept"; "revise"; "reject"]) ratings).
Proof.
  unfold counter_get, len. induction ratings as [|r l IH]; [done|].
  rewrite !filter_cons.
  destruct (decide (r = "accept")) as [->|Ha].
  { rewrite decide_False, decide_False, decide_True by (done || set_solver).
    simpl length. lia. }
  destruct (decide (r = "revise")) as [->|Hv].
  { rewrite decide_False, decide_True by (done || set_solver).
    simpl length. lia. }
  destruct (decide (r = "reject")) as [->|Hj].
  { rewrite decide_True by set_solver. simpl length. lia. }
  rewrite decide_False; [exact IH|].
  rewrite !elem_of_cons, elem_of_nil. tauto.
Qed.

Lemma counter_get_nonneg ratings key : 0 <= counter_get ratings key.
Proof. unfold counter_get, len. lia. Qed.

Lemma elem_of_ratings (evaluations : gmap string clause_evaluation) r :
  r ∈ rating <$> (map_to_list evaluations).*2
  <-> exists c e, evaluations !! c = Some e /\ r = rating e.
Proof.
  rewrite list_elem_of_fmap. split.
  - intros (e & -> & He). apply list_elem_of_fmap in He as ([c e'] & -> & He).
    apply elem_of_map_to_list in He. by exists c, e'.
  - intros (c & e & He & ->). exists e. split; [done|].
    apply list_elem_of_fmap. exists (c, e). split; [done|].
    by apply elem_of_map_to_list.
Qed.

Lemma length_rated_ratings (l : list (string * clause_evaluation)) :
  length (filter (fun r => rated r = true) (rating <$> l.*2))
  = length (filter (fun ce : string * clause_evaluation => rating ce.2 <> "") l).
Proof.
  induction l as [|[c e] l IH]; [done|].
  rewrite !fmap_cons, !filter_cons. cbn [fst snd]. unfold rated at 1.
  destruct (decide (rating e <> "")) as [Hne|Hne].
  - rewrite decide_True by by apply bool_decide_eq_true_2. simpl. by rewrite IH.
  - rewrite decide_False; [exact IH|]. unfold rated. by rewrite bool_decide_eq_true.
Qed.

Section QualityFacts.
Context {float : Type}.
Variable truediv : Z -> Z -> float.
Variable times : float -> Z -> float.

(** X24. [compute_model_quality] returns the empty dictionary exactly when no
    entry has a rating.  Otherwise [total_clauses] is the number of rated
    entries; the three counts are not negative and add up to at most
    [total_clauses], and to [total_clauses] exactly when every rating is one
    of ['accept'], ['revise'] and ['reject']; the error rate is computed from
    the sum of the revise and reject counts. *)
Theorem quality_counts (evaluations : gmap string clause_evaluation) :
  (compute_model_quality truediv times evaluations = None
   <-> forall c e, evaluations !! c = Some e -> rating e = "")
  /\ match compute_model_quality truediv times evaluations with
     | None => True
     | Some q =>
         0 < total_clauses q <= Z.of_nat (size evaluations)
         /\ total_clauses q
            = len (filter (fun ce : string * clause_evaluation => rating ce.2 <> "")
                          (map_to_list evaluations))
         /\ 0 <= accept_count q /\ 0 <= revise_count q /\ 0 <= reject_count q
         /\ accept_count q + revise_count q + reject_count q <= total_clauses q
         /\ (accept_count q + revise_count q + reject_count q = total_clauses q
             <-> forall c e, evaluations !! c = Some e ->
                             rating e ∈ [""; "accept"; "revise"; "reject"])
         /\ error_rate q
            = times (truediv (revise_count q + reject_count q) (total_clauses q)) 100
     end.
Proof.
  unfold compute_model_quality.
  set (vals := rating <$> (map_to_list evaluations).*2).
  set (ratings := filter (fun r => rated r = true) vals).
  assert (forall r, r ∈ ratings
                    <-> r <> "" /\ exists c e, evaluations !! c = Some e /\ r = rating e)
    as Hin.
  { intros r. unfold ratings. rewrite list_elem_of_filter. unfold vals.
    rewrite elem_of_ratings. unfold rated. by rewrite bool_decide_eq_true. }
  assert (ratings = [] <-> forall c e, evaluations !! c = Some e -> rating e = "")
    as Hnil.
  { split.
    - intros Hr c e He. destruct (decide (rating e = "")) as [|Hne]; [done|].
      assert (rating e ∈ ratings) as Hre by (apply Hin; eauto).
      rewrite Hr in Hre. by apply elem_of_nil in Hre.
    - intros Hall. destruct ratings as [|r l] eqn:Hr; [done|]. exfalso.
      assert (r ∈ r :: l) as Hrin by (apply elem_of_cons; by left).
      apply Hin in Hrin as (Hne & c & e & He & ->). by apply Hne, (Hall c e). }
  assert (len ratings = 0 <-> ratings = []) as Hlen.
  { unfold len. destruct ratings; simpl; [done|]. split; [lia|done]. }
  split.
  { case_decide as Ht; [|split; [done|]].
    - split; [intros _|done]. by apply Hnil, Hlen.
    - intros Hall. exfalso. by apply Ht, Hlen, Hnil. }
  case_decide as Ht; [done|]. cbn [total_clauses accept_count revise_count
                                   reject_count error_rate].
  split.
  { split; [unfold len in *; lia|]. unfold len. apply inj_le.
    unfold ratings. etransitivity; [apply length_filter|].
    unfold vals. by rewrite !length_fmap, length_map_to_list. }
  split.
  { unfold len. f_equal. apply length_rated_ratings. }
  do 3 (split; [apply counter_get_nonneg|]).
  rewrite counter_labels. split; [unfold len; apply inj_le, length_filter|].
  split; [|done]. unfold len. rewrite Nat2Z.inj_iff, length_filter_eq.
  rewrite Forall_forall. split.
  - intros Hall c e He. destruct (decide (rating e = "")) as [->|Hne].
    + apply elem_of_cons. by left.
    + apply elem_of_cons. right. apply Hall, Hin. eauto.
  - intros Hall r (Hne & c & e & He & ->)%Hin.
    specialize (Hall c e He). apply elem_of_cons in Hall as [?|?]; done.
Qed.

End QualityFacts.

(** ** Loading the batch evaluations *)

Lemma store_items_lookup (items : list (thesis_evaluation * clause))
    (evaluations : gmap string clause_evaluation) c :
  fold_left (fun ev item => store_clause item.1 ev item.2) items evaluations !! c
  = match last (filter (fun item => clause_id item.2 = c) items) with
    | Some item => Some (entry_of item)
    | None => evaluations !! c
    end.
Proof.
  induction items as [|x items IH] using rev_ind; [done|].
  rewrite fold_left_app, filter_app. cbn [fold_left]. unfold store_clause at 1.
  rewrite filter_cons, filter_nil.
  destruct (decide (clause_id x.2 = c)) as [Hx|Hx].
  - rewrite last_snoc, Hx. apply lookup_insert_eq.
  - rewrite app_nil_r, lookup_insert_ne by done. exact IH.
Qed.

Lemma store_theses_items (data : list thesis_evaluation) evaluations :
  fold_left store_thesis data evaluations
  = fold_left (fun ev item => store_clause item.1 ev item.2)
              (clauses_of [data]) evaluations.
Proof.
  unfold clauses_of. change (mjoin [data]) with (data ++ []).
  rewrite app_nil_r. revert evaluations.
  induction data as [|thesis data IH]; intros evaluations; [done|].
  rewrite fmap_cons. change (mjoin (?x :: ?l)) with (x ++ mjoin l).
  rewrite fold_left_app. cbn [fold_left]. rewrite IH. f_equal.
  unfold store_thesis. generalize (clauses thesis). intros cs. revert evaluations.
  induction cs as [|cl cs IHc]; intros evaluations; [done|].
  rewrite fmap_cons. cbn [fold_left fst snd]. apply IHc.
Qed.

Lemma clauses_of_cons data documents :
  clauses_of (data :: documents) = clauses_of [data] ++ clauses_of documents.
Proof.
  unfold clauses_of. change (mjoin [data]) with (data ++ []).
  change (mjoin (data :: documents)) with (data ++ mjoin documents).
  by rewrite app_nil_r, fmap_app, join_app.
Qed.

Section LoadEvaluationsFacts.
Variable glob_batch_json : world -> string -> list string.
Variable loads_batch : string -> Py.result (list thesis_evaluation).

Lemma load_batch_files_ok w batch_files documents evaluations :
  holds_documents loads_batch w batch_files documents ->
  load_batch_files loads_batch batch_files evaluations w
  = (Py.Ok (fold_left (fun ev item => store_clause item.1 ev item.2)
                      (clauses_of documents) evaluations), w).
Proof.
  intros Hdocs. revert evaluations.
  induction Hdocs as [|batch_file data batch_files documents
                        (Hdir & content & Hfile & Hload) _ IH];
    intros evaluations; [done|].
  cbn [load_batch_files]. unfold bind at 1. unfold bind at 1.
  unfold read_text, lift_result. rewrite bool_decide_eq_false_2 by done.
  rewrite Hfile, Hload, IH, clauses_of_cons, fold_left_app.
  by rewrite store_theses_items.
Qed.

(** X25. When the batch files of the directory can be read, the evaluations
    that [load_batch_evaluations] returns hold one entry per clause id: the
    entry of the last clause with that id, the files being taken in the
    sorted order of their paths and the clauses in the order of the
    documents.  The call changes nothing. *)
Theorem load_keeps_last evaluator_dir w documents :
  holds_documents loads_batch w
    (Py.sorted_str (glob_batch_json w evaluator_dir)) documents ->
  exists evaluations,
    load_batch_evaluations glob_batch_json loads_batch evaluator_dir w
    = (Py.Ok evaluations, w)
    /\ forall c,
         evaluations !! c
         = entry_of <$> last (filter (fun item => clause_id item.2 = c)
                                     (clauses_of documents)).
Proof.
  intros Hdocs. eexists. split.
  { unfold load_batch_evaluations. by apply load_batch_files_ok. }
  intros c. rewrite store_items_lookup.
  by destruct (last _).
Qed.

End LoadEvaluationsFacts.

Lemma load_keeps_last_witness :
  holds_documents SampleBatches.loads_batch SampleBatches.world
    (Py.sorted_str (SampleBatches.glob_batch_json SampleBatches.world "e"))
    [SampleBatches.document_10; SampleBatches.document_2]
  /\ exists evaluations,
       load_batch_evaluations SampleBatches.glob_batch_json
         SampleBatches.loads_batch "e" SampleBatches.world
       = (Py.Ok evaluations, SampleBatches.world)
       /\ forall c,
            evaluations !! c
            = entry_of
                <$> last (filter (fun item => clause_id item.2 = c)
                                 (clauses_of [SampleBatches.document_10;
                                              SampleBatches.document_2])).
Proof.
  assert (holds_documents SampleBatches.loads_batch SampleBatches.world
            (Py.sorted_str (SampleBatches.glob_batch_json SampleBatches.world "e"))
            [SampleBatches.document_10; SampleBatches.document_2]) as H.
  { assert (Py.sorted_str (SampleBatches.glob_batch_json SampleBatches.world "e")
            = ["e/batch_10.json"; "e/batch_2.json"]) as -> by by_computation.
    constructor; [|constructor; [|constructor]].
    - split; [not_member|]. exists "ten". split; by_computation.
    - split; [not_member|]. exists "two". split; by_computation. }
  split; [exact H|].
  exact (load_keeps_last SampleBatches.glob_batch_json SampleBatches.loads_batch
           "e" SampleBatches.world _ H).
Defined.

Example later_path_wins :
  exists evaluations,
    (load_batch_evaluations SampleBatches.glob_batch_json SampleBatches.loads_batch
       "e" SampleBatches.world).1 = Py.Ok evaluations
    /\ rating <$> evaluations !! "tesis1_a" = Some "accept".
Proof. eexists. split; [by_computation|by_computation]. Qed.

(** ** The printed summary *)

Lemma printed_app a b w : printed (a ++ b) w = printed b (printed a w).
Proof. apply fold_left_app. Qed.

Lemma stdout_printed lines w : stdout (printed lines w) = stdout w ++ lines.
Proof.
  revert w. induction lines as [|l lines IH]; intros w; simpl.
  - by rewrite app_nil_r.
  - rewrite IH. simpl. by rewrite <- app_assoc.
Qed.

Lemma frame_printed lines w :
  files (printed lines w) = files w /\ dirs (printed lines w) = dirs w
  /\ log (printed lines w) = log w /\ os_error (printed lines w) = os_error w.
Proof.
  revert w. induction lines as [|l lines IH]; intros w; simpl; [done|].
  destruct (IH (add_stdout l w)) as (-> & -> & -> & ->). done.
Qed.

Lemma sum_Z_len {A} (l : list (list A)) :
  sum_Z (len <$> l) = Z.of_nat (sum_list_with length l).
Proof.
  induction l as [|x l IH]; [done|].
  rewrite fmap_cons. cbn [sum_Z foldr sum_list_with]. fold (sum_Z (len <$> l)).
  rewrite IH. unfold len. lia.
Qed.

Lemma sum_len_arrays (zdds : list (Z * ZDDStructure)) :
  sum_Z ((fun structure => len (arrays structure)) <$> zdds.*2)
  = Z.of_nat (count_arrays zdds).
Proof.
  unfold count_arrays. induction zdds as [|[k s] zdds IH]; [done|].
  rewrite !fmap_cons. cbn [sum_Z foldr sum_list_with snd].
  fold (sum_Z ((fun structure => len (arrays structure)) <$> zdds.*2)).
  rewrite IH. unfold len. lia.
Qed.

Lemma sum_len_elements (zdds : list (Z * ZDDStructure)) :
  sum_Z ((fun structure => sum_Z (len <$> arrays structure)) <$> zdds.*2)
  = Z.of_nat (count_elements zdds).
Proof.
  unfold count_elements. induction zdds as [|[k s] zdds IH]; [done|].
  rewrite !fmap_cons. cbn [sum_Z foldr sum_list_with snd].
  fold (sum_Z ((fun structure => sum_Z (len <$> arrays structure)) <$> zdds.*2)).
  rewrite IH, sum_Z_len. lia.
Qed.

Lemma fold_union_elem {A C} `{Countable C} (g : A -> gset C) l s0 x :
  x ∈ fold_left (fun s a => s ∪ g a) l s0
  <-> x ∈ s0 \/ exists a, a ∈ l /\ x ∈ g a.
Proof.
  revert s0. induction l as [|a l IH]; intros s0; cbn [fold_left].
  - split; [by left|]. intros [?|(a & Ha & _)]; [done|].
    by apply elem_of_nil in Ha.
  - rewrite IH, elem_of_union. split.
    + intros [[?|?]|(a' & Ha' & Hx)]; [by left| |].
      * right. exists a. split; [|done]. apply elem_of_cons. by left.
      * right. exists a'. split; [|done]. apply elem_of_cons. by right.
    + intros [?|(a' & Ha' & Hx)]; [by left; left|].
      apply elem_of_cons in Ha' as [->|Ha']; [by left; right|].
      right. by exists a'.
Qed.

Lemma fold_arrays_union_elem {C} `{Countable C} (g : list Z -> gset C)
    (l : list ZDDStructure) s0 x :
  x ∈ fold_left (fun s structure =>
                   fold_left (fun s a => s ∪ g a) (arrays structure) s) l s0
  <-> x ∈ s0 \/ exists a, a ∈ mjoin (arrays <$> l) /\ x ∈ g a.
Proof.
  revert s0. induction l as [|st l IH]; intros s0; cbn [fold_left].
  - split; [by left|]. intros [?|(a & Ha & _)]; [done|].
    by apply elem_of_nil in Ha.
  - rewrite IH, fold_union_elem, fmap_cons.
    change (mjoin (?y :: ?r)) with (y ++ mjoin r). split.
    + intros [[?|(a & Ha & Hx)]|(a & Ha & Hx)]; [by left|..];
        right; exists a; (split; [|done]); apply elem_of_app; auto.
    + intros [?|(a & Ha & Hx)]; [by left; left|].
      apply elem_of_app in Ha as [Ha|Ha]; [left; right|right]; by exists a.
Qed.

Lemma all_variables_fold (zdds : list (Z * ZDDStructure)) :
  fold_left (fun all_variables structure =>
               fold_left (fun all_variables array =>
                            all_variables ∪ list_to_set array)
                         (arrays structure) all_variables)
            zdds.*2 (∅ : gset Z)
  = all_variables_of zdds.
Proof.
  apply leibniz_equiv. intros x.
  rewrite (fold_arrays_union_elem (fun a => list_to_set a)).
  unfold all_variables_of, all_arrays.
  rewrite elem_of_list_to_set, list_elem_of_join. split.
  - intros [Hx|(a & Ha & Hx)]; [by apply elem_of_empty in Hx|].
    exists a. split; [|done]. by apply elem_of_list_to_set in Hx.
  - intros (a & Hx & Ha). right. exists a. split; [done|].
    by apply elem_of_list_to_set.
Qed.

Lemma all_patterns_fold (zdds : list (Z * ZDDStructure)) :
  fold_left (fun all_patterns structure =>
               fold_left (fun all_patterns array =>
                            all_patterns ∪ {[Py.sorted array]})
                         (arrays structure) all_patterns)
            zdds.*2 (∅ : gset (list Z))
  = list_to_set (Py.sorted <$> all_arrays zdds).
Proof.
  apply leibniz_equiv. intros x.
  rewrite (fold_arrays_union_elem (fun a => {[Py.sorted a]})).
  unfold all_arrays. rewrite elem_of_list_to_set, list_elem_of_fmap. split.
  - intros [Hx|(a & Ha & Hx)]; [by apply elem_of_empty in Hx|].
    exists a. split; [|done]. by apply elem_of_singleton in Hx.
  - intros (a & -> & Ha). right. exists a. split; [done|].
    by apply elem_of_singleton.
Qed.

Lemma max_is_Some (l : list Z) : l <> [] -> is_Some (Py.max l).
Proof. destruct l; [done|]. by eexists. Qed.

Lemma range_run (zdds : list (Z * ZDDStructure)) w :
  (if decide (all_variables_of zdds = ∅) then ret tt
   else
     match Py.min (elements (all_variables_of zdds)),
           Py.max (elements (all_variables_of zdds)) with
     | Some lo, Some hi =>
         print ("Variable ID range: " +:+ Py.str lo +:+ " - " +:+ Py.str hi)
     | _, _ => raise (Py.ValueError "min() arg is an empty sequence")
     end) w
  = (Py.Ok tt, printed (range_lines zdds) w).
Proof.
  unfold range_lines. case_decide as Hv.
  - by rewrite Hv, elements_empty.
  - assert (elements (all_variables_of zdds) <> []) as Hne
      by (by intros ?%elements_empty_inv%leibniz_equiv).
    destruct (min_is_Some _ Hne) as [lo ->], (max_is_Some _ Hne) as [hi ->].
    done.
Qed.

Lemma for_each_breakdown (zdds : list (Z * ZDDStructure)) ks w :
  Forall (fun k => is_Some (PyDict.get zdds k)) ks ->
  for_each ks (breakdown_line zdds) w
  = (Py.Ok tt, printed (breakdown_text zdds <$> ks) w).
Proof.
  intros Hks. revert w. induction Hks as [|k ks [s Hs] _ IH]; intros w; [done|].
  cbn [for_each]. unfold bind. unfold breakdown_line at 1. rewrite Hs.
  unfold print at 1. rewrite IH, fmap_cons. cbn [printed fold_left].
  do 3 f_equal. unfold breakdown_text, arrays_at, elements_at. rewrite Hs.
  cbn [from_option]. by rewrite sum_Z_len.
Qed.

Lemma print_summary_run format_1f (zdds : list (Z * ZDDStructure)) w :
  print_summary format_1f zdds w
  = if decide (len zdds = 0)
    then (Py.Raise (Py.OtherError "division by zero"),
          printed (summary_head zdds) w)
    else if decide (Z.of_nat (count_arrays zdds) = 0)
    then (Py.Raise (Py.OtherError "division by zero"),
          printed (summary_head zdds
                   ++ ["Average arrays per ZDD: "
                       +:+ format_1f (Z.of_nat (count_arrays zdds)) (len zdds)]) w)
    else (Py.Ok tt,
          printed (summary_head zdds
                   ++ ["Average arrays per ZDD: "
                       +:+ format_1f (Z.of_nat (count_arrays zdds)) (len zdds);
                       "Average elements per array: "
                       +:+ format_1f (Z.of_nat (count_elements zdds))
                                     (Z.of_nat (count_arrays zdds))]
                   ++ range_lines zdds
                   ++ [LF +:+ "Per-ZDD Breakdown:"]
                   ++ (breakdown_text zdds <$> Py.sorted (PyDict.keys zdds))) w).
Proof.
  unfold print_summary.
  rewrite all_variables_fold, all_patterns_fold, sum_len_arrays, sum_len_elements.
  unfold divide_1f.
  do 8 (unfold bind at 1; unfold print at 1).
  unfold bind at 1. case_decide as Hz; [done|].
  unfold ret at 1. unfold bind at 1. unfold print at 1.
  unfold bind at 1. case_decide as Ha; [done|].
  unfold ret at 1. unfold bind at 1. unfold print at 1.
  unfold bind at 1. rewrite range_run.
  unfold bind at 1. unfold print at 1.
  rewrite for_each_breakdown by apply keys_sorted_present.
  f_equal. by rewrite !printed_app.
Qed.

Lemma count_arrays_zero (zdds : list (Z * ZDDStructure)) :
  count_arrays zdds = 0%nat <-> Forall (fun item => arrays item.2 = []) zdds.
Proof.
  unfold count_arrays. induction zdds as [|item zdds IH]; [by split|].
  cbn [sum_list_with]. rewrite Forall_cons, <- IH.
  destruct (arrays item.2); simpl; [tauto|]. split; [lia|by intros [? _]].
Qed.

Lemma patterns_size (zdds : list (Z * ZDDStructure)) :
  size (list_to_set (Py.sorted <$> all_arrays zdds) : gset (list Z))
  = length (collect_patterns zdds).
Proof.
  assert (NoDup (PyDict.keys (collect_patterns zdds))) as Hnd.
  { rewrite collect_patterns_flat. apply pattern_fold_NoDup. constructor. }
  rewrite <- (length_fmap fst (collect_patterns zdds)).
  change (fst <$> collect_patterns zdds) with (PyDict.keys (collect_patterns zdds)).
  rewrite <- (size_list_to_set (C := gset (list Z)) _ Hnd). f_equal.
  apply leibniz_equiv. intros p.
  rewrite !elem_of_list_to_set, collect_patterns_keys, list_elem_of_fmap.
  unfold all_arrays. split.
  - intros (a & -> & Ha). apply list_elem_of_join in Ha as (l & Ha & Hl).
    apply list_elem_of_fmap in Hl as (s & -> & Hs).
    apply list_elem_of_fmap in Hs as (item & -> & Hitem). by exists item, a.
  - intros (item & a & Hitem & Ha & ->). exists a. split; [done|].
    apply list_elem_of_join. exists (arrays item.2). split; [done|].
    apply list_elem_of_fmap. exists item.2. split; [done|].
    apply list_elem_of_fmap. by exists item.
Qed.

(** X26. [print_summary] returns exactly when some loaded structure has an
    array; otherwise one of its two averages divides by zero and it raises
    [ZeroDivisionError].  In both cases the banner and the five totals have
    been printed by then, and no file or directory is touched. *)
Theorem print_summary_outcome format_1f (zdds : list (Z * ZDDStructure)) w :
  exists r w' lines,
    print_summary format_1f zdds w = (r, w')
    /\ (Py.is_ok r = true
        <-> exists item, item ∈ zdds /\ arrays item.2 <> [])
    /\ (Py.is_ok r = true \/ r = Py.Raise (Py.OtherError "division by zero"))
    /\ stdout w' = stdout w ++ summary_head zdds ++ lines
    /\ files w' = files w /\ dirs w' = dirs w.
Proof.
  assert ((exists item, item ∈ zdds /\ arrays item.2 <> [])
          <-> count_arrays zdds <> 0%nat) as Hex.
  { rewrite count_arrays_zero, <- Exists_exists. split.
    - apply (Exists_not_Forall (fun item : Z * ZDDStructure => arrays item.2 = [])).
    - apply (not_Forall_Exists (fun item : Z * ZDDStructure => arrays item.2 = []));
        apply _. }
  rewrite print_summary_run. case_decide as Hz.
  - eexists _, _, []. split; [reflexivity|]. rewrite stdout_printed, app_nil_r.
    destruct (frame_printed (summary_head zdds) w) as (-> & -> & _).
    split.
    { rewrite Hex. split; [intros [=]|]. intros Hc.
      destruct zdds; [done|]. unfold len in Hz. simpl in Hz. lia. }
    split; [by right|]. by repeat split.
  - case_decide as Ha.
    + eexists _, _,
        ["Average arrays per ZDD: "
         +:+ format_1f (Z.of_nat (count_arrays zdds)) (len zdds)].
      split; [reflexivity|]. rewrite stdout_printed.
      match goal with |- context [printed ?l w] =>
        destruct (frame_printed l w) as (-> & -> & _) end.
      split.
      { rewrite Hex. split; [intros [=]|]. lia. }
      split; [by right|]. by repeat split.
    + eexists _, _,
        (["Average arrays per ZDD: "
          +:+ format_1f (Z.of_nat (count_arrays zdds)) (len zdds);
          "Average elements per array: "
          +:+ format_1f (Z.of_nat (count_elements zdds))
                        (Z.of_nat (count_arrays zdds))]
         ++ range_lines zdds
         ++ [LF +:+ "Per-ZDD Breakdown:"]
         ++ (breakdown_text zdds <$> Py.sorted (PyDict.keys zdds))).
      split; [reflexivity|]. rewrite stdout_printed.
      match goal with |- context [printed ?l w] =>
        destruct (frame_printed l w) as (-> & -> & _) end.
      split.
      { rewrite Hex. split; [lia|reflexivity]. }
      split; [by left|]. by repeat split.
Qed.

(** X27. The totals of the printed summary agree with the three reports: for
    a dictionary built by the assignments of [load_zdd_files], the summary
    shows as total of arrays the number of data rows of the per-array report,
    as total of elements the counter and the number of data rows of the
    per-element report, and as number of unique patterns the number of data
    rows of the pattern table. *)
Theorem summary_totals_match_reports format_1f (loads : list (Z * ZDDStructure)) w :
  exists r w' st complete_data summary_data pattern_data lines,
    print_summary format_1f (PyDict.of_assignments loads) w = (r, w')
    /\ generate_complete_csv (PyDict.of_assignments loads) = Some st
    /\ cs_rows st = complete_header :: complete_data
    /\ total_elements st = len complete_data
    /\ generate_array_summary_csv (PyDict.of_assignments loads)
       = Some (summary_header :: summary_data)
    /\ generate_pattern_analysis_csv (PyDict.of_assignments loads)
       = Some (pattern_header :: pattern_data)
    /\ stdout w'
       = stdout w
         ++ [LF +:+ str_mul "=" 60; "CORRECT ZDD ANALYSIS SUMMARY"; str_mul "=" 60;
             "Total ZDDs analyzed: " +:+ Py.str (len (PyDict.of_assignments loads));
             "Total arrays across all ZDDs: " +:+ Py.str (len summary_data);
             "Total elements across all arrays: " +:+ Py.str (len complete_data);
             "Unique variables across all ZDDs: "
               +:+ Py.str (Z.of_nat (size (all_variables_of
                                             (PyDict.of_assignments loads))));
             "Unique array patterns: " +:+ Py.str (len pattern_data)]
         ++ lines.
Proof.
  pose proof (dict_of_assignments_NoDup loads) as Hnd.
  set (zdds := PyDict.of_assignments loads) in *.
  assert (exists r w' lines,
            print_summary format_1f zdds w = (r, w')
            /\ stdout w' = stdout w ++ summary_head zdds ++ lines)
    as (r & w' & lines & Hrun & Hout).
  { rewrite print_summary_run.
    repeat case_decide; eexists _, _, _; (split; [reflexivity|]);
      rewrite stdout_printed; [|reflexivity..].
    by rewrite <- (app_nil_r (summary_head zdds)) at 1. }
  exists r, w'. eexists _, _, _, _, lines.
  split; [exact Hrun|].
  split; [apply generate_complete_csv_rows|]. split; [reflexivity|].
  assert (length (mjoin (complete_rows_of zdds <$> Py.sorted (PyDict.keys zdds)))
          = count_elements zdds) as Hce.
  { rewrite (length_mjoin_rows _ _ _ (length_complete_rows_of zdds)).
    by apply sum_elements_at. }
  split.
  { cbn [total_elements]. unfold len. rewrite Hce. f_equal.
    by apply sum_elements_at. }
  split; [apply generate_array_summary_csv_rows|].
  split; [apply generate_pattern_analysis_csv_rows|].
  rewrite Hout. f_equal. unfold summary_head, len. rewrite Hce.
  rewrite (length_mjoin_rows _ _ _ (length_summary_rows_of zdds)).
  rewrite (sum_arrays_at zdds Hnd).
  assert (length (pattern_cells <$> sorted_by_frequency (collect_patterns zdds))
          = size (list_to_set (Py.sorted <$> all_arrays zdds) : gset (list Z)))
    as ->.
  { rewrite length_fmap, patterns_size.
    apply Permutation_length, sorted_by_frequency_Permutation. }
  reflexivity.
Qed.

(** ** Loading the structures *)

Section AnalyzerFacts.
Variable decode : string -> Py.result ZDDStructure.
Variables path_name path_stem : string -> string.
Variable glob_zdd_files : world -> string -> list string.
Variable repr : string -> string.

Lemma for_each_load zdd_files loads zdds w :
  Forall2 (loads_as decode path_stem w) zdd_files loads ->
  for_each zdd_files (load_zdd_file decode path_name path_stem repr) (zdds, w)
  = (Py.Ok tt,
     (fold_left (fun d kv => PyDict.set d kv.1 kv.2) loads zdds,
      printed (zip_with (loaded_line path_name) zdd_files loads.*2) w)).
Proof.
  intros Hloads. revert zdds.
  assert (forall w1, files w1 = files w ->
            forall zdds,
              for_each zdd_files (load_zdd_file decode path_name path_stem repr)
                       (zdds, w1)
              = (Py.Ok tt,
                 (fold_left (fun d kv => PyDict.set d kv.1 kv.2) loads zdds,
                  printed (zip_with (loaded_line path_name) zdd_files loads.*2) w1)))
    as Hgen; [|by apply Hgen].
  induction Hloads as [|zdd_file [zdd_num structure] zdd_files loads
                         (suffix & bytes & Hsuffix & Hint & Hfile & Hdecode) _ IH];
    intros w1 Hw1 zdds; [done|].
  cbn [fst snd] in Hint, Hdecode.
  cbn [for_each]. unfold bind at 1. unfold load_zdd_file at 1.
  rewrite Hsuffix, Hint.
  unfold bind, lift_io, parser_load, print. cbn [fst snd].
  rewrite Hw1, Hfile, Hdecode.
  rewrite (IH (add_stdout (loaded_line path_name zdd_file structure) w1)) by done.
  done.
Qed.

(** [int] does not skip the separators 28 to 31, which [strip] removes. *)
Example int_separator :
  Py.int (String "028" "7") = None /\ Py.strip (String "028" "7") = "7"
  /\ Py.int (String "032" "7") = Some 7
  /\ parse_assignment (String "[" (String "028" "7]")) = Some [7].
Proof. repeat split; by vm_compute. Qed.

(** X28. When the listing finds files, each named so that its number can be
    read and each decoding, [load_zdd_files] on a new analyzer returns with
    [self.zdds] built by one assignment per file in the sorted order of the
    paths, a later file with the same number replacing an earlier one; it
    prints the count of files and one line per file with its magic number and
    number of arrays, and changes no file. *)
Theorem load_zdd_files_loads directory w loads :
  Py.sorted_str (glob_zdd_files w directory) <> [] ->
  Forall2 (loads_as decode path_stem w)
          (Py.sorted_str (glob_zdd_files w directory)) loads ->
  exists w',
    load_zdd_files decode path_name path_stem glob_zdd_files repr directory ([], w)
    = (Py.Ok tt, (PyDict.of_assignments loads, w'))
    /\ stdout w'
       = stdout w
         ++ ["Loading " +:+ Py.str (len loads)
             +:+ " ZDD files with correct parser..."]
         ++ zip_with (loaded_line path_name)
                     (Py.sorted_str (glob_zdd_files w directory)) loads.*2
    /\ files w' = files w /\ dirs w' = dirs w.
Proof.
  intros Hne Hloads. unfold load_zdd_files. cbn [snd].
  rewrite decide_False by done. unfold bind at 1. unfold lift_io, print at 1.
  cbn [fst snd].
  rewrite (for_each_load _ loads); [|exact Hloads].
  eexists. split; [reflexivity|].
  rewrite stdout_printed.
  match goal with |- context [printed ?l ?w0] =>
    destruct (frame_printed l w0) as (-> & -> & _) end.
  cbn [stdout add_stdout files dirs]. rewrite <- app_assoc.
  unfold len. by rewrite (Forall2_length _ _ _ Hloads).
Qed.

End AnalyzerFacts.

Lemma load_zdd_files_loads_witness :
  Py.sorted_str (RunCsv.glob_zdd_files Run.sample_world "d") <> []
  /\ Forall2 (loads_as Posix.decode RunCsv.path_stem Run.sample_world)
             (Py.sorted_str (RunCsv.glob_zdd_files Run.sample_world "d"))
             [(1, Run.zdd_1)]
  /\ exists w',
       RunCsv.load_zdd_files (fun s => s) "d" ([], Run.sample_world)
       = (Py.Ok tt, (PyDict.of_assignments [(1, Run.zdd_1)], w'))
       /\ stdout w'
          = stdout Run.sample_world
            ++ ["Loading " +:+ Py.str (len [(1, Run.zdd_1)])
                +:+ " ZDD files with correct parser..."]
            ++ zip_with (loaded_line Posix.name)
                        (Py.sorted_str (RunCsv.glob_zdd_files Run.sample_world "d"))
                        [(1, Run.zdd_1)].*2
       /\ files w' = files Run.sample_world /\ dirs w' = dirs Run.sample_world.
Proof.
  assert (Py.sorted_str (RunCsv.glob_zdd_files Run.sample_world "d")
          = ["d/zdd_1.bin"]) as Hglob by by_computation.
  assert (Py.sorted_str (RunCsv.glob_zdd_files Run.sample_world "d") <> []) as H1
    by (by rewrite Hglob).
  assert (Forall2 (loads_as Posix.decode RunCsv.path_stem Run.sample_world)
            (Py.sorted_str (RunCsv.glob_zdd_files Run.sample_world "d"))
            [(1, Run.zdd_1)]) as H2.
  { rewrite Hglob. constructor; [|constructor].
    exists "1", Run.zdd_1_bytes. repeat split; by_computation. }
  split; [exact H1|]. split; [exact H2|].
  exact (load_zdd_files_loads Posix.decode Posix.name RunCsv.path_stem
           RunCsv.glob_zdd_files (fun s => s) "d" Run.sample_world _ H1 H2).
Defined.

(** ** The path operations on examples *)

Example path_examples :
  Posix.Path "" = "." /\ Posix.Path "d//x" = "d/x" /\ Posix.Path "/a/./b/" = "/a/b"
  /\ Posix.Path "//a" = "//a" /\ Posix.Path "///a" = "/a"
  /\ Posix.Path "a/../b" = "a/../b"
  /\ Posix.name "d/x" = "x" /\ Posix.name "." = "" /\ Posix.name "/" = ""
  /\ Posix.parent "d/x" = "d" /\ Posix.parent "x" = "."
  /\ Posix.parent "/x" = "/" /\ Posix.parent "//a" = "//"
  /\ Posix.stem "a.tar.gz" = "a.tar" /\ Posix.stem ".bashrc" = ".bashrc"
  /\ Posix.stem "a." = "a."
  /\ Posix.with_suffix_txt "d.x/zdd" = "d.x/zdd.txt"
  /\ Posix.with_suffix_txt "d/zdd_1.bin" = "d/zdd_1.txt"
  /\ Posix.joinpath "." "x" = "x" /\ Posix.joinpath "/" "x" = "/x"
  /\ Posix.joinpath "d" "/x" = "/x" /\ Posix.joinpath "d" "x/./y" = "d/x/y"
  /\ Posix.joinpath "d" "" = "d".
Proof. repeat split; by vm_compute. Qed.

(** ** The number in a file name *)

Lemma mem_char_false c s :
  all_chars (fun d => negb (Ascii.eqb c d)) s = true -> Py.mem_char c s = false.
Proof.
  induction s as [|d r IH]; [done|]. simpl.
  intros [Hd Hr]%andb_true_iff. apply negb_true_iff in Hd as ->. by apply IH.
Qed.

Lemma mem_char_app_r c s t :
  Py.mem_char c t = true -> Py.mem_char c (s +:+ t) = true.
Proof.
  intros Ht. induction s as [|d r IH]; [by rewrite app_nil_str|].
  rewrite app_cons_str. simpl. rewrite IH. apply orb_true_r.
Qed.

Lemma split_nonempty sep s : Py.split sep s <> [].
Proof.
  destruct s as [|c r]; [done|]. simpl.
  destruct (Ascii.eqb c sep); [done|]. by destruct (Py.split sep r).
Qed.

Lemma split_app sep s t :
  Py.split sep (s +:+ String sep t) = Py.split sep s ++ Py.split sep t.
Proof.
  induction s as [|c r IH].
  - rewrite app_nil_str. simpl. by rewrite Ascii.eqb_refl.
  - rewrite app_cons_str. simpl. rewrite IH.
    destruct (Ascii.eqb c sep); [done|].
    pose proof (split_nonempty sep r) as Hne.
    by destruct (Py.split sep r).
Qed.

Lemma after_slash_app x n :
  Py.mem_char "/" n = false -> Posix.after_slash (x +:+ String "/" n) = n.
Proof.
  intros Hn. induction x as [|c r IH].
  - rewrite app_nil_str. cbn [Posix.after_slash]. by rewrite Hn.
  - rewrite app_cons_str. cbn [Posix.after_slash].
    rewrite mem_char_app_r; [exact IH|]. cbn [Py.mem_char]. done.
Qed.

Lemma after_slash_plain n : Py.mem_char "/" n = false -> Posix.after_slash n = n.
Proof.
  destruct n as [|c r]; [done|]. cbn [Py.mem_char Posix.after_slash].
  intros [Hc Hr]%orb_false_iff. rewrite Hr.
  rewrite Ascii.eqb_sym in Hc. by rewrite Hc.
Qed.

(** The path made of a text that ends with a slash and a plain component
    ends with that component. *)
Lemma path_last_component t n :
  all_chars (fun d => negb (Ascii.eqb d "/")) n = true ->
  n <> "" -> n <> "." ->
  Posix.Path (t +:+ String "/" n) = n
  \/ exists x, Posix.Path (t +:+ String "/" n) = x +:+ String "/" n.
Proof.
  intros Hn Hne Hdot. unfold Posix.Path.
  rewrite split_app, (split_no_sep "/" n Hn), filter_app.
  assert (filter (fun part : string => part <> "" /\ part <> ".") [n] = [n]) as ->.
  { rewrite filter_cons, decide_True by (by split). done. }
  set (ps := filter _ (Py.split "/" t)).
  set (root := if String.prefix "//" _ && negb (String.prefix "///" _)
               then "//" else if String.prefix "/" _ then "/" else "").
  rewrite decide_False by (intros [_ H]; by destruct ps).
  assert (root = "" \/ root = "/" \/ root = "//") as Hroot.
  { unfold root. repeat case_match; auto. }
  destruct ps as [|q ps'].
  - change (Py.join "/" ([] ++ [n])) with n.
    destruct Hroot as [-> | [-> | ->]].
    + left. apply app_nil_str.
    + right. by exists "".
    + right. by exists "/".
  - rewrite join_snoc by done. right. exists (root +:+ Py.join "/" (q :: ps')).
    by rewrite !app_assoc_str.
Qed.

Lemma mem_char_all c s :
  all_chars (fun d => negb (Ascii.eqb d c)) s = true -> Py.mem_char c s = false.
Proof.
  intros H. apply mem_char_false. eapply all_chars_mono; [|exact H].
  intros d Hd. by rewrite Ascii.eqb_sym.
Qed.

Lemma name_joinpath directory n :
  all_chars (fun d => negb (Ascii.eqb d "/")) n = true ->
  n <> "" -> n <> "." ->
  Posix.name (Posix.joinpath directory n) = n.
Proof.
  intros Hn Hne Hdot. pose proof (mem_char_all _ _ Hn) as Hmem.
  assert (forall t, Posix.name (Posix.Path (t +:+ String "/" n)) = n) as Hlast.
  { intros t. unfold Posix.name.
    destruct (path_last_component t n Hn Hne Hdot) as [->|[x ->]].
    - rewrite decide_False by done. by apply after_slash_plain.
    - rewrite decide_False.
      + by apply after_slash_app.
      + intros H. apply (f_equal String.length) in H.
        rewrite length_app_str in H. cbn [String.length] in H.
        destruct n; [done|]. cbn [String.length] in H. lia. }
  unfold Posix.joinpath.
  assert (String.prefix "/" n = false) as ->.
  { destruct n as [|c r]; [done|]. cbn [all_chars] in Hn.
    apply andb_true_iff in Hn as [Hc _]. apply negb_true_iff in Hc.
    cbn [String.prefix]. destruct (ascii_dec "/" c) as [<-|]; [done|done]. }
  case_decide as Hp.
  - destruct Hp as [->| ->].
    + apply (Hlast "").
    + apply (Hlast "/").
  - change (directory +:+ "/" +:+ n) with (directory +:+ String "/" n).
    apply Hlast.
Qed.

Lemma cut_last_dot_suffix r :
  Py.mem_char "." r = false -> Posix.cut_last_dot (r +:+ ".bin") = Some r.
Proof.
  induction r as [|c r IH]; [done|].
  cbn [Py.mem_char]. intros [Hc Hr]%orb_false_iff.
  rewrite app_cons_str. cbn [Posix.cut_last_dot].
  rewrite mem_char_app_r by done. by rewrite (IH Hr).
Qed.

Lemma stem_suffix c r :
  Py.mem_char "." r = false ->
  Posix.stem (String c r +:+ ".bin") = String c r.
Proof.
  intros Hr. rewrite app_cons_str. cbn [Posix.stem].
  by rewrite (cut_last_dot_suffix r Hr).
Qed.

Lemma is_int_char_plain c :
  is_int_char c = true ->
  negb (Ascii.eqb "/" c) = true /\ negb (Ascii.eqb "." c) = true
  /\ negb (Ascii.eqb c "_") = true.
Proof.
  destruct c as [[] [] [] [] [] [] [] []]; done.
Qed.

(** X29. The number of a file is read back from its name: for every integer
    [n], the file [zdd_<n>.bin] of a directory has the stem [zdd_<n>], whose
    second part after splitting at the underscore is the decimal text of [n],
    and [int] of that part is [n]. *)
Theorem zdd_file_number directory (n : Z) :
  RunCsv.path_stem (Posix.joinpath directory ("zdd_" +:+ Py.str n +:+ ".bin"))
  = "zdd_" +:+ Py.str n
  /\ Py.split "_" ("zdd_" +:+ Py.str n) !! 1%nat = Some (Py.str n)
  /\ Py.int (Py.str n) = Some n
  /\ RunCsv.is_zdd_file
       (Posix.name (Posix.joinpath directory ("zdd_" +:+ Py.str n +:+ ".bin")))
     = true.
Proof.
  pose proof (str_chars n) as Hn.
  assert (all_chars (fun d => negb (Ascii.eqb d "/"))
                    ("zdd_" +:+ Py.str n +:+ ".bin") = true) as Hslash.
  { rewrite !all_chars_app, !andb_true_iff.
    split; [done|]. split; [|done].
    eapply all_chars_mono; [|exact Hn]. intros c Hc.
    destruct (is_int_char_plain c Hc) as (H1 & _). by rewrite Ascii.eqb_sym. }
  assert (Py.mem_char "." ("dd_" +:+ Py.str n) = false) as Hdot.
  { apply mem_char_false. rewrite all_chars_app, andb_true_iff.
    split; [done|].
    eapply all_chars_mono; [|exact Hn]. intros c Hc.
    by apply is_int_char_plain. }
  assert (Posix.name (Posix.joinpath directory ("zdd_" +:+ Py.str n +:+ ".bin"))
          = "zdd_" +:+ Py.str n +:+ ".bin") as Hname.
  { apply name_joinpath; [exact Hslash|done|done]. }
  split.
  { unfold RunCsv.path_stem. rewrite Hname, <- app_assoc_str.
    change ("zdd_" +:+ Py.str n) with (String "z" ("dd_" +:+ Py.str n)).
    by apply stem_suffix. }
  split.
  { change ("zdd_" +:+ Py.str n) with ("zdd" +:+ String "_" (Py.str n)).
    rewrite split_app_sep by done. rewrite split_no_sep; [done|].
    eapply all_chars_mono; [|exact Hn]. intros c Hc.
    by apply is_int_char_plain. }
  split; [apply int_str|].
  rewrite Hname. unfold RunCsv.is_zdd_file.
  apply andb_true_iff. split.
  { change ("zdd_" +:+ Py.str n +:+ ".bin")
      with (String "z" (String "d" (String "d" (String "_" (Py.str n +:+ ".bin"))))).
    simpl. by destruct (Py.str n +:+ ".bin"). }
  apply bool_decide_eq_true_2. rewrite <- app_assoc_str.
  generalize ("zdd_" +:+ Py.str n). intros s.
  induction s as [|c r IH]; [done|].
  rewrite app_cons_str. cbn [String.length].
  rewrite length_app_str in *. cbn [String.length] in *.
  replace (S (String.length r + 4) - 4)%nat with (S (String.length r)) by lia.
  replace (String.length r + 4 - 4)%nat with (String.length r) in IH by lia.
  cbn [String.substring]. exact IH.
Qed.
